(** * sknlinechart: the line-chart widget of pkg/components/linechart.go

    A shallow embedding of the widget state [LineChartSkn], its public
    method surface (label and toggle accessors, the data-mutation entry
    points, the mouse handlers) and the data-point step of the renderer's
    [Layout], followed by the properties the specification states about
    them.

    Conventions of the embedding
    - a Go [int] is a [Z]; a [float32] is an IEEE-754 binary32 value of
      [spec_float] with the operations of [SpecFloat] at precision 24;
    - a slice is a [list]; a Go map is [NilMap] or an allocated [gmap];
      a pointer to a map is [NilPtr] or [Ptr];
    - a method with a pointer receiver takes the widget and gives the widget
      back; a run-time panic is the outcome [Panic];
    - [range] over a map visits the entries in an order Go leaves open: the
      class [GoRuntime] supplies the order, any permutation of the entries. *)

From Stdlib Require Import ZArith Bool Ascii Lia.
From Stdlib Require Import Floats.SpecFloat.
From stdpp Require Import base option list gmap strings pretty.
From Equations Require Import Equations.

Local Open Scope Z_scope.

(** ** float32 *)

Module float32.
Definition t : Type := spec_float.
Definition prec : Z := 24.
Definition emax : Z := 128.

Definition add : t → t → t := SFadd prec emax.
Definition sub : t → t → t := SFsub prec emax.
Definition mul : t → t → t := SFmul prec emax.
Definition div : t → t → t := SFdiv prec emax.

(** Every operation rounds to nearest even on its own: a product is
    rounded before it is added or subtracted.

    Go's [a < b], [a <= b], [a == b]; [a > b] is [ltb b a] and [a >= b]
    is [leb b a]. Every comparison with a NaN is false. *)
Definition ltb : t → t → bool := SFltb.
Definition leb : t → t → bool := SFleb.
Definition eqb : t → t → bool := SFeqb.
Definition gtb (a b : t) : bool := ltb b a.
Definition geb (a b : t) : bool := leb b a.

(** The conversion [float32(n)] of an integer, and integer literals. *)
Definition of_Z (n : Z) : t := binary_normalize prec emax n 0 false.

Definition zero : t := S754_zero false.
End float32.

Abbreviation float32 := float32.t.

(** ** The Go run time: panics *)

Inductive outcome (A : Type) : Type :=
| Ret (a : A)
| Panic.
Arguments Ret {A} a.
Arguments Panic {A}.

Definition obind {A B} (x : outcome A) (f : A → outcome B) : outcome B :=
  match x with
  | Ret a => f a
  | Panic => Panic
  end.

Notation "x ← 'do' y ; z" := (obind y (λ x, z))
  (at level 20, y at level 100, z at level 200, only parsing).

(** [len(s)] of a slice. *)
Definition len {A} (s : list A) : Z := Z.of_nat (length s).

(** ** The toolkit's geometry and events (fyne, desktop) *)

Module fyne.
Record Position : Type := NewPos { X : float32; Y : float32 }.
Record Size : Type := NewSize { Width : float32; Height : float32 }.
Record TextStyle : Type := { Bold : bool; Italic : bool; Monospace : bool }.

(** [Position.IsZero]: both coordinates compare equal to zero. *)
Definition IsZero (p : Position) : bool :=
  float32.eqb (X p) float32.zero && float32.eqb (Y p) float32.zero.

(** The kinds of canvas object the renderer builds. *)
Inductive CanvasObject : Type :=
| Rectangle | Line | Circle | Text (s : string) | Container.
End fyne.

Module desktop.
Inductive MouseButton : Type :=
| MouseButtonPrimary | MouseButtonSecondary | MouseButtonTertiary.

#[global] Instance MouseButton_eq_dec : EqDecision MouseButton.
Proof. solve_decision. Defined.

Record MouseEvent : Type := {
  Position : fyne.Position;
  Button : MouseButton
}.
End desktop.

(** What the widget asks of the toolkit and of [fmt]: the theme's padding
    and text size, the font metrics, and the text [fmt.Sprint] prints for a
    [float32]. *)
Class Toolkit : Type := {
  theme_Padding : float32;
  theme_TextSize : float32;
  MeasureText : string → float32 → fyne.TextStyle → fyne.Size;
  Sprint_float32 : float32 → string
}.

(** ** Data points and series *)

(** Modelled from the spec: the declaration of [SknChartDatapoint] and its
    constructor [NewSknDatapoint] are not among the sources. A data point is
    the glossary's (value, color, timestamp) tuple, with the marker bounds
    that [Layout] records on it and [MouseMoved] reads: one field for each
    of the methods [Value], [ColorName], [Timestamp] and [MarkerPosition]
    that the widget calls, [SetMarkerPosition] writing the last. A new point
    has its marker at the zero position. *)
Record SknChartDatapoint : Type := NewDatapoint {
  Value : float32;
  ColorName : string;
  Timestamp : string;
  markerTop : fyne.Position;
  markerBottom : fyne.Position
}.

Definition MarkerPosition (p : SknChartDatapoint) : fyne.Position * fyne.Position :=
  (markerTop p, markerBottom p).

Definition SetMarkerPosition (top bottom : fyne.Position) (p : SknChartDatapoint)
  : SknChartDatapoint :=
  {| Value := Value p; ColorName := ColorName p; Timestamp := Timestamp p;
     markerTop := top; markerBottom := bottom |}.

Definition NewSknDatapoint (value : float32) (colorName timestamp : string)
  : SknChartDatapoint :=
  {| Value := value; ColorName := colorName; Timestamp := timestamp;
     markerTop := fyne.NewPos float32.zero float32.zero;
     markerBottom := fyne.NewPos float32.zero float32.zero |}.

Abbreviation series := (list SknChartDatapoint).
Abbreviation seriesmap := (gmap string (list SknChartDatapoint)).

(** A Go map value and a pointer to one. *)
Inductive gomap : Type :=
| NilMap
| Map (m : seriesmap).

Inductive mapptr : Type :=
| NilPtr
| Ptr (m : gomap).

(** Reading a nil map gives what reading an empty one gives. *)
Definition entries (g : gomap) : seriesmap :=
  match g with
  | NilMap => ∅
  | Map m => m
  end.

(** [m[key]]: the zero value (a nil slice) when the key is missing. *)
Definition index (g : gomap) (key : string) : series :=
  default [] (entries g !! key).

(** [m[key] = v]: a panic on a nil map. *)
Definition assign (g : gomap) (key : string) (v : series) : outcome gomap :=
  match g with
  | NilMap => Panic
  | Map m => Ret (Map (<[key := v]> m))
  end.

(** [*p]: a panic on a nil pointer. *)
Definition deref (p : mapptr) : outcome gomap :=
  match p with
  | NilPtr => Panic
  | Ptr g => Ret g
  end.

(** The order in which a [range] loop visits a map. *)
Class GoRuntime : Type := {
  range : seriesmap → list (string * series);
  range_perm : ∀ m, range m ≡ₚ map_to_list m
}.

(** ** pkg/commons *)

Module commons.
(** Modelled from the spec: [commons.RemoveIndexFromSlice] is not among the
    sources. The constructor calls it with index 0 to remove the leading
    (oldest) point of a series ("truncated leading"): the slice without the
    element at [index]. *)
Definition RemoveIndexFromSlice {K} (index : nat) (slice : list K) : list K :=
  delete index slice.

(** Modelled from the spec: [commons.ShiftSlice] is not among the sources.
    The rolling window "evicts the oldest point": point 0 is rolled out and
    the new point takes the last place. *)
Definition ShiftSlice {K} (newData : K) (slice : list K) : list K :=
  drop 1 slice ++ [newData].
End commons.

(** ** Errors *)

(** The errors the widget builds with [fmt.Errorf], by message and
    arguments. [ErrTruncated] wraps the error accumulated so far. *)
#[warnings="-register-all"] Inductive error : Type :=
| ErrNoActiveWidget (fn : string)
| ErrLimitExceeded (key : string) (limit count : Z)
| ErrNewDataSmaller (newLen oldLen : Z)
| ErrTruncated (prev : option error) (key : string) (points limit : Z).

(** ** The widget state *)

Record LineChartSkn : Type := {
  DataPointXLimit : Z;
  EnableDataPointMarkers : bool;
  EnableHorizGridLines : bool;
  EnableVertGridLines : bool;
  EnableMousePointDisplay : bool;
  TopLeftLabel : string;
  TopCenteredLabel : string;
  TopRightLabel : string;
  LeftMiddleLabel : string;
  RightMiddleLabel : string;
  BottomLeftLabel : string;
  BottomCenteredLabel : string;
  BottomRightLabel : string;
  mouseDisplayStr : string;
  mouseDisplayPosition : fyne.Position;
  mouseDisplayFrameColor : string;
  dataPoints : mapptr;
  dataPointScale : fyne.Size;
  minSize : fyne.Size;
  objects : list fyne.CanvasObject
}.

(** [w.Refresh()] is the toolkit's [BaseWidget.Refresh], which is not among
    the sources: it asks the widget's renderer to redraw from the widget's
    fields and, once the renderer exists, writes none of them. On a widget
    that has not been shown yet the toolkit may build the renderer first,
    and the renderer's constructor appends to [objects]: the theorems on
    the data operations assert nothing of [objects]. *)
Definition Refresh (w : LineChartSkn) : LineChartSkn := w.

(** ** Accessors of the public surface *)

(** SetMinSize override the default min size of chart *)
Definition SetMinSize (s : fyne.Size) (w : LineChartSkn) : LineChartSkn :=
  {| DataPointXLimit := DataPointXLimit w;
     EnableDataPointMarkers := EnableDataPointMarkers w;
     EnableHorizGridLines := EnableHorizGridLines w;
     EnableVertGridLines := EnableVertGridLines w;
     EnableMousePointDisplay := EnableMousePointDisplay w;
     TopLeftLabel := TopLeftLabel w; TopCenteredLabel := TopCenteredLabel w;
     TopRightLabel := TopRightLabel w; LeftMiddleLabel := LeftMiddleLabel w;
     RightMiddleLabel := RightMiddleLabel w;
     BottomLeftLabel := BottomLeftLabel w;
     BottomCenteredLabel := BottomCenteredLabel w;
     BottomRightLabel := BottomRightLabel w;
     mouseDisplayStr := mouseDisplayStr w;
     mouseDisplayPosition := mouseDisplayPosition w;
     mouseDisplayFrameColor := mouseDisplayFrameColor w;
     dataPoints := dataPoints w; dataPointScale := dataPointScale w;
     minSize := s; objects := objects w |}.

Definition GetTopLeftLabel (w : LineChartSkn) : string := TopLeftLabel w.

Definition GetTitle (w : LineChartSkn) : string := TopCenteredLabel w.

Definition IsDataPointMarkersEnabled (w : LineChartSkn) : bool := EnableDataPointMarkers w.

Definition IsHorizGridLinesEnabled (w : LineChartSkn) : bool := EnableHorizGridLines w.

Definition IsVertGridLinesEnabled (w : LineChartSkn) : bool := EnableVertGridLines w.

Definition IsMousePointDisplayEnabled (w : LineChartSkn) : bool := EnableMousePointDisplay w.

Definition GetTopRightLabel (w : LineChartSkn) : string := TopRightLabel w.

Definition GetMiddleLeftLabel (w : LineChartSkn) : string := LeftMiddleLabel w.

Definition GetMiddleRightLabel (w : LineChartSkn) : string := RightMiddleLabel w.

Definition GetBottomLeftLabel (w : LineChartSkn) : string := BottomLeftLabel w.

Definition GetBottomCenteredLabel (w : LineChartSkn) : string := BottomCenteredLabel w.

Definition GetBottomRightLabel (w : LineChartSkn) : string := BottomRightLabel w.

(** [w.TopLeftLabel = newValue] *)
Definition SetTopLeftLabel (newValue : string) (w : LineChartSkn) : LineChartSkn :=
  {| DataPointXLimit := DataPointXLimit w;
     EnableDataPointMarkers := EnableDataPointMarkers w;
     EnableHorizGridLines := EnableHorizGridLines w;
     EnableVertGridLines := EnableVertGridLines w;
     EnableMousePointDisplay := EnableMousePointDisplay w;
     TopLeftLabel := newValue; TopCenteredLabel := TopCenteredLabel w;
     TopRightLabel := TopRightLabel w; LeftMiddleLabel := LeftMiddleLabel w;
     RightMiddleLabel := RightMiddleLabel w;
     BottomLeftLabel := BottomLeftLabel w;
     BottomCenteredLabel := BottomCenteredLabel w;
     BottomRightLabel := BottomRightLabel w;
     mouseDisplayStr := mouseDisplayStr w;
     mouseDisplayPosition := mouseDisplayPosition w;
     mouseDisplayFrameColor := mouseDisplayFrameColor w;
     dataPoints := dataPoints w; dataPointScale := dataPointScale w;
     minSize := minSize w; objects := objects w |}.

(** [w.TopCenteredLabel = newValue] *)
Definition SetTitle (newValue : string) (w : LineChartSkn) : LineChartSkn :=
  {| DataPointXLimit := DataPointXLimit w;
     EnableDataPointMarkers := EnableDataPointMarkers w;
     EnableHorizGridLines := EnableHorizGridLines w;
     EnableVertGridLines := EnableVertGridLines w;
     EnableMousePointDisplay := EnableMousePointDisplay w;
     TopLeftLabel := TopLeftLabel w; TopCenteredLabel := newValue;
     TopRightLabel := TopRightLabel w; LeftMiddleLabel := LeftMiddleLabel w;
     RightMiddleLabel := RightMiddleLabel w;
     BottomLeftLabel := BottomLeftLabel w;
     BottomCenteredLabel := BottomCenteredLabel w;
     BottomRightLabel := BottomRightLabel w;
     mouseDisplayStr := mouseDisplayStr w;
     mouseDisplayPosition := mouseDisplayPosition w;
     mouseDisplayFrameColor := mouseDisplayFrameColor w;
     dataPoints := dataPoints w; dataPointScale := dataPointScale w;
     minSize := minSize w; objects := objects w |}.

(** [w.TopRightLabel = newValue] *)
Definition SetTopRightLabel (newValue : string) (w : LineChartSkn) : LineChartSkn :=
  {| DataPointXLimit := DataPointXLimit w;
     EnableDataPointMarkers := EnableDataPointMarkers w;
     EnableHorizGridLines := EnableHorizGridLines w;
     EnableVertGridLines := EnableVertGridLines w;
     EnableMousePointDisplay := EnableMousePointDisplay w;
     TopLeftLabel := TopLeftLabel w; TopCenteredLabel := TopCenteredLabel w;
     TopRightLabel := newValue; LeftMiddleLabel := LeftMiddleLabel w;
     RightMiddleLabel := RightMiddleLabel w;
     BottomLeftLabel := BottomLeftLabel w;
     BottomCenteredLabel := BottomCenteredLabel w;
     BottomRightLabel := BottomRightLabel w;
     mouseDisplayStr := mouseDisplayStr w;
     mouseDisplayPosition := mouseDisplayPosition w;
     mouseDisplayFrameColor := mouseDisplayFrameColor w;
     dataPoints := dataPoints w; dataPointScale := dataPointScale w;
     minSize := minSize w; objects := objects w |}.

(** [w.LeftMiddleLabel = newValue] *)
Definition SetMiddleLeftLabel (newValue : string) (w : LineChartSkn) : LineChartSkn :=
  {| DataPointXLimit := DataPointXLimit w;
     EnableDataPointMarkers := EnableDataPointMarkers w;
     EnableHorizGridLines := EnableHorizGridLines w;
     EnableVertGridLines := EnableVertGridLines w;
     EnableMousePointDisplay := EnableMousePointDisplay w;
     TopLeftLabel := TopLeftLabel w; TopCenteredLabel := TopCenteredLabel w;
     TopRightLabel := TopRightLabel w; LeftMiddleLabel := newValue;
     RightMiddleLabel := RightMiddleLabel w;
     BottomLeftLabel := BottomLeftLabel w;
     BottomCenteredLabel := BottomCenteredLabel w;
     BottomRightLabel := BottomRightLabel w;
     mouseDisplayStr := mouseDisplayStr w;
     mouseDisplayPosition := mouseDisplayPosition w;
     mouseDisplayFrameColor := mouseDisplayFrameColor w;
     dataPoints := dataPoints w; dataPointScale := dataPointScale w;
     minSize := minSize w; objects := objects w |}.

(** [w.RightMiddleLabel = newValue] *)
Definition SetMiddleRightLabel (newValue : string) (w : LineChartSkn) : LineChartSkn :=
  {| DataPointXLimit := DataPointXLimit w;
     EnableDataPointMarkers := EnableDataPointMarkers w;
     EnableHorizGridLines := EnableHorizGridLines w;
     EnableVertGridLines := EnableVertGridLines w;
     EnableMousePointDisplay := EnableMousePointDisplay w;
     TopLeftLabel := TopLeftLabel w; TopCenteredLabel := TopCenteredLabel w;
     TopRightLabel := TopRightLabel w; LeftMiddleLabel := LeftMiddleLabel w;
     RightMiddleLabel := newValue; BottomLeftLabel := BottomLeftLabel w;
     BottomCenteredLabel := BottomCenteredLabel w;
     BottomRightLabel := BottomRightLabel w;
     mouseDisplayStr := mouseDisplayStr w;
     mouseDisplayPosition := mouseDisplayPosition w;
     mouseDisplayFrameColor := mouseDisplayFrameColor w;
     dataPoints := dataPoints w; dataPointScale := dataPointScale w;
     minSize := minSize w; objects := objects w |}.

(** [w.BottomLeftLabel = newValue] *)
Definition SetBottomLeftLabel (newValue : string) (w : LineChartSkn) : LineChartSkn :=
  {| DataPointXLimit := DataPointXLimit w;
     EnableDataPointMarkers := EnableDataPointMarkers w;
     EnableHorizGridLines := EnableHorizGridLines w;
     EnableVertGridLines := EnableVertGridLines w;
     EnableMousePointDisplay := EnableMousePointDisplay w;
     TopLeftLabel := TopLeftLabel w; TopCenteredLabel := TopCenteredLabel w;
     TopRightLabel := TopRightLabel w; LeftMiddleLabel := LeftMiddleLabel w;
     RightMiddleLabel := RightMiddleLabel w; BottomLeftLabel := newValue;
     BottomCenteredLabel := BottomCenteredLabel w;
     BottomRightLabel := BottomRightLabel w;
     mouseDisplayStr := mouseDisplayStr w;
     mouseDisplayPosition := mouseDisplayPosition w;
     mouseDisplayFrameColor := mouseDisplayFrameColor w;
     dataPoints := dataPoints w; dataPointScale := dataPointScale w;
     minSize := minSize w; objects := objects w |}.

(** [w.BottomRightLabel = newValue] *)
Definition SetBottomRightLabel (newValue : string) (w : LineChartSkn) : LineChartSkn :=
  {| DataPointXLimit := DataPointXLimit w;
     EnableDataPointMarkers := EnableDataPointMarkers w;
     EnableHorizGridLines := EnableHorizGridLines w;
     EnableVertGridLines := EnableVertGridLines w;
     EnableMousePointDisplay := EnableMousePointDisplay w;
     TopLeftLabel := TopLeftLabel w; TopCenteredLabel := TopCenteredLabel w;
     TopRightLabel := TopRightLabel w; LeftMiddleLabel := LeftMiddleLabel w;
     RightMiddleLabel := RightMiddleLabel w;
     BottomLeftLabel := BottomLeftLabel w;
     BottomCenteredLabel := BottomCenteredLabel w;
     BottomRightLabel := newValue; mouseDisplayStr := mouseDisplayStr w;
     mouseDisplayPosition := mouseDisplayPosition w;
     mouseDisplayFrameColor := mouseDisplayFrameColor w;
     dataPoints := dataPoints w; dataPointScale := dataPointScale w;
     minSize := minSize w; objects := objects w |}.

(** [w.BottomCenteredLabel = newValue] *)
Definition SetBottomCenteredLabel (newValue : string) (w : LineChartSkn) : LineChartSkn :=
  {| DataPointXLimit := DataPointXLimit w;
     EnableDataPointMarkers := EnableDataPointMarkers w;
     EnableHorizGridLines := EnableHorizGridLines w;
     EnableVertGridLines := EnableVertGridLines w;
     EnableMousePointDisplay := EnableMousePointDisplay w;
     TopLeftLabel := TopLeftLabel w; TopCenteredLabel := TopCenteredLabel w;
     TopRightLabel := TopRightLabel w; LeftMiddleLabel := LeftMiddleLabel w;
     RightMiddleLabel := RightMiddleLabel w;
     BottomLeftLabel := BottomLeftLabel w; BottomCenteredLabel := newValue;
     BottomRightLabel := BottomRightLabel w;
     mouseDisplayStr := mouseDisplayStr w;
     mouseDisplayPosition := mouseDisplayPosition w;
     mouseDisplayFrameColor := mouseDisplayFrameColor w;
     dataPoints := dataPoints w; dataPointScale := dataPointScale w;
     minSize := minSize w; objects := objects w |}.

(** [w.EnableDataPointMarkers = enable] *)
Definition SetDataPointMarkers (enable : bool) (w : LineChartSkn) : LineChartSkn :=
  {| DataPointXLimit := DataPointXLimit w; EnableDataPointMarkers := enable;
     EnableHorizGridLines := EnableHorizGridLines w;
     EnableVertGridLines := EnableVertGridLines w;
     EnableMousePointDisplay := EnableMousePointDisplay w;
     TopLeftLabel := TopLeftLabel w; TopCenteredLabel := TopCenteredLabel w;
     TopRightLabel := TopRightLabel w; LeftMiddleLabel := LeftMiddleLabel w;
     RightMiddleLabel := RightMiddleLabel w;
     BottomLeftLabel := BottomLeftLabel w;
     BottomCenteredLabel := BottomCenteredLabel w;
     BottomRightLabel := BottomRightLabel w;
     mouseDisplayStr := mouseDisplayStr w;
     mouseDisplayPosition := mouseDisplayPosition w;
     mouseDisplayFrameColor := mouseDisplayFrameColor w;
     dataPoints := dataPoints w; dataPointScale := dataPointScale w;
     minSize := minSize w; objects := objects w |}.

(** [w.EnableHorizGridLines = enable] *)
Definition SetHorizGridLines (enable : bool) (w : LineChartSkn) : LineChartSkn :=
  {| DataPointXLimit := DataPointXLimit w;
     EnableDataPointMarkers := EnableDataPointMarkers w;
     EnableHorizGridLines := enable;
     EnableVertGridLines := EnableVertGridLines w;
     EnableMousePointDisplay := EnableMousePointDisplay w;
     TopLeftLabel := TopLeftLabel w; TopCenteredLabel := TopCenteredLabel w;
     TopRightLabel := TopRightLabel w; LeftMiddleLabel := LeftMiddleLabel w;
     RightMiddleLabel := RightMiddleLabel w;
     BottomLeftLabel := BottomLeftLabel w;
     BottomCenteredLabel := BottomCenteredLabel w;
     BottomRightLabel := BottomRightLabel w;
     mouseDisplayStr := mouseDisplayStr w;
     mouseDisplayPosition := mouseDisplayPosition w;
     mouseDisplayFrameColor := mouseDisplayFrameColor w;
     dataPoints := dataPoints w; dataPointScale := dataPointScale w;
     minSize := minSize w; objects := objects w |}.

(** [w.EnableVertGridLines = enable] *)
Definition SetVertGridLines (enable : bool) (w : LineChartSkn) : LineChartSkn :=
  {| DataPointXLimit := DataPointXLimit w;
     EnableDataPointMarkers := EnableDataPointMarkers w;
     EnableHorizGridLines := EnableHorizGridLines w;
     EnableVertGridLines := enable;
     EnableMousePointDisplay := EnableMousePointDisplay w;
     TopLeftLabel := TopLeftLabel w; TopCenteredLabel := TopCenteredLabel w;
     TopRightLabel := TopRightLabel w; LeftMiddleLabel := LeftMiddleLabel w;
     RightMiddleLabel := RightMiddleLabel w;
     BottomLeftLabel := BottomLeftLabel w;
     BottomCenteredLabel := BottomCenteredLabel w;
     BottomRightLabel := BottomRightLabel w;
     mouseDisplayStr := mouseDisplayStr w;
     mouseDisplayPosition := mouseDisplayPosition w;
     mouseDisplayFrameColor := mouseDisplayFrameColor w;
     dataPoints := dataPoints w; dataPointScale := dataPointScale w;
     minSize := minSize w; objects := objects w |}.

(** [w.EnableMousePointDisplay = enable] *)
Definition SetMousePointDisplay (enable : bool) (w : LineChartSkn) : LineChartSkn :=
  {| DataPointXLimit := DataPointXLimit w;
     EnableDataPointMarkers := EnableDataPointMarkers w;
     EnableHorizGridLines := EnableHorizGridLines w;
     EnableVertGridLines := EnableVertGridLines w;
     EnableMousePointDisplay := enable; TopLeftLabel := TopLeftLabel w;
     TopCenteredLabel := TopCenteredLabel w;
     TopRightLabel := TopRightLabel w; LeftMiddleLabel := LeftMiddleLabel w;
     RightMiddleLabel := RightMiddleLabel w;
     BottomLeftLabel := BottomLeftLabel w;
     BottomCenteredLabel := BottomCenteredLabel w;
     BottomRightLabel := BottomRightLabel w;
     mouseDisplayStr := mouseDisplayStr w;
     mouseDisplayPosition := mouseDisplayPosition w;
     mouseDisplayFrameColor := mouseDisplayFrameColor w;
     dataPoints := dataPoints w; dataPointScale := dataPointScale w;
     minSize := minSize w; objects := objects w |}.

(** Assignments to the unexported fields, as the methods below write them. *)
Definition set_dataPoints (p : mapptr) (w : LineChartSkn) : LineChartSkn :=
  {| DataPointXLimit := DataPointXLimit w;
     EnableDataPointMarkers := EnableDataPointMarkers w;
     EnableHorizGridLines := EnableHorizGridLines w;
     EnableVertGridLines := EnableVertGridLines w;
     EnableMousePointDisplay := EnableMousePointDisplay w;
     TopLeftLabel := TopLeftLabel w; TopCenteredLabel := TopCenteredLabel w;
     TopRightLabel := TopRightLabel w; LeftMiddleLabel := LeftMiddleLabel w;
     RightMiddleLabel := RightMiddleLabel w;
     BottomLeftLabel := BottomLeftLabel w;
     BottomCenteredLabel := BottomCenteredLabel w;
     BottomRightLabel := BottomRightLabel w;
     mouseDisplayStr := mouseDisplayStr w;
     mouseDisplayPosition := mouseDisplayPosition w;
     mouseDisplayFrameColor := mouseDisplayFrameColor w; dataPoints := p;
     dataPointScale := dataPointScale w; minSize := minSize w;
     objects := objects w |}.

(** [w.DataPointXLimit = limit], a write to the exported field. *)
Definition set_DataPointXLimit (limit : Z) (w : LineChartSkn) : LineChartSkn :=
  {| DataPointXLimit := limit;
     EnableDataPointMarkers := EnableDataPointMarkers w;
     EnableHorizGridLines := EnableHorizGridLines w;
     EnableVertGridLines := EnableVertGridLines w;
     EnableMousePointDisplay := EnableMousePointDisplay w;
     TopLeftLabel := TopLeftLabel w; TopCenteredLabel := TopCenteredLabel w;
     TopRightLabel := TopRightLabel w; LeftMiddleLabel := LeftMiddleLabel w;
     RightMiddleLabel := RightMiddleLabel w;
     BottomLeftLabel := BottomLeftLabel w;
     BottomCenteredLabel := BottomCenteredLabel w;
     BottomRightLabel := BottomRightLabel w;
     mouseDisplayStr := mouseDisplayStr w;
     mouseDisplayPosition := mouseDisplayPosition w;
     mouseDisplayFrameColor := mouseDisplayFrameColor w;
     dataPoints := dataPoints w; dataPointScale := dataPointScale w;
     minSize := minSize w; objects := objects w |}.

Definition set_mouseDisplay (str frameColor : string) (pos : fyne.Position)
  (w : LineChartSkn) : LineChartSkn :=
  {| DataPointXLimit := DataPointXLimit w;
     EnableDataPointMarkers := EnableDataPointMarkers w;
     EnableHorizGridLines := EnableHorizGridLines w;
     EnableVertGridLines := EnableVertGridLines w;
     EnableMousePointDisplay := EnableMousePointDisplay w;
     TopLeftLabel := TopLeftLabel w; TopCenteredLabel := TopCenteredLabel w;
     TopRightLabel := TopRightLabel w; LeftMiddleLabel := LeftMiddleLabel w;
     RightMiddleLabel := RightMiddleLabel w;
     BottomLeftLabel := BottomLeftLabel w;
     BottomCenteredLabel := BottomCenteredLabel w;
     BottomRightLabel := BottomRightLabel w; mouseDisplayStr := str;
     mouseDisplayPosition := pos; mouseDisplayFrameColor := frameColor;
     dataPoints := dataPoints w; dataPointScale := dataPointScale w;
     minSize := minSize w; objects := objects w |}.

Definition set_mouseDisplayStr (str : string) (w : LineChartSkn) : LineChartSkn :=
  {| DataPointXLimit := DataPointXLimit w;
     EnableDataPointMarkers := EnableDataPointMarkers w;
     EnableHorizGridLines := EnableHorizGridLines w;
     EnableVertGridLines := EnableVertGridLines w;
     EnableMousePointDisplay := EnableMousePointDisplay w;
     TopLeftLabel := TopLeftLabel w; TopCenteredLabel := TopCenteredLabel w;
     TopRightLabel := TopRightLabel w; LeftMiddleLabel := LeftMiddleLabel w;
     RightMiddleLabel := RightMiddleLabel w;
     BottomLeftLabel := BottomLeftLabel w;
     BottomCenteredLabel := BottomCenteredLabel w;
     BottomRightLabel := BottomRightLabel w; mouseDisplayStr := str;
     mouseDisplayPosition := mouseDisplayPosition w;
     mouseDisplayFrameColor := mouseDisplayFrameColor w;
     dataPoints := dataPoints w; dataPointScale := dataPointScale w;
     minSize := minSize w; objects := objects w |}.

(** ** Construction *)

(** [dpl := 120], the series data point limit. *)
Definition dpl : Z := 120.

(** [for len(points) > dpl { points = commons.RemoveIndexFromSlice(0, points) }] *)
Equations? truncate_leading (points : series) : series by wf (length points) lt :=
  truncate_leading points with decide (dpl < len points) => {
    | left _ := truncate_leading (commons.RemoveIndexFromSlice 0 points);
    | right _ := points }.
Proof.
  destruct points as [|p points]; unfold len, dpl in *; simpl in *; lia.
Qed.

(** The body of the constructor's [range] loop for one entry: [m] is the
    caller's map, written in place, and [err] the error accumulated so far. *)
Definition truncate_entry (acc : seriesmap * option error) (kv : string * series)
  : seriesmap * option error :=
  let '(m, err) := acc in
  let '(key, points) := kv in
  if decide (dpl < len points) then
    let err := Some (ErrTruncated err key (len points) dpl) in
    let points := truncate_leading points in
    (<[key := points]> m, Some (ErrTruncated err key (len points) dpl))
  else (m, err).

Section Widget.
Context `{Toolkit} `{GoRuntime}.

(** [for key, points := range *dataPoints { ... }]: no entry to visit in a
    nil map. *)
Definition truncate_all (g : gomap) : gomap * option error :=
  match g with
  | NilMap => (NilMap, None)
  | Map m =>
    let '(m', err) := fold_left truncate_entry (range m) (m, None) in
    (Map m', err)
  end.

(** The widget [&LineChartSkn{...}] the constructor builds around the data
    map [g]. *)
Definition new_widget (topTitle bottomTitle : string) (g : gomap) : LineChartSkn :=
  let pad4 := float32.mul theme_Padding (float32.of_Z 4) in
  {| dataPoints := Ptr g;
     DataPointXLimit := dpl;
     dataPointScale := fyne.NewSize (float32.of_Z dpl) (float32.of_Z 110);
     EnableDataPointMarkers := true;
     EnableHorizGridLines := true;
     EnableVertGridLines := true;
     EnableMousePointDisplay := true;
     mouseDisplayStr := "";
     mouseDisplayPosition := fyne.NewPos float32.zero float32.zero;
     mouseDisplayFrameColor := "foreground";
     TopLeftLabel := "top left desc";
     TopCenteredLabel := topTitle;
     TopRightLabel := "";
     LeftMiddleLabel := "left middle desc";
     RightMiddleLabel := "right middle desc";
     BottomLeftLabel := "bottom left desc";
     BottomCenteredLabel := bottomTitle;
     BottomRightLabel := "bottom right desc";
     minSize := fyne.NewSize (float32.add (float32.of_Z 400) pad4)
                             (float32.add (float32.of_Z 300) pad4);
     objects := [] |}.

(** NewSknLineChart Create the Line Chart; the data point limit defaults
    to 120, and series beyond it are truncated (linechart.go, 128-167). *)
Definition NewSknLineChart (topTitle bottomTitle : string) (dataPoints : mapptr)
  : outcome (LineChartSkn * option error) :=
  g ← do deref dataPoints;
  let '(g, err) := truncate_all g in
  Ret (new_widget topTitle bottomTitle g, err).

(** ** Data mutation *)

(** The [range] loop of [ReplaceAllDataSeries]: the first series met that
    exceeds the limit ends the call with an error. *)
Fixpoint firstOverLimit (limit : Z) (kvs : list (string * series)) : option error :=
  match kvs with
  | [] => None
  | (key, points) :: kvs =>
    if decide (limit < len points)
    then Some (ErrLimitExceeded key limit (len points))
    else firstOverLimit limit kvs
  end.

(** [len(m)] of a map. *)
Definition maplen (g : gomap) : Z := Z.of_nat (size (entries g)).

(** ReplaceAllDataSeries replaces all the chart's series data; an error if
    any series exceeds the container limit (linechart.go, 302-318). *)
Definition ReplaceAllDataSeries (newData : mapptr) (w : LineChartSkn)
  : outcome (LineChartSkn * option error) :=
  match dataPoints w with
  | NilPtr => Ret (w, Some (ErrNoActiveWidget "ReplaceAllDataSeries()"))
  | Ptr old =>
    new ← do deref newData;
    if decide (maplen old <= maplen new) then
      match firstOverLimit (DataPointXLimit w) (range (entries new)) with
      | Some err => Ret (w, Some err)
      | None => Ret (Refresh (set_dataPoints newData w), None)
      end
    else Ret (w, Some (ErrNewDataSmaller (maplen new) (maplen old)))
  end.

(** ApplyNewDataSeries adds a new series of data to existing chart set; the
    receiver may be nil (linechart.go, 322-334). *)
Definition ApplyNewDataSeries (seriesName : string) (newSeries : series)
  (w : option LineChartSkn) : outcome (option LineChartSkn * option error) :=
  match w with
  | None => Ret (None, Some (ErrNoActiveWidget "ApplyNewDataSeries()"))
  | Some w =>
    if decide (len newSeries < DataPointXLimit w) then
      m ← do deref (dataPoints w);
      m ← do assign m seriesName newSeries;
      Ret (Some (Refresh (set_dataPoints (Ptr m) w)), None)
    else
      Ret (Some w,
           Some (ErrLimitExceeded seriesName (DataPointXLimit w) (len newSeries)))
  end.

(** ApplySingleDataPoint adds a new datapoint to an existing series; the
    receiver may be nil (linechart.go, 338-348). *)
Definition ApplySingleDataPoint (seriesName : string) (newDataPoint : SknChartDatapoint)
  (w : option LineChartSkn) : outcome (option LineChartSkn) :=
  match w with
  | None => Ret None
  | Some w =>
    m ← do deref (dataPoints w);
    m ← do (if decide (len (index m seriesName) < DataPointXLimit w)
            then assign m seriesName (index m seriesName ++ [newDataPoint])
            else assign m seriesName
                   (commons.ShiftSlice newDataPoint (index m seriesName)));
    Ret (Some (Refresh (set_dataPoints (Ptr m) w)))
  end.

(** ** Mouse handlers *)

(** MouseDown btn.2 toggles markers, btn.1 toggles mouse point display
    (linechart.go, 360-368). *)
Definition MouseDown (me : desktop.MouseEvent) (w : LineChartSkn) : LineChartSkn :=
  if decide (desktop.Button me = desktop.MouseButtonSecondary) then
    Refresh (SetDataPointMarkers (negb (EnableDataPointMarkers w)) w)
  else if decide (desktop.Button me = desktop.MouseButtonPrimary) then
    Refresh (SetMousePointDisplay (negb (EnableMousePointDisplay w)) w)
  else w.

(** [strings.Split(value, sep)[0]]: the text before the first [sep]. *)
Fixpoint split_head (sep : ascii) (value : string) : string :=
  match value with
  | EmptyString => EmptyString
  | String c rest =>
    if decide (c = sep) then EmptyString else String c (split_head sep rest)
  end.

(** enableMouseContainer composes display text, captures position and
    colorName for use by renderer. *)
Definition enableMouseContainer (value frameColor : string)
  (mousePosition : fyne.Position) (w : LineChartSkn) : LineChartSkn :=
  let ts := MeasureText (split_head "["%char value) theme_TextSize
              {| fyne.Bold := false; fyne.Italic := false; fyne.Monospace := false |} in
  let mp :=
    fyne.NewPos
      (float32.sub (fyne.X mousePosition)
                   (float32.div (fyne.Width ts) (float32.of_Z 2)))
      (float32.sub (float32.sub (fyne.Y mousePosition)
                                (float32.mul (float32.of_Z 3) (fyne.Height ts)))
                   theme_Padding) in
  set_mouseDisplay value frameColor mp w.

(** The hit test of [MouseMoved] on one point. *)
Definition under_mouse (pos : fyne.Position) (point : SknChartDatapoint) : bool :=
  let '(top, bottom) := MarkerPosition point in
  negb (fyne.IsZero pos) && negb (fyne.IsZero top) &&
  (float32.geb (fyne.X pos) (fyne.X top) && float32.leb (fyne.X pos) (fyne.X bottom) &&
   float32.geb (fyne.Y pos) (fyne.Y top) && float32.leb (fyne.Y pos) (fyne.Y bottom)).

(** [fmt.Sprint(" Series: ", key, ", Index: ", idx, ", Value: ", point.Value(),
    " [ ", point.Timestamp(), " ]")] *)
Definition describe (key : string) (idx : nat) (point : SknChartDatapoint) : string :=
  " Series: " +:+ key +:+ ", Index: " +:+ pretty idx +:+ ", Value: " +:+
  Sprint_float32 (Value point) +:+ " [ " +:+ Timestamp point +:+ " ]".

(** [for idx, point := range points { ... }] from index [idx] on. *)
Fixpoint mouse_over_points (key : string) (pos : fyne.Position) (idx : nat)
  (points : series) (w : LineChartSkn) : LineChartSkn :=
  match points with
  | [] => w
  | point :: points =>
    mouse_over_points key pos (S idx) points
      (if under_mouse pos point
       then Refresh (enableMouseContainer (describe key idx point) (ColorName point) pos w)
       else w)
  end.

(** [for key, points := range *w.dataPoints { ... }] *)
Fixpoint mouse_over_series (pos : fyne.Position) (kvs : list (string * series))
  (w : LineChartSkn) : LineChartSkn :=
  match kvs with
  | [] => w
  | (key, points) :: kvs =>
    mouse_over_series pos kvs (mouse_over_points key pos 0 points w)
  end.

(** MouseMoved interface method to discover which data point is under mouse
    (linechart.go, 377-393). *)
Definition MouseMoved (me : desktop.MouseEvent) (w : LineChartSkn)
  : outcome LineChartSkn :=
  if negb (EnableMousePointDisplay w) then Ret w
  else
    m ← do deref (dataPoints w);
    Ret (mouse_over_series (desktop.Position me) (range (entries m)) w).

(** MouseOut disable display of mouse data point display *)
Definition MouseOut (w : LineChartSkn) : LineChartSkn :=
  Refresh (set_mouseDisplayStr "" w).

End Widget.

(** ** The renderer: the data-point step of [Layout] (linechart.go, 652-687) *)

(** A line of the canvas, from [Position1] to [Position2]. *)
Record segment : Type := { Position1 : fyne.Position; Position2 : fyne.Position }.

(** The value [dp] that is scaled: [height] is [dataPointScale.Height]. *)
Definition clamp_value (height value : float32) : float32 :=
  if float32.gtb value height then height
  else if float32.ltb value float32.zero then float32.zero
  else value.

(** One turn of the loop over a series: the vertex [thisPoint], the line
    drawn to it from the previous vertex, and the point with its marker
    bounds recorded. *)
Definition layout_point (xp yp xScale yScale height : float32) (idx : nat)
  (lastPoint : fyne.Position) (point : SknChartDatapoint)
  : fyne.Position * segment * SknChartDatapoint :=
  let dp := clamp_value height (Value point) in
  let yy := float32.sub yp (float32.mul dp yScale) in
  let xx := float32.add xp (float32.mul (float32.of_Z (Z.of_nat idx)) xScale) in
  let thisPoint := fyne.NewPos xx yy in
  let lastPoint :=
    if decide (idx = 0%nat) then fyne.NewPos (fyne.X lastPoint) yy else lastPoint in
  let two := float32.of_Z 2 in
  let zt := fyne.NewPos (float32.sub xx two) (float32.sub yy two) in
  let zb := fyne.NewPos (float32.add xx two) (float32.add yy two) in
  (thisPoint,
   {| Position1 := thisPoint; Position2 := lastPoint |},
   SetMarkerPosition zt zb point).

(** [for idx, point := range data { ... }] from index [idx] on. *)
Fixpoint layout_series (xp yp xScale yScale height : float32) (idx : nat)
  (lastPoint : fyne.Position) (data : series) : list (segment * SknChartDatapoint) :=
  match data with
  | [] => []
  | point :: data =>
    let '(thisPoint, line, point) :=
      layout_point xp yp xScale yScale height idx lastPoint point in
    (line, point) :: layout_series xp yp xScale yScale height (S idx) thisPoint data
  end.

Section Renderer.
Context `{Toolkit}.

(** [r.xInc] and [r.yInc] for a canvas of size [s]. *)
Definition xInc (s : fyne.Size) : float32 :=
  float32.div (float32.sub (fyne.Width s) theme_Padding) (float32.of_Z 14).
Definition yInc (s : fyne.Size) : float32 :=
  float32.div (float32.sub (fyne.Height s) theme_Padding) (float32.of_Z 14).

(** [xp], [yp], [xScale] and [yScale] of the data-point step. *)
Definition data_xp (s : fyne.Size) : float32 := xInc s.
Definition data_yp (s : fyne.Size) : float32 := float32.mul (yInc s) (float32.of_Z 12).
Definition data_xScale (s : fyne.Size) : float32 :=
  float32.div (float32.mul (xInc s) (float32.of_Z 10)) (float32.of_Z 100).
Definition data_yScale (s : fyne.Size) : float32 :=
  float32.div (float32.mul (yInc s) (float32.of_Z 10)) (float32.of_Z 100).

(** The lines and points of one series after [Layout]. Every series starts
    from [lastPoint := fyne.NewPos(xp, yp)] and no turn of the loop reads
    what another series left behind. *)
Definition Layout_series (s : fyne.Size) (w : LineChartSkn) (data : series)
  : list (segment * SknChartDatapoint) :=
  layout_series (data_xp s) (data_yp s) (data_xScale s) (data_yScale s)
    (fyne.Height (dataPointScale w)) 0
    (fyne.NewPos (data_xp s) (data_yp s)) data.


End Renderer.

(** ** Runs of the data-mutation operations *)

Inductive mutation : Type :=
| CallReplaceAllDataSeries (newData : mapptr)
| CallApplyNewDataSeries (seriesName : string) (newSeries : series)
| CallApplySingleDataPoint (seriesName : string) (newDataPoint : SknChartDatapoint).

Section Runs.
Context `{GoRuntime}.

(** One call on a chart [w]; the chart after it. *)
Definition call (c : mutation) (w : LineChartSkn) : outcome LineChartSkn :=
  match c with
  | CallReplaceAllDataSeries newData =>
    r ← do ReplaceAllDataSeries newData w; Ret r.1
  | CallApplyNewDataSeries seriesName newSeries =>
    r ← do ApplyNewDataSeries seriesName newSeries (Some w); Ret (default w r.1)
  | CallApplySingleDataPoint seriesName newDataPoint =>
    r ← do ApplySingleDataPoint seriesName newDataPoint (Some w); Ret (default w r)
  end.

Fixpoint calls (cs : list mutation) (w : LineChartSkn) : outcome LineChartSkn :=
  match cs with
  | [] => Ret w
  | c :: cs => w ← do call c w; calls cs w
  end.

End Runs.

(** Every series of the chart's data map holds at most [limit] points. *)
Definition series_bounded (limit : Z) (w : LineChartSkn) : Prop :=
  ∀ g key points,
    dataPoints w = Ptr g → entries g !! key = Some points → len points <= limit.

(** ** A run time and a toolkit to evaluate with *)

(** [range] in the order of [map_to_list]. *)
Definition listed_runtime : GoRuntime :=
  {| range := map_to_list; range_perm := λ m, reflexivity (map_to_list m) |}.

(** Floats printed as mantissa and binary exponent, the form of Go's [%b]. *)
Definition Sprint_b (x : float32) : string :=
  match x with
  | S754_zero s => if s then "-0p-149" else "0p-149"
  | S754_infinity s => if s then "-Inf" else "+Inf"
  | S754_nan => "NaN"
  | S754_finite s m e => (if s then "-" else "") +:+ pretty (Zpos m) +:+ "p" +:+ pretty e
  end.

(** A theme with padding 4 and text size 14, and a font whose glyphs are 7
    wide and 16 high. *)
Definition plain_toolkit : Toolkit :=
  {| theme_Padding := float32.of_Z 4;
     theme_TextSize := float32.of_Z 14;
     MeasureText := λ text _ _,
       fyne.NewSize (float32.of_Z (7 * Z.of_nat (String.length text))) (float32.of_Z 16);
     Sprint_float32 := Sprint_b |}.

(** ** The fields of the widget, one by one *)

(** The names of the fields of [LineChartSkn], to say which of them a
    method leaves as they were. *)
Inductive field : Type :=
| F_DataPointXLimit | F_EnableDataPointMarkers | F_EnableHorizGridLines
| F_EnableVertGridLines | F_EnableMousePointDisplay | F_TopLeftLabel
| F_TopCenteredLabel | F_TopRightLabel | F_LeftMiddleLabel
| F_RightMiddleLabel | F_BottomLeftLabel | F_BottomCenteredLabel
| F_BottomRightLabel | F_mouseDisplayStr | F_mouseDisplayPosition
| F_mouseDisplayFrameColor | F_dataPoints | F_dataPointScale
| F_minSize | F_objects.

#[global] Instance field_eq_dec : EqDecision field.
Proof. solve_decision. Defined.

Inductive field_value : Type :=
| VInt (n : Z)
| VBool (b : bool)
| VString (s : string)
| VPosition (p : fyne.Position)
| VMapPtr (p : mapptr)
| VSize (s : fyne.Size)
| VObjects (os : list fyne.CanvasObject).

Definition read (f : field) (w : LineChartSkn) : field_value :=
  match f with
  | F_DataPointXLimit => VInt (DataPointXLimit w)
  | F_EnableDataPointMarkers => VBool (EnableDataPointMarkers w)
  | F_EnableHorizGridLines => VBool (EnableHorizGridLines w)
  | F_EnableVertGridLines => VBool (EnableVertGridLines w)
  | F_EnableMousePointDisplay => VBool (EnableMousePointDisplay w)
  | F_TopLeftLabel => VString (TopLeftLabel w)
  | F_TopCenteredLabel => VString (TopCenteredLabel w)
  | F_TopRightLabel => VString (TopRightLabel w)
  | F_LeftMiddleLabel => VString (LeftMiddleLabel w)
  | F_RightMiddleLabel => VString (RightMiddleLabel w)
  | F_BottomLeftLabel => VString (BottomLeftLabel w)
  | F_BottomCenteredLabel => VString (BottomCenteredLabel w)
  | F_BottomRightLabel => VString (BottomRightLabel w)
  | F_mouseDisplayStr => VString (mouseDisplayStr w)
  | F_mouseDisplayPosition => VPosition (mouseDisplayPosition w)
  | F_mouseDisplayFrameColor => VString (mouseDisplayFrameColor w)
  | F_dataPoints => VMapPtr (dataPoints w)
  | F_dataPointScale => VSize (dataPointScale w)
  | F_minSize => VSize (minSize w)
  | F_objects => VObjects (objects w)
  end.

(** The label accessors of the public surface, by label. *)
Inductive label : Type :=
| TopLeft | Title | TopRight | MiddleLeft | MiddleRight
| BottomLeft | BottomCentered | BottomRight.

Definition set_label (l : label) : string → LineChartSkn → LineChartSkn :=
  match l with
  | TopLeft => SetTopLeftLabel
  | Title => SetTitle
  | TopRight => SetTopRightLabel
  | MiddleLeft => SetMiddleLeftLabel
  | MiddleRight => SetMiddleRightLabel
  | BottomLeft => SetBottomLeftLabel
  | BottomCentered => SetBottomCenteredLabel
  | BottomRight => SetBottomRightLabel
  end.

Definition get_label (l : label) : LineChartSkn → string :=
  match l with
  | TopLeft => GetTopLeftLabel
  | Title => GetTitle
  | TopRight => GetTopRightLabel
  | MiddleLeft => GetMiddleLeftLabel
  | MiddleRight => GetMiddleRightLabel
  | BottomLeft => GetBottomLeftLabel
  | BottomCentered => GetBottomCenteredLabel
  | BottomRight => GetBottomRightLabel
  end.

Definition label_field (l : label) : field :=
  match l with
  | TopLeft => F_TopLeftLabel
  | Title => F_TopCenteredLabel
  | TopRight => F_TopRightLabel
  | MiddleLeft => F_LeftMiddleLabel
  | MiddleRight => F_RightMiddleLabel
  | BottomLeft => F_BottomLeftLabel
  | BottomCentered => F_BottomCenteredLabel
  | BottomRight => F_BottomRightLabel
  end.

(** The toggle accessors of the public surface, by toggle. *)
Inductive toggle : Type :=
| DataPointMarkers | HorizGridLines | VertGridLines | MousePointDisplay.

Definition set_toggle (t : toggle) : bool → LineChartSkn → LineChartSkn :=
  match t with
  | DataPointMarkers => SetDataPointMarkers
  | HorizGridLines => SetHorizGridLines
  | VertGridLines => SetVertGridLines
  | MousePointDisplay => SetMousePointDisplay
  end.

Definition is_enabled (t : toggle) : LineChartSkn → bool :=
  match t with
  | DataPointMarkers => IsDataPointMarkersEnabled
  | HorizGridLines => IsHorizGridLinesEnabled
  | VertGridLines => IsVertGridLinesEnabled
  | MousePointDisplay => IsMousePointDisplayEnabled
  end.

Definition toggle_field (t : toggle) : field :=
  match t with
  | DataPointMarkers => F_EnableDataPointMarkers
  | HorizGridLines => F_EnableHorizGridLines
  | VertGridLines => F_EnableVertGridLines
  | MousePointDisplay => F_EnableMousePointDisplay
  end.

(** A data point, and the chart the constructor builds around a map with
    the toolkit above, to evaluate with. *)
Definition sample_point : SknChartDatapoint :=
  NewSknDatapoint (float32.of_Z 62) "yellow" "Sat, 31 Oct 2026 10:00:00 UTC".

Definition sample_chart (g : gomap) : LineChartSkn :=
  @new_widget plain_toolkit "Title" "Footer" g.

(** A run of the three operations on an empty chart. *)
Definition sample_calls : list mutation :=
  [CallApplyNewDataSeries "many" (replicate 119 sample_point);
   CallApplySingleDataPoint "many" sample_point;
   CallApplySingleDataPoint "many" sample_point;
   CallReplaceAllDataSeries (Ptr (Map {["first" := replicate 120 sample_point]}))].

(** The hit test of [MouseMoved], spelled out: neither the cursor position
    nor the marker's top corner is the zero position, and the cursor lies
    between the marker's corners on both axes. *)
Definition within_marker (pos : fyne.Position) (point : SknChartDatapoint) : Prop :=
  fyne.IsZero pos = false ∧ fyne.IsZero (markerTop point) = false ∧
  float32.leb (fyne.X (markerTop point)) (fyne.X pos) = true ∧
  float32.leb (fyne.X pos) (fyne.X (markerBottom point)) = true ∧
  float32.leb (fyne.Y (markerTop point)) (fyne.Y pos) = true ∧
  float32.leb (fyne.Y pos) (fyne.Y (markerBottom point)) = true.

(** The fields [enableMouseContainer] writes. *)
Definition mouse_field (f : field) : Prop :=
  f = F_mouseDisplayStr ∨ f = F_mouseDisplayPosition ∨ f = F_mouseDisplayFrameColor.

(** The sample point with marker bounds around (100, 50), a point whose
    value is NaN, and a canvas size. *)
Definition marked_point : SknChartDatapoint :=
  SetMarkerPosition (fyne.NewPos (float32.of_Z 98) (float32.of_Z 48))
                    (fyne.NewPos (float32.of_Z 102) (float32.of_Z 52)) sample_point.

Definition nan_point : SknChartDatapoint :=
  NewSknDatapoint S754_nan "yellow" "Sat, 31 Oct 2026 10:00:00 UTC".

Definition sample_size : fyne.Size :=
  fyne.NewSize (float32.of_Z 1024) (float32.of_Z 512).


(** ** More of the widget's data *)

(** The last [n] elements of a slice. *)
Definition last_points {A} (n : nat) (l : list A) : list A := drop (length l - n) l.

(** The write of [ApplySingleDataPoint] to a series under the limit 120. *)
Definition rolled (old : series) (p : SknChartDatapoint) : series :=
  if decide (len old < 120) then old ++ [p] else commons.ShiftSlice p old.

(** The tooltip of [w] is the one [MouseMoved] writes for the point: its
    description, framed in its colour. *)
Definition shows `{Toolkit} (w : LineChartSkn) (key : string) (idx : nat)
  (point : SknChartDatapoint) : Prop :=
  mouseDisplayStr w = describe key idx point ∧
  mouseDisplayFrameColor w = ColorName point.

(** ** The renderer's canvas objects *)

(** The canvas objects of the renderer: a colour is the name it is looked
    up by ([theme.PrimaryColorNamed], [theme.ForegroundColor]), and
    [Hidden] is what [Show] and [Hide] set. The place that [Layout] gives a
    text through the toolkit's [Move] is left out. *)
Record canvasLine : Type := {
  line_StrokeColor : string;
  line_StrokeWidth : float32;
  line_Position1 : fyne.Position;
  line_Position2 : fyne.Position;
  line_Hidden : bool
}.

Record canvasCircle : Type := {
  circle_FillColor : string;
  circle_StrokeWidth : float32;
  circle_Position1 : fyne.Position;
  circle_Position2 : fyne.Position;
  circle_Hidden : bool
}.

Record canvasText : Type := {
  text_Text : string;
  text_Color : string;
  text_TextSize : float32;
  text_TextStyle : fyne.TextStyle;
  text_Hidden : bool
}.

(** The padded container of the tooltip: the stroke colour of its border,
    the text of its label, where it was moved to, and whether it is hidden. *)
Record mouseDisplay : Type := {
  border_StrokeColor : string;
  legend_Text : string;
  display_Position : fyne.Position;
  display_Hidden : bool
}.

(** A vertical box of texts. *)
Record vbox : Type := { box_Objects : list canvasText; box_Hidden : bool }.

(** [canvas.NewLine(color)] with [StrokeWidth] set to [width]. *)
Definition newLine (color : string) (width : float32) : canvasLine :=
  {| line_StrokeColor := color; line_StrokeWidth := width;
     line_Position1 := fyne.NewPos float32.zero float32.zero;
     line_Position2 := fyne.NewPos float32.zero float32.zero;
     line_Hidden := false |}.

(** [canvas.NewCircle(color)] with [StrokeWidth] set to [width]. *)
Definition newCircle (color : string) (width : float32) : canvasCircle :=
  {| circle_FillColor := color; circle_StrokeWidth := width;
     circle_Position1 := fyne.NewPos float32.zero float32.zero;
     circle_Position2 := fyne.NewPos float32.zero float32.zero;
     circle_Hidden := false |}.

(** [canvas.NewText(text, color)] with the text size and style given. *)
Definition newText (text color : string) (size : float32) (style : fyne.TextStyle)
  : canvasText :=
  {| text_Text := text; text_Color := color; text_TextSize := size;
     text_TextStyle := style; text_Hidden := false |}.

Definition text_style (bold italic : bool) : fyne.TextStyle :=
  {| fyne.Bold := bold; fyne.Italic := italic; fyne.Monospace := false |}.

Definition set_line_Hidden (h : bool) (l : canvasLine) : canvasLine :=
  {| line_StrokeColor := line_StrokeColor l; line_StrokeWidth := line_StrokeWidth l;
     line_Position1 := line_Position1 l; line_Position2 := line_Position2 l;
     line_Hidden := h |}.

Definition set_line_Positions (p1 p2 : fyne.Position) (l : canvasLine) : canvasLine :=
  {| line_StrokeColor := line_StrokeColor l; line_StrokeWidth := line_StrokeWidth l;
     line_Position1 := p1; line_Position2 := p2; line_Hidden := line_Hidden l |}.

Definition set_circle_Hidden (h : bool) (c : canvasCircle) : canvasCircle :=
  {| circle_FillColor := circle_FillColor c;
     circle_StrokeWidth := circle_StrokeWidth c;
     circle_Position1 := circle_Position1 c; circle_Position2 := circle_Position2 c;
     circle_Hidden := h |}.

Definition set_circle_Positions (p1 p2 : fyne.Position) (c : canvasCircle)
  : canvasCircle :=
  {| circle_FillColor := circle_FillColor c;
     circle_StrokeWidth := circle_StrokeWidth c;
     circle_Position1 := p1; circle_Position2 := p2;
     circle_Hidden := circle_Hidden c |}.

Definition set_text_Text (s : string) (t : canvasText) : canvasText :=
  {| text_Text := s; text_Color := text_Color t; text_TextSize := text_TextSize t;
     text_TextStyle := text_TextStyle t; text_Hidden := text_Hidden t |}.

Definition set_text_Hidden (h : bool) (t : canvasText) : canvasText :=
  {| text_Text := text_Text t; text_Color := text_Color t;
     text_TextSize := text_TextSize t; text_TextStyle := text_TextStyle t;
     text_Hidden := h |}.

(** [x.Show()] when [cond], [x.Hide()] otherwise. *)
Definition show_line_if (cond : bool) : canvasLine → canvasLine :=
  set_line_Hidden (negb cond).
Definition show_circle_if (cond : bool) : canvasCircle → canvasCircle :=
  set_circle_Hidden (negb cond).
Definition show_text_if (cond : bool) : canvasText → canvasText :=
  set_text_Hidden (negb cond).

(** [s != ""] *)
Definition nonempty (s : string) : bool :=
  match s with EmptyString => false | String _ _ => true end.

Abbreviation linemap := (gmap string (list canvasLine)).
Abbreviation circlemap := (gmap string (list canvasCircle)).

(** ** The renderer's state *)

(** The lines and markers of the data series, the grid lines, the tooltip,
    the six descriptions and the two side boxes. The chart frame and the
    scale labels, which [Layout] only places, are left out, and so are the
    sizes and places of the descriptions. *)
Record sknLineChartRenderer : Type := {
  r_dataPoints : linemap;
  r_dataPointMarkers : circlemap;
  r_mouseDisplayContainer : mouseDisplay;
  r_xLines : list canvasLine;
  r_yLines : list canvasLine;
  r_topLeftDesc : canvasText;
  r_topCenteredDesc : canvasText;
  r_topRightDesc : canvasText;
  r_bottomLeftDesc : canvasText;
  r_bottomCenteredDesc : canvasText;
  r_bottomRightDesc : canvasText;
  r_leftMiddleBox : vbox;
  r_rightMiddleBox : vbox
}.

Definition set_r_data (lines : linemap) (markers : circlemap)
  (r : sknLineChartRenderer) : sknLineChartRenderer :=
  {| r_dataPoints := lines; r_dataPointMarkers := markers;
     r_mouseDisplayContainer := r_mouseDisplayContainer r;
     r_xLines := r_xLines r; r_yLines := r_yLines r;
     r_topLeftDesc := r_topLeftDesc r; r_topCenteredDesc := r_topCenteredDesc r;
     r_topRightDesc := r_topRightDesc r; r_bottomLeftDesc := r_bottomLeftDesc r;
     r_bottomCenteredDesc := r_bottomCenteredDesc r;
     r_bottomRightDesc := r_bottomRightDesc r;
     r_leftMiddleBox := r_leftMiddleBox r; r_rightMiddleBox := r_rightMiddleBox r |}.

Definition set_r_grid (xLines yLines : list canvasLine)
  (r : sknLineChartRenderer) : sknLineChartRenderer :=
  {| r_dataPoints := r_dataPoints r; r_dataPointMarkers := r_dataPointMarkers r;
     r_mouseDisplayContainer := r_mouseDisplayContainer r;
     r_xLines := xLines; r_yLines := yLines;
     r_topLeftDesc := r_topLeftDesc r; r_topCenteredDesc := r_topCenteredDesc r;
     r_topRightDesc := r_topRightDesc r; r_bottomLeftDesc := r_bottomLeftDesc r;
     r_bottomCenteredDesc := r_bottomCenteredDesc r;
     r_bottomRightDesc := r_bottomRightDesc r;
     r_leftMiddleBox := r_leftMiddleBox r; r_rightMiddleBox := r_rightMiddleBox r |}.

Definition set_r_mouseDisplayContainer (d : mouseDisplay)
  (r : sknLineChartRenderer) : sknLineChartRenderer :=
  {| r_dataPoints := r_dataPoints r; r_dataPointMarkers := r_dataPointMarkers r;
     r_mouseDisplayContainer := d;
     r_xLines := r_xLines r; r_yLines := r_yLines r;
     r_topLeftDesc := r_topLeftDesc r; r_topCenteredDesc := r_topCenteredDesc r;
     r_topRightDesc := r_topRightDesc r; r_bottomLeftDesc := r_bottomLeftDesc r;
     r_bottomCenteredDesc := r_bottomCenteredDesc r;
     r_bottomRightDesc := r_bottomRightDesc r;
     r_leftMiddleBox := r_leftMiddleBox r; r_rightMiddleBox := r_rightMiddleBox r |}.

(** A byte below [utf8.RuneSelf] is a rune of its own; a text of such bytes
    is a text of ASCII characters. *)
Definition ascii_byte (c : ascii) : bool := (N_of_ascii c <? 128)%N.

Fixpoint is_ascii (text : string) : bool :=
  match text with
  | EmptyString => true
  | String c rest => ascii_byte c && is_ascii rest
  end.

(** Upper case in ASCII: the letters [a] to [z] become [A] to [Z], every
    other character stays. *)
Definition upper_ascii (c : ascii) : ascii :=
  if (97 <=? N_of_ascii c)%N && (N_of_ascii c <=? 122)%N
  then ascii_of_N (N_of_ascii c - 32)
  else c.

(** One text per character of a text, in upper case. *)
Fixpoint upper_chars (text : string) : list string :=
  match text with
  | EmptyString => []
  | String c rest => String (upper_ascii c) EmptyString :: upper_chars rest
  end.

(** What the renderer asks of Go and of the toolkit beyond the widget's
    needs: the order of a [range] over its own map of lines; the texts
    [strings.ToUpper(string(c))] of the runes [c] that a [range] over a
    label meets, which for a label of ASCII characters are its characters
    one by one in upper case; and the toolkit's [Resize] of a circle. *)
Class RendererRuntime : Type := {
  range_lines : linemap → list (string * list canvasLine);
  range_lines_perm : ∀ m, range_lines m ≡ₚ map_to_list m;
  upper_runes : string → list string;
  upper_runes_ascii :
    ∀ label, is_ascii label = true → upper_runes label = upper_chars label;
  circle_Resize : fyne.Size → canvasCircle → canvasCircle
}.

(** [r.dataPoints[key]] and [r.dataPointMarkers[key]]: a nil slice for a
    missing key. *)
Definition lines_of (lines : linemap) (key : string) : list canvasLine :=
  default [] (lines !! key).
Definition markers_of (markers : circlemap) (key : string) : list canvasCircle :=
  default [] (markers !! key).

(** The line and the marker made for a data point. *)
Definition point_line (point : SknChartDatapoint) : canvasLine :=
  newLine (ColorName point) (float32.of_Z 2).
Definition point_marker (point : SknChartDatapoint) : canvasCircle :=
  newCircle (ColorName point) (float32.of_Z 4).

(** [r.dataPoints[key] = append(r.dataPoints[key], x)] and the same for the
    markers. *)
Definition append_point (key : string) (point : SknChartDatapoint)
  (lm : linemap * circlemap) : linemap * circlemap :=
  (<[key := lines_of lm.1 key ++ [point_line point]]> lm.1,
   <[key := markers_of lm.2 key ++ [point_marker point]]> lm.2).

(** ** verifyDataPoints (linechart.go, 845-862) *)

(** [for idx, point := range points { if idx > len(r.dataPoints[key]) - 1
    { ... } }] from index [idx] on. *)
Fixpoint verify_points (key : string) (idx : nat) (points : series)
  (lm : linemap * circlemap) : linemap * circlemap :=
  match points with
  | [] => lm
  | point :: points =>
    verify_points key (S idx) points
      (if decide (Z.of_nat idx > len (lines_of lm.1 key) - 1)
       then append_point key point lm else lm)
  end.

(** The body of the loop over the series: a key without lines gets an
    empty slice of lines and one of markers first. The renderer stores no
    nil slice under a key, so [nil == r.dataPoints[key]] is a missing
    key. *)
Definition verify_entry (lm : linemap * circlemap) (kv : string * series)
  : linemap * circlemap :=
  verify_points kv.1 0 kv.2
    (match lm.1 !! kv.1 with
     | None => (<[kv.1 := []]> lm.1, <[kv.1 := []]> lm.2)
     | Some _ => lm
     end).

(** ** newSknLineChartRenderer (linechart.go, 449-575) *)

(** The stroke width 0.25 of a grid line. *)
Definition quarter : float32 := float32.div (float32.of_Z 1) (float32.of_Z 4).

(** The data-point loop: one line and one marker appended per point. *)
Definition create_entry (lm : linemap * circlemap) (kv : string * series)
  : linemap * circlemap :=
  fold_left (λ lm point, append_point kv.1 point lm) kv.2 lm.

(** The objects appended to [lineChart.objects], with the texts they are
    made with: the background, the grid lines, the scale labels, the
    titles, the side boxes and the four corner descriptions. *)
Definition renderer_objects (lineChart : LineChartSkn) : list fyne.CanvasObject :=
  [fyne.Rectangle] ++
  flat_map (λ _ : nat, [fyne.Line; fyne.Line]) (seq 0 11) ++
  ((λ i : nat, fyne.Text (pretty ((11 - Z.of_nat i) * 10))) <$> seq 0 12) ++
  ((λ i : nat, fyne.Text (pretty (Z.of_nat i * 10))) <$> seq 0 13) ++
  [fyne.Text (TopCenteredLabel lineChart); fyne.Text (BottomCenteredLabel lineChart);
   fyne.Container; fyne.Container;
   fyne.Text (TopLeftLabel lineChart); fyne.Text (TopRightLabel lineChart);
   fyne.Text (BottomLeftLabel lineChart); fyne.Text (BottomRightLabel lineChart)].

Definition set_objects (os : list fyne.CanvasObject) (w : LineChartSkn) : LineChartSkn :=
  {| DataPointXLimit := DataPointXLimit w;
     EnableDataPointMarkers := EnableDataPointMarkers w;
     EnableHorizGridLines := EnableHorizGridLines w;
     EnableVertGridLines := EnableVertGridLines w;
     EnableMousePointDisplay := EnableMousePointDisplay w;
     TopLeftLabel := TopLeftLabel w; TopCenteredLabel := TopCenteredLabel w;
     TopRightLabel := TopRightLabel w; LeftMiddleLabel := LeftMiddleLabel w;
     RightMiddleLabel := RightMiddleLabel w;
     BottomLeftLabel := BottomLeftLabel w;
     BottomCenteredLabel := BottomCenteredLabel w;
     BottomRightLabel := BottomRightLabel w;
     mouseDisplayStr := mouseDisplayStr w;
     mouseDisplayPosition := mouseDisplayPosition w;
     mouseDisplayFrameColor := mouseDisplayFrameColor w;
     dataPoints := dataPoints w; dataPointScale := dataPointScale w;
     minSize := minSize w; objects := os |}.

Definition set_mouseDisplayPosition (pos : fyne.Position) (w : LineChartSkn)
  : LineChartSkn :=
  set_mouseDisplay (mouseDisplayStr w) (mouseDisplayFrameColor w) pos w.

(** ** Objects (linechart.go, 753-838) *)

(** The markers of the lines of one key: [marker :=
    r.dataPointMarkers[key][idx]] panics beyond the markers there are. *)
Fixpoint show_markers (enable : bool) (idx : nat) (lines : list canvasLine)
  (markers : list canvasCircle) : outcome (list canvasCircle) :=
  match lines with
  | [] => Ret markers
  | _ :: lines =>
    match markers !! idx with
    | None => Panic
    | Some marker =>
      show_markers enable (S idx) lines (<[idx := show_circle_if enable marker]> markers)
    end
  end.

(** [for key, lines := range r.dataPoints { ... }]: the objects appended
    and the markers shown or hidden. *)
Fixpoint objects_of_lines (enable : bool) (kvs : list (string * list canvasLine))
  (markers : circlemap) : outcome (list fyne.CanvasObject * circlemap) :=
  match kvs with
  | [] => Ret ([], markers)
  | (key, lines) :: kvs =>
    shown ← do show_markers enable 0 lines (markers_of markers key);
    rest ← do objects_of_lines enable kvs
               (match lines with [] => markers | _ :: _ => <[key := shown]> markers end);
    Ret (flat_map (λ _, [fyne.Line; fyne.Circle]) lines ++ rest.1, rest.2)
  end.

(** ** Layout (linechart.go, 620-743) *)

(** [strings.Split(text, sep)[0]] for a separator that is not empty. *)
Fixpoint split_head_on (sep value : string) : string :=
  match value with
  | EmptyString => EmptyString
  | String c rest =>
    if String.prefix sep value then EmptyString
    else String c (split_head_on sep rest)
  end.

(** What the loop over the points of one series leaves: the lines and the
    markers of the key, and the points with their marker bounds. *)
Record laid_out : Type := {
  laid_lines : list canvasLine;
  laid_markers : list canvasCircle;
  laid_points : series
}.

(** The loop over the points of a series: [dpv := r.dataPoints[key][idx]]
    and [dpm := r.dataPointMarkers[key][idx]] panic beyond the lines and
    markers there are; the line is drawn from the vertex to the previous
    one, and the marker gets the corners [zt] and [zb] around the vertex
    and is resized to 5 by 5. *)
Fixpoint layout_lines `{RendererRuntime} (xp yp xScale yScale height : float32)
  (idx : nat) (lastPoint : fyne.Position) (data : series) (lines : list canvasLine)
  (markers : list canvasCircle) : outcome laid_out :=
  match data with
  | [] => Ret {| laid_lines := lines; laid_markers := markers; laid_points := [] |}
  | point :: data =>
    let '(thisPoint, line, point) :=
      layout_point xp yp xScale yScale height idx lastPoint point in
    match lines !! idx with
    | None => Panic
    | Some dpv =>
      let zt := fyne.NewPos (float32.sub (fyne.X thisPoint) (float32.of_Z 2))
                            (float32.sub (fyne.Y thisPoint) (float32.of_Z 2)) in
      match markers !! idx with
      | None => Panic
      | Some dpm =>
        let zb := fyne.NewPos (float32.add (fyne.X thisPoint) (float32.of_Z 2))
                              (float32.add (fyne.Y thisPoint) (float32.of_Z 2)) in
        rest ← do layout_lines xp yp xScale yScale height (S idx) thisPoint data
                   (<[idx := set_line_Positions (Position1 line) (Position2 line) dpv]>
                      lines)
                   (<[idx := circle_Resize (fyne.NewSize (float32.of_Z 5) (float32.of_Z 5))
                               (set_circle_Positions zt zb dpm)]> markers);
        Ret {| laid_lines := laid_lines rest; laid_markers := laid_markers rest;
               laid_points := point :: laid_points rest |}
      end
    end
  end.

Section RendererCode.
Context `{Toolkit} `{GoRuntime} `{RendererRuntime}.

(** verifyDataPoints Renderer method to inject newly add data series or
    points. *)
Definition verifyDataPoints (w : LineChartSkn) (r : sknLineChartRenderer)
  : outcome sknLineChartRenderer :=
  g ← do deref (dataPoints w);
  let lm :=
    fold_left verify_entry (range (entries g)) (r_dataPoints r, r_dataPointMarkers r) in
  Ret (set_r_data lm.1 lm.2 r).

(** The texts of a side box: one per rune of the label. *)
Definition box_texts (label : string) (size : float32) : list canvasText :=
  (λ c, newText c "foreground" size (text_style false false)) <$> upper_runes label.

(** newSknLineChartRenderer: the renderer, and the widget with the objects
    other than data lines, markers and tooltip appended to [objects]. *)
Definition newSknLineChartRenderer (lineChart : LineChartSkn)
  : outcome (sknLineChartRenderer * LineChartSkn) :=
  g ← do deref (dataPoints lineChart);
  let lm := fold_left create_entry (range (entries g)) (∅, ∅) in
  let plain text := newText text "foreground" theme_TextSize (text_style false false) in
  Ret ({| r_dataPoints := lm.1;
          r_dataPointMarkers := lm.2;
          r_mouseDisplayContainer :=
            {| border_StrokeColor := mouseDisplayFrameColor lineChart;
               legend_Text := "";
               display_Position := fyne.NewPos float32.zero float32.zero;
               display_Hidden := false |};
          r_xLines := replicate 11 (newLine "green" quarter);
          r_yLines := replicate 11 (newLine "green" quarter);
          r_topLeftDesc := plain (TopLeftLabel lineChart);
          r_topCenteredDesc :=
            newText (TopCenteredLabel lineChart) "foreground" (float32.of_Z 24)
              (text_style true false);
          r_topRightDesc := plain (TopRightLabel lineChart);
          r_bottomLeftDesc := plain (BottomLeftLabel lineChart);
          r_bottomCenteredDesc :=
            newText (BottomCenteredLabel lineChart) "foreground" (float32.of_Z 16)
              (text_style false true);
          r_bottomRightDesc := plain (BottomRightLabel lineChart);
          r_leftMiddleBox :=
            {| box_Objects := box_texts (LeftMiddleLabel lineChart) theme_TextSize;
               box_Hidden := false |};
          r_rightMiddleBox :=
            {| box_Objects := box_texts (RightMiddleLabel lineChart) theme_TextSize;
               box_Hidden := false |} |},
       set_objects (objects lineChart ++ renderer_objects lineChart) lineChart).

(** Refresh (linechart.go, 579-616): the renderer takes the tooltip, the
    descriptions and the side texts from the widget. *)
Definition r_Refresh (w : LineChartSkn) (r : sknLineChartRenderer)
  : outcome sknLineChartRenderer :=
  r ← do verifyDataPoints w r;
  Ret {| r_dataPoints := r_dataPoints r;
         r_dataPointMarkers := r_dataPointMarkers r;
         r_mouseDisplayContainer :=
           {| border_StrokeColor := mouseDisplayFrameColor w;
              legend_Text := mouseDisplayStr w;
              display_Position := display_Position (r_mouseDisplayContainer r);
              display_Hidden := display_Hidden (r_mouseDisplayContainer r) |};
         r_xLines := r_xLines r;
         r_yLines := r_yLines r;
         r_topLeftDesc := set_text_Text (TopLeftLabel w) (r_topLeftDesc r);
         r_topCenteredDesc := set_text_Text (TopCenteredLabel w) (r_topCenteredDesc r);
         r_topRightDesc := set_text_Text (TopRightLabel w) (r_topRightDesc r);
         r_bottomLeftDesc := set_text_Text (BottomLeftLabel w) (r_bottomLeftDesc r);
         r_bottomCenteredDesc :=
           set_text_Text (BottomCenteredLabel w) (r_bottomCenteredDesc r);
         r_bottomRightDesc := set_text_Text (BottomRightLabel w) (r_bottomRightDesc r);
         r_leftMiddleBox :=
           {| box_Objects := box_texts (LeftMiddleLabel w) (float32.of_Z 12);
              box_Hidden := box_Hidden (r_leftMiddleBox r) |};
         r_rightMiddleBox :=
           {| box_Objects := box_texts (RightMiddleLabel w) (float32.of_Z 12);
              box_Hidden := box_Hidden (r_rightMiddleBox r) |} |}.

(** MinSize (linechart.go, 747-749) *)
Definition r_MinSize (w : LineChartSkn) : fyne.Size :=
  fyne.NewSize (fyne.Width (minSize w)) (fyne.Height (minSize w)).

(** Objects: the objects to draw, and the renderer with what is enabled or
    not empty shown and the rest hidden. *)
Definition r_Objects (w : LineChartSkn) (r : sknLineChartRenderer)
  : outcome (list fyne.CanvasObject * sknLineChartRenderer) :=
  let show_desc t := show_text_if (nonempty (text_Text t)) t in
  let display := r_mouseDisplayContainer r in
  data ← do objects_of_lines (EnableDataPointMarkers w)
              (range_lines (r_dataPoints r)) (r_dataPointMarkers r);
  Ret (objects w ++ data.1 ++ [fyne.Container],
       {| r_dataPoints := r_dataPoints r;
          r_dataPointMarkers := data.2;
          r_mouseDisplayContainer :=
            {| border_StrokeColor := border_StrokeColor display;
               legend_Text := legend_Text display;
               display_Position := display_Position display;
               display_Hidden :=
                 negb (EnableMousePointDisplay w && nonempty (legend_Text display)) |};
          r_xLines := show_line_if (EnableHorizGridLines w) <$> r_xLines r;
          r_yLines := show_line_if (EnableVertGridLines w) <$> r_yLines r;
          r_topLeftDesc := show_desc (r_topLeftDesc r);
          r_topCenteredDesc := show_desc (r_topCenteredDesc r);
          r_topRightDesc := show_desc (r_topRightDesc r);
          r_bottomLeftDesc := show_desc (r_bottomLeftDesc r);
          r_bottomCenteredDesc := show_desc (r_bottomCenteredDesc r);
          r_bottomRightDesc := show_desc (r_bottomRightDesc r);
          r_leftMiddleBox :=
            {| box_Objects := box_Objects (r_leftMiddleBox r);
               box_Hidden := negb (nonempty (LeftMiddleLabel w)) |};
          r_rightMiddleBox :=
            {| box_Objects := box_Objects (r_rightMiddleBox r);
               box_Hidden := negb (nonempty (RightMiddleLabel w)) |} |}).

(** The grid lines (linechart.go, 624-638): the lines of [r.xLines] and of
    [r.yLines] on a canvas of size [s]. *)
Definition Layout_xLines (s : fyne.Size) (lines : list canvasLine) : list canvasLine :=
  let yp := float32.mul (float32.of_Z 12) (yInc s) in
  imap (λ idx line,
          let xp := float32.mul (float32.of_Z (Z.of_nat idx + 1)) (xInc s) in
          set_line_Positions
            (fyne.NewPos (float32.add xp (xInc s)) (yInc s))
            (fyne.NewPos (float32.add xp (xInc s)) (float32.add yp (float32.of_Z 8)))
            line) lines.

Definition Layout_yLines (s : fyne.Size) (lines : list canvasLine) : list canvasLine :=
  let xp := xInc s in
  imap (λ idx line,
          let yp := float32.mul (float32.of_Z (Z.of_nat idx + 1)) (yInc s) in
          set_line_Positions
            (fyne.NewPos (float32.sub xp (float32.of_Z 8)) (float32.add yp (yInc s)))
            (fyne.NewPos (float32.mul xp (float32.of_Z 13)) (float32.add yp (yInc s)))
            line) lines.

(** What the loop over the series has reached: the renderer's lines and
    markers and the widget's map. *)
Record layout_state : Type := {
  state_lines : linemap;
  state_markers : circlemap;
  state_points : seriesmap
}.

(** The body of the loop over the series (linechart.go, 658-687) for one
    entry: the lines and markers of the key are placed and the marker
    bounds recorded on the points of the series. *)
Definition layout_entry (s : fyne.Size) (w : LineChartSkn)
  (acc : outcome layout_state) (kv : string * series) : outcome layout_state :=
  a ← do acc;
  laid ← do layout_lines (data_xp s) (data_yp s) (data_xScale s) (data_yScale s)
              (fyne.Height (dataPointScale w)) 0
              (fyne.NewPos (data_xp s) (data_yp s)) kv.2
              (lines_of (state_lines a) kv.1) (markers_of (state_markers a) kv.1);
  Ret {| state_lines :=
           match kv.2 with
           | [] => state_lines a
           | _ :: _ => <[kv.1 := laid_lines laid]> (state_lines a)
           end;
         state_markers :=
           match kv.2 with
           | [] => state_markers a
           | _ :: _ => <[kv.1 := laid_markers laid]> (state_markers a)
           end;
         state_points := <[kv.1 := laid_points laid]> (state_points a) |}.

(** The data-point step of [Layout] with the renderer's lines and markers. *)
Definition Layout_data (s : fyne.Size) (w : LineChartSkn) (r : sknLineChartRenderer)
  : outcome (LineChartSkn * sknLineChartRenderer) :=
  g ← do deref (dataPoints w);
  match g with
  | NilMap => Ret (w, r)
  | Map m =>
    a ← do fold_left (layout_entry s w) (range m)
             (Ret {| state_lines := r_dataPoints r;
                     state_markers := r_dataPointMarkers r;
                     state_points := m |});
    Ret (set_dataPoints (Ptr (Map (state_points a))) w,
         set_r_data (state_lines a) (state_markers a) r)
  end.

(** The tooltip in [Layout] (linechart.go, 705-722): its position is kept
    off the top, left and right edges and the container moved there. *)
Definition Layout_mouseDisplay (s : fyne.Size) (w : LineChartSkn)
  (r : sknLineChartRenderer) : LineChartSkn * sknLineChartRenderer :=
  let display := r_mouseDisplayContainer r in
  let ts := MeasureText (split_head_on " [ " (legend_Text display)) (float32.of_Z 14)
              (text_style true true) in
  let pos := mouseDisplayPosition w in
  let top := float32.div theme_Padding (float32.of_Z 6) in
  let left := float32.div theme_Padding (float32.of_Z 8) in
  let y := if float32.ltb (fyne.Y pos) top then top else fyne.Y pos in
  let x := if float32.ltb (fyne.X pos) left then left else fyne.X pos in
  let x :=
    if float32.gtb (float32.add x (fyne.Width ts))
         (float32.sub (fyne.Width s) (float32.div theme_Padding (float32.of_Z 4)))
    then float32.sub
           (float32.sub (float32.sub (fyne.Width s) (fyne.Width ts)) theme_Padding)
           (float32.div theme_Padding (float32.of_Z 4))
    else x in
  let pos := fyne.NewPos x y in
  (set_mouseDisplayPosition pos w,
   set_r_mouseDisplayContainer
     {| border_StrokeColor := border_StrokeColor display;
        legend_Text := legend_Text display;
        display_Position := pos;
        display_Hidden := display_Hidden display |} r).

(** Layout, as far as the renderer's state above goes: the grid lines, the
    data lines and the tooltip. *)
Definition r_Layout (s : fyne.Size) (w : LineChartSkn) (r : sknLineChartRenderer)
  : outcome (LineChartSkn * sknLineChartRenderer) :=
  let r := set_r_grid (Layout_xLines s (r_xLines r)) (Layout_yLines s (r_yLines r)) r in
  wr ← do Layout_data s w r;
  Ret (Layout_mouseDisplay s wr.1 wr.2).

End RendererCode.

(** A renderer run time to evaluate with: [range] in the order of
    [map_to_list], a label's characters one by one in upper case, and a
    circle resized from its first corner. *)
Definition listed_renderer_runtime : RendererRuntime :=
  {| range_lines := map_to_list;
     range_lines_perm := λ m, reflexivity (map_to_list m);
     upper_runes := upper_chars;
     upper_runes_ascii := λ label _, eq_refl;
     circle_Resize := λ size c,
       set_circle_Positions (circle_Position1 c)
         (fyne.NewPos (float32.add (fyne.X (circle_Position1 c)) (fyne.Width size))
                      (float32.add (fyne.Y (circle_Position1 c)) (fyne.Height size)))
         c |}.

(** Whether the description, or side box, of a label is hidden. *)
Definition label_hidden (l : label) (r : sknLineChartRenderer) : bool :=
  match l with
  | TopLeft => text_Hidden (r_topLeftDesc r)
  | Title => text_Hidden (r_topCenteredDesc r)
  | TopRight => text_Hidden (r_topRightDesc r)
  | MiddleLeft => box_Hidden (r_leftMiddleBox r)
  | MiddleRight => box_Hidden (r_rightMiddleBox r)
  | BottomLeft => text_Hidden (r_bottomLeftDesc r)
  | BottomCentered => text_Hidden (r_bottomCenteredDesc r)
  | BottomRight => text_Hidden (r_bottomRightDesc r)
  end.

(** The renderer has a line and a marker for every point of the map. *)
Definition covers (lines : linemap) (markers : circlemap) (m : seriesmap) : Prop :=
  ∀ key data, m !! key = Some data →
    (length data ≤ length (lines_of lines key))%nat ∧
    (length data ≤ length (markers_of markers key))%nat.

(** Every key has as many markers as lines. *)
Definition in_step (lines : linemap) (markers : circlemap) : Prop :=
  ∀ key, length (markers_of markers key) = length (lines_of lines key).

(** The lines of a key after [Layout] has written the ends of the segments
    of the series to the first of them. *)
Definition place_lines (segs : list segment) (lines : list canvasLine)
  : list canvasLine :=
  zip_with (λ seg line, set_line_Positions (Position1 seg) (Position2 seg) line)
    segs lines ++ drop (length segs) lines.

(** The lines and markers of [key] after the turn of the loop of
    [verifyDataPoints] for the entry [(key, points)]: a line and a marker
    for each point beyond the lines there were. *)
Definition verified_lines (lines : linemap) (key : string) (points : series)
  : list canvasLine :=
  lines_of lines key ++ (point_line <$> drop (length (lines_of lines key)) points).

Definition verified_markers (lines : linemap) (markers : circlemap) (key : string)
  (points : series) : list canvasCircle :=
  match lines !! key with
  | None => []
  | Some _ => markers_of markers key
  end ++ (point_marker <$> drop (length (lines_of lines key)) points).

(** The markers of a key after [Layout] has given the first of them the
    marker bounds of the points of the series and resized them. *)
Definition place_markers `{RendererRuntime} (points : series)
  (markers : list canvasCircle) : list canvasCircle :=
  zip_with (λ point marker,
              circle_Resize (fyne.NewSize (float32.of_Z 5) (float32.of_Z 5))
                (set_circle_Positions (markerTop point) (markerBottom point) marker))
    points markers ++ drop (length points) markers.

(** The markers of a key after [Objects] has shown or hidden the marker of
    each of the [n] lines of the key. *)
Definition shown_markers (enable : bool) (n : nat) (markers : list canvasCircle)
  : list canvasCircle :=
  (show_circle_if enable <$> take n markers) ++ drop n markers.

(** The texts a label is shown with: the text of its description, or the
    texts of its side box. *)
Definition label_texts (l : label) (r : sknLineChartRenderer) : list string :=
  match l with
  | TopLeft => [text_Text (r_topLeftDesc r)]
  | Title => [text_Text (r_topCenteredDesc r)]
  | TopRight => [text_Text (r_topRightDesc r)]
  | MiddleLeft => text_Text <$> box_Objects (r_leftMiddleBox r)
  | MiddleRight => text_Text <$> box_Objects (r_rightMiddleBox r)
  | BottomLeft => [text_Text (r_bottomLeftDesc r)]
  | BottomCentered => [text_Text (r_bottomCenteredDesc r)]
  | BottomRight => [text_Text (r_bottomRightDesc r)]
  end.

(** A renderer around given lines and markers, to evaluate with. *)
Definition sample_renderer (lines : linemap) (markers : circlemap)
  : sknLineChartRenderer :=
  let desc := newText "desc" "foreground" (float32.of_Z 14) (text_style false false) in
  {| r_dataPoints := lines;
     r_dataPointMarkers := markers;
     r_mouseDisplayContainer :=
       {| border_StrokeColor := "foreground"; legend_Text := "";
          display_Position := fyne.NewPos float32.zero float32.zero;
          display_Hidden := false |};
     r_xLines := replicate 11 (newLine "green" quarter);
     r_yLines := replicate 11 (newLine "green" quarter);
     r_topLeftDesc := desc; r_topCenteredDesc := desc; r_topRightDesc := desc;
     r_bottomLeftDesc := desc; r_bottomCenteredDesc := desc;
     r_bottomRightDesc := desc;
     r_leftMiddleBox := {| box_Objects := []; box_Hidden := false |};
     r_rightMiddleBox := {| box_Objects := []; box_Hidden := false |} |}.

(** A series of two points, with the lines and markers the renderer makes
    for it, to evaluate with. *)
Definition sample_series : seriesmap := {["first" := [sample_point; marked_point]]}.
Definition sample_lines : linemap :=
  {["first" := [point_line sample_point; point_line marked_point]]}.
Definition sample_markers : circlemap :=
  {["first" := [point_marker sample_point; point_marker marked_point]]}.

(** * Properties *)

(** Reads field [f] on both sides of [H : ∀ f, read f w = read f w'] and
    identifies the two values. *)
Ltac read_field H f :=
  let E := fresh "E" in
  pose proof (H f) as E; simpl in E; injection E as ->.

(** ** Accessors and mouse buttons *)

(** Two widgets whose fields all read the same are the same widget: [read]
    leaves no field out. *)
Lemma read_ext (w w' : LineChartSkn) :
  (∀ f, read f w = read f w') → w = w'.
Proof.
  intros Hread. destruct w, w'.
  read_field Hread F_DataPointXLimit. read_field Hread F_EnableDataPointMarkers.
  read_field Hread F_EnableHorizGridLines. read_field Hread F_EnableVertGridLines.
  read_field Hread F_EnableMousePointDisplay. read_field Hread F_TopLeftLabel.
  read_field Hread F_TopCenteredLabel. read_field Hread F_TopRightLabel.
  read_field Hread F_LeftMiddleLabel. read_field Hread F_RightMiddleLabel.
  read_field Hread F_BottomLeftLabel. read_field Hread F_BottomCenteredLabel.
  read_field Hread F_BottomRightLabel. read_field Hread F_mouseDisplayStr.
  read_field Hread F_mouseDisplayPosition. read_field Hread F_mouseDisplayFrameColor.
  read_field Hread F_dataPoints. read_field Hread F_dataPointScale.
  read_field Hread F_minSize. read_field Hread F_objects.
  reflexivity.
Qed.

(** C8. For every label setter and getter pair and every toggle pair of the
    public surface, the getter returns the value the setter was called
    with, and every other field of the widget, the data-series map among
    them, reads as before the call. *)
Theorem setter_getter_frame (w : LineChartSkn) :
  (∀ (l : label) (v : string),
      get_label l (set_label l v w) = v ∧
      ∀ f, f ≠ label_field l → read f (set_label l v w) = read f w) ∧
  (∀ (t : toggle) (v : bool),
      is_enabled t (set_toggle t v w) = v ∧
      ∀ f, f ≠ toggle_field t → read f (set_toggle t v w) = read f w).
Proof.
  split.
  - intros l v. split; [by destruct l|].
    intros f Hf. destruct l, f; simpl in *; congruence.
  - intros t v. split; [by destruct t|].
    intros f Hf. destruct t, f; simpl in *; congruence.
Qed.

(** C9. The secondary button inverts the marker flag and the primary button
    inverts the mouse-point-display flag, each leaving every other field of
    the widget (the other flag and the data among them) as it was; two
    presses of the same button restore the widget. *)
Theorem MouseDown_toggles (me : desktop.MouseEvent) (w : LineChartSkn) :
  (desktop.Button me = desktop.MouseButtonSecondary →
     IsDataPointMarkersEnabled (MouseDown me w) = negb (IsDataPointMarkersEnabled w) ∧
     ∀ f, f ≠ F_EnableDataPointMarkers → read f (MouseDown me w) = read f w) ∧
  (desktop.Button me = desktop.MouseButtonPrimary →
     IsMousePointDisplayEnabled (MouseDown me w) = negb (IsMousePointDisplayEnabled w) ∧
     ∀ f, f ≠ F_EnableMousePointDisplay → read f (MouseDown me w) = read f w) ∧
  MouseDown me (MouseDown me w) = w.
Proof.
  unfold MouseDown. destruct me as [pos []]; simpl.
  - split; [discriminate|]. split.
    + intros _. split; [done|]. intros f Hf. by destruct f.
    + destruct w; simpl. by rewrite negb_involutive.
  - split.
    + intros _. split; [done|]. intros f Hf. by destruct f.
    + split; [discriminate|]. destruct w; simpl. by rewrite negb_involutive.
  - split; [discriminate|]. split; [discriminate|]. done.
Qed.

(** ** Slices *)

Lemma len_app {A} (s t : list A) : len (s ++ t) = len s + len t.
Proof. unfold len. rewrite length_app. lia. Qed.

Lemma len_nonneg {A} (s : list A) : 0 <= len s.
Proof. unfold len. lia. Qed.

Lemma ShiftSlice_len {K} (newData : K) (slice : list K) :
  slice ≠ [] → len (commons.ShiftSlice newData slice) = len slice.
Proof.
  intros Hne. destruct slice as [|x slice]; [done|].
  unfold commons.ShiftSlice, len. simpl. rewrite drop_0, length_app. simpl. lia.
Qed.

Lemma ShiftSlice_last {K} (newData : K) (slice : list K) :
  last (commons.ShiftSlice newData slice) = Some newData.
Proof. unfold commons.ShiftSlice. apply last_snoc. Qed.

(** ** The constructor's truncation loop *)

(** The loop keeps the last 120 points. *)
Lemma truncate_leading_drop (points : series) :
  truncate_leading points = drop (length points - 120) points.
Proof.
  funelim (truncate_leading points).
  - rewrite H. unfold commons.RemoveIndexFromSlice.
    destruct points as [|p points]; unfold len, dpl in *; simpl in *; [lia|].
    replace (length points - 119)%nat with (S (length points - 120)) by lia.
    done.
  - unfold len, dpl in *. replace (length points - 120)%nat with 0%nat by lia. done.
Qed.

(** The loop is the leading point removed once per point in excess. *)
Lemma truncate_leading_iter (points : series) :
  truncate_leading points =
  Nat.iter (length points - 120) (commons.RemoveIndexFromSlice 0) points.
Proof.
  rewrite truncate_leading_drop. generalize (length points - 120)%nat as n.
  intros n. revert points. induction n as [|n IH]; intros points; [done|].
  rewrite Nat.iter_succ_r, <- IH.
  unfold commons.RemoveIndexFromSlice.
  destruct points; simpl; [by rewrite drop_nil|done].
Qed.

Lemma truncate_leading_within (points : series) :
  len points <= 120 → truncate_leading points = points.
Proof.
  intros Hle. rewrite truncate_leading_drop. unfold len in Hle.
  by replace (length points - 120)%nat with 0%nat by lia.
Qed.

Lemma truncate_leading_len (points : series) :
  120 < len points → len (truncate_leading points) = 120.
Proof.
  intros Hlt. rewrite truncate_leading_drop. unfold len in *.
  rewrite length_drop. lia.
Qed.

(** What the loop over the entries [kvs] of the caller's map [m0] leaves: a
    key is either as in [m0] or truncated, the keys visited are truncated,
    and the error tells whether a series visited was over the limit. *)
Lemma truncate_entries (m0 : seriesmap) (kvs : list (string * series)) :
  (∀ key points, (key, points) ∈ kvs → m0 !! key = Some points) →
  let r := fold_left truncate_entry kvs (m0, None) in
  (∀ key, r.1 !! key = m0 !! key ∨ r.1 !! key = truncate_leading <$> m0 !! key) ∧
  (∀ key points, (key, points) ∈ kvs → r.1 !! key = Some (truncate_leading points)) ∧
  (r.2 ≠ None ↔ ∃ key points, (key, points) ∈ kvs ∧ 120 < len points).
Proof.
  induction kvs as [|[key points] kvs IH] using rev_ind; intros Hin r.
  - subst r. simpl. split; [by left|]. split.
    + intros ?? Hel. by apply elem_of_nil in Hel.
    + split; [done|]. intros (?&?&Hel&_). by apply elem_of_nil in Hel.
  - subst r. rewrite fold_left_app. simpl.
    destruct IH as (IHJ & IHK & IHE).
    { intros ?? Hel. apply Hin, elem_of_app. by left. }
    destruct (fold_left truncate_entry kvs (m0, None)) as [m1 e1]; simpl in *.
    assert (m0 !! key = Some points) as Hkey.
    { apply Hin, elem_of_app. right. by apply list_elem_of_singleton. }
    unfold dpl. destruct (decide (120 < len points)) as [Hover|Hin_limit]; simpl.
    + split; [|split].
      * intros key'. destruct (decide (key' = key)) as [->|Hne].
        -- right. by rewrite lookup_insert_eq, Hkey.
        -- rewrite lookup_insert_ne by done. apply IHJ.
      * intros key' points' [Hel|Hel%list_elem_of_singleton]%elem_of_app.
        -- destruct (decide (key' = key)) as [->|Hne].
           ++ rewrite lookup_insert_eq.
              assert (m0 !! key = Some points') as Hkey'
                by (apply Hin, elem_of_app; by left).
              congruence.
           ++ rewrite lookup_insert_ne by done. by apply IHK.
        -- injection Hel as -> ->. by rewrite lookup_insert_eq.
      * split; [|done]. intros _. exists key, points. split; [|done].
        apply elem_of_app. right. by apply list_elem_of_singleton.
    + split; [done|split].
      * intros key' points' [Hel|Hel%list_elem_of_singleton]%elem_of_app.
        -- by apply IHK.
        -- injection Hel as -> ->.
           rewrite truncate_leading_within by lia.
           destruct (IHJ key) as [->| ->]; [done|].
           rewrite Hkey. simpl. by rewrite truncate_leading_within by lia.
      * rewrite IHE. split.
        -- intros (k & ps & Hel & Hlt). exists k, ps. split; [|done].
           apply elem_of_app. by left.
        -- intros (k & ps & [Hel|Hel%list_elem_of_singleton]%elem_of_app & Hlt).
           ++ by exists k, ps.
           ++ injection Hel as -> ->. lia.
Qed.

Section Construction.
Context `{Toolkit} `{GoRuntime}.

(** A [range] loop visits exactly the entries of the map. *)
Lemma elem_of_range (m : seriesmap) (key : string) (points : series) :
  (key, points) ∈ range m ↔ m !! key = Some points.
Proof. rewrite (range_perm m). apply elem_of_map_to_list. Qed.

(** The constructor's loop truncates every series of the map. *)
Lemma truncate_all_entries (g : gomap) :
  (truncate_all g).1 = match g with NilMap => NilMap | Map m => Map (truncate_leading <$> m) end ∧
  ((truncate_all g).2 ≠ None ↔
     ∃ key points, entries g !! key = Some points ∧ 120 < len points).
Proof.
  destruct g as [|m]; simpl.
  - split; [done|]. split; [done|]. by intros (?&?&?&_).
  - pose proof (truncate_entries m (range m)) as Hloop. simpl in Hloop.
    destruct Hloop as (HJ & HK & HE); [intros ??; by apply elem_of_range|].
    destruct (fold_left truncate_entry (range m) (m, None)) as [m' e']; simpl in *.
    split.
    + f_equal. apply map_eq. intros key. rewrite lookup_fmap.
      destruct (m !! key) as [points|] eqn:Hkey.
      * simpl. by apply HK, elem_of_range.
      * destruct (HJ key) as [->| ->]; by rewrite ?Hkey.
    + rewrite HE. by setoid_rewrite elem_of_range.
Qed.

(** The constructor on a valid pointer: the widget around the truncated
    map, and the error of the loop. *)
Lemma NewSknLineChart_returns (topTitle bottomTitle : string) (g : gomap) :
  NewSknLineChart topTitle bottomTitle (Ptr g) =
  Ret (new_widget topTitle bottomTitle (truncate_all g).1, (truncate_all g).2).
Proof. unfold NewSknLineChart. simpl. by destruct (truncate_all g). Qed.

(** C3. For every initial data map, nil or allocated, [NewSknLineChart]
    returns a chart and does not panic. The chart's map has the keys of the
    initial map; a series longer than 120 points is cut down by removing its
    leading point once per point in excess, which keeps its last 120 points;
    a series of at most 120 points is unchanged; and the error returned is
    non-nil exactly when some series was longer than 120 points. *)
Theorem NewSknLineChart_truncates (topTitle bottomTitle : string) (g : gomap) :
  ∃ w err g',
    NewSknLineChart topTitle bottomTitle (Ptr g) = Ret (w, err) ∧
    dataPoints w = Ptr g' ∧
    (∀ key, entries g' !! key = None ↔ entries g !! key = None) ∧
    (∀ key points, entries g !! key = Some points →
       (120 < len points →
          ∃ kept,
            entries g' !! key = Some kept ∧
            kept = Nat.iter (length points - 120) (commons.RemoveIndexFromSlice 0) points ∧
            kept = drop (length points - 120) points ∧
            len kept = 120) ∧
       (len points <= 120 → entries g' !! key = Some points)) ∧
    (err ≠ None ↔ ∃ key points, entries g !! key = Some points ∧ 120 < len points).
Proof.
  rewrite NewSknLineChart_returns.
  pose proof (truncate_all_entries g) as [Hmap Herr].
  destruct (truncate_all g) as [g' err]; simpl in *.
  eexists _, err, g'. split; [done|]. split; [done|].
  assert (∀ key, entries g' !! key = truncate_leading <$> entries g !! key) as Hg'.
  { intros key. subst g'. destruct g; simpl; [by rewrite !lookup_empty|].
    by rewrite lookup_fmap. }
  split; [|split; [|done]].
  - intros key. rewrite Hg'. by rewrite fmap_None.
  - intros key points Hkey. rewrite Hg', Hkey. simpl. split.
    + intros Hover. eexists. split; [done|].
      split; [apply truncate_leading_iter|].
      split; [apply truncate_leading_drop|by apply truncate_leading_len].
    + intros Hle. by rewrite truncate_leading_within.
Qed.

End Construction.

(** C3, evaluated: of two series, the one of 125 points loses its five
    leading points and the error is non-nil. *)
Example NewSknLineChart_truncates_125 :
  ∃ w err,
    @NewSknLineChart plain_toolkit listed_runtime "Title" "Footer"
      (Ptr (Map (<["first" := replicate 125 sample_point]>
                   {["second" := [sample_point]]}))) = Ret (w, Some err) ∧
    dataPoints w =
    Ptr (Map (<["first" := replicate 120 sample_point]> {["second" := [sample_point]]})).
Proof. eexists _, _. split; [vm_compute; reflexivity|]. vm_compute. reflexivity. Qed.

(** ** The rolling window *)

(** [ApplySingleDataPoint] on a widget: the one write it makes. *)
Lemma ApplySingleDataPoint_cases (seriesName : string) (p : SknChartDatapoint)
  (w : LineChartSkn) :
  ApplySingleDataPoint seriesName p (Some w) =
  match dataPoints w with
  | Ptr (Map m) =>
    let old := index (Map m) seriesName in
    Ret (Some (set_dataPoints
                 (Ptr (Map (<[seriesName :=
                               if decide (len old < DataPointXLimit w)
                               then old ++ [p] else commons.ShiftSlice p old]> m))) w))
  | _ => Panic
  end.
Proof.
  unfold ApplySingleDataPoint. destruct (dataPoints w) as [|[|m]]; simpl; [done|..].
  - by destruct (decide _).
  - by destruct (decide _).
Qed.

(** C1, as amended. On a widget whose data map is allocated and whose
    [DataPointXLimit] is 120, [ApplySingleDataPoint] returns and writes the
    named series and, its objects apart, no other field of the widget: it
    appends the point when the series holds fewer than 120 points, and
    otherwise drops point 0 and appends the point at the end. The series
    then has the new point as its last element, and it holds at most 120
    points when it held at most 120 before the call. *)
Theorem ApplySingleDataPoint_rolls (w : LineChartSkn) (m : seriesmap)
  (seriesName : string) (newDataPoint : SknChartDatapoint) :
  DataPointXLimit w = 120 →
  dataPoints w = Ptr (Map m) →
  let old := index (Map m) seriesName in
  ∃ w' new,
    ApplySingleDataPoint seriesName newDataPoint (Some w) = Ret (Some w') ∧
    dataPoints w' = Ptr (Map (<[seriesName := new]> m)) ∧
    (∀ f, f ≠ F_dataPoints → f ≠ F_objects → read f w' = read f w) ∧
    (len old < 120 → new = old ++ [newDataPoint]) ∧
    (120 <= len old → new = drop 1 old ++ [newDataPoint]) ∧
    last new = Some newDataPoint ∧
    (len old <= 120 → len new <= 120).
Proof.
  intros Hlimit Hdata old. rewrite ApplySingleDataPoint_cases, Hdata, Hlimit.
  fold old. eexists _, _. split; [done|]. split; [done|].
  split; [intros f Hf _; by destruct f|].
  destruct (decide (len old < 120)) as [Hlt|Hge].
  - split; [done|]. split; [lia|]. split; [apply last_snoc|].
    intros _. rewrite len_app. unfold len at 2. simpl. lia.
  - split; [lia|]. split; [done|]. split; [apply ShiftSlice_last|].
    intros Hle. rewrite ShiftSlice_len; [done|].
    intros Hnil. rewrite Hnil in Hge. unfold len in Hge. simpl in Hge. lia.
Qed.

(** C1, an instance with eviction: a series of 120 points whose oldest
    point is the marked one; the call drops it and appends the new point
    at the end. *)
Lemma ApplySingleDataPoint_rolls_witness :
  DataPointXLimit
    (sample_chart (Map {["steady" := marked_point :: replicate 119 sample_point]}))
  = 120 ∧
  len (marked_point :: replicate 119 sample_point) = 120 ∧
  ∃ w' new,
    ApplySingleDataPoint "steady" nan_point
      (Some (sample_chart
               (Map {["steady" := marked_point :: replicate 119 sample_point]}))) =
    Ret (Some w') ∧
    dataPoints w' =
    Ptr (Map (<["steady" := new]>
                {["steady" := marked_point :: replicate 119 sample_point]})) ∧
    new = replicate 119 sample_point ++ [nan_point] ∧
    last new = Some nan_point.
Proof.
  split; [reflexivity|]. split; [reflexivity|].
  destruct (ApplySingleDataPoint_rolls
              (sample_chart
                 (Map {["steady" := marked_point :: replicate 119 sample_point]}))
              {["steady" := marked_point :: replicate 119 sample_point]}
              "steady" nan_point eq_refl eq_refl)
    as (w' & new & Hcall & Hdata & _ & _ & Hevict & Hlast & _).
  exists w', new. split; [exact Hcall|]. split; [exact Hdata|].
  split; [|exact Hlast]. apply Hevict. vm_compute. discriminate.
Defined.

(** C1 does not hold of every widget state. On the chart the constructor
    builds around a nil map the call panics (assignment to an entry of a nil
    map); and a series that its owner has grown to 121 points in the shared
    map still holds 121 points after the call. *)
Lemma ApplySingleDataPoint_beyond_claim :
  @NewSknLineChart plain_toolkit listed_runtime "Title" "Footer" (Ptr NilMap) =
  Ret (sample_chart NilMap, None) ∧
  ApplySingleDataPoint "steady" sample_point (Some (sample_chart NilMap)) = Panic ∧
  ∃ w' grown,
    ApplySingleDataPoint "steady" sample_point
      (Some (sample_chart (Map {["steady" := replicate 121 sample_point]})))
    = Ret (Some w') ∧
    dataPoints w' = Ptr (Map {["steady" := grown]}) ∧
    last grown = Some sample_point ∧
    len grown = 121.
Proof.
  split; [reflexivity|]. split; [reflexivity|].
  eexists _, _. split; [reflexivity|]. simpl. rewrite insert_singleton_eq.
  split; [reflexivity|]. split; reflexivity.
Qed.

(** ** Replacing and adding series *)

(** [ApplyNewDataSeries] on a widget, by cases on the guard. *)
Lemma ApplyNewDataSeries_cases (seriesName : string) (newSeries : series)
  (w : LineChartSkn) :
  (len newSeries < DataPointXLimit w →
     ApplyNewDataSeries seriesName newSeries (Some w) =
     match dataPoints w with
     | Ptr (Map m) =>
       Ret (Some (set_dataPoints (Ptr (Map (<[seriesName := newSeries]> m))) w), None)
     | _ => Panic
     end) ∧
  (DataPointXLimit w <= len newSeries →
     ApplyNewDataSeries seriesName newSeries (Some w) =
     Ret (Some w,
          Some (ErrLimitExceeded seriesName (DataPointXLimit w) (len newSeries)))).
Proof.
  unfold ApplyNewDataSeries. split; intros Hlen.
  - rewrite decide_True by done. by destruct (dataPoints w) as [|[|m]].
  - by rewrite decide_False by lia.
Qed.

(** C4, at the limit. A new series of exactly 120 points does not exceed
    the point limit, and [ApplyNewDataSeries] rejects it, with the error
    "limit exceeded. limit:120, count:120", and installs nothing. *)
Lemma ApplyNewDataSeries_rejects_120 :
  ApplyNewDataSeries "many" (replicate 120 sample_point) (Some (sample_chart (Map ∅))) =
  Ret (Some (sample_chart (Map ∅)), Some (ErrLimitExceeded "many" 120 120)).
Proof. reflexivity. Qed.

(** C4, on either side of the limit: 119 points are installed under the
    name and 121 points are rejected, as the claim says. *)
Lemma ApplyNewDataSeries_around_120 :
  ApplyNewDataSeries "many" (replicate 119 sample_point) (Some (sample_chart (Map ∅))) =
  Ret (Some (sample_chart (Map {["many" := replicate 119 sample_point]})), None) ∧
  ApplyNewDataSeries "many" (replicate 121 sample_point) (Some (sample_chart (Map ∅))) =
  Ret (Some (sample_chart (Map ∅)), Some (ErrLimitExceeded "many" 120 121)).
Proof.
  split; [|reflexivity].
  rewrite (proj1 (ApplyNewDataSeries_cases _ _ _)) by (vm_compute; reflexivity).
  simpl. by rewrite insert_empty.
Qed.

Section Mutation.
Context `{GoRuntime}.

(** The loop of [ReplaceAllDataSeries] ends without an error exactly when
    no series visited is over the limit. *)
Lemma firstOverLimit_None (limit : Z) (kvs : list (string * series)) :
  firstOverLimit limit kvs = None ↔
  ∀ key points, (key, points) ∈ kvs → len points <= limit.
Proof.
  induction kvs as [|[key points] kvs IH]; simpl.
  - split; [|done]. intros _ ?? Hel. by apply elem_of_nil in Hel.
  - destruct (decide (limit < len points)) as [Hover|Hin].
    + split; [done|]. intros Hall.
      specialize (Hall key points (list_elem_of_here _ _)). lia.
    + rewrite IH. split.
      * intros Hall k ps [[= -> ->]|Hel]%elem_of_cons; [lia|by apply (Hall k ps)].
      * intros Hall k ps Hel. apply (Hall k ps). by apply elem_of_cons; right.
Qed.

Lemma firstOverLimit_Some (limit : Z) (kvs : list (string * series)) (err : error) :
  firstOverLimit limit kvs = Some err →
  ∃ key points, (key, points) ∈ kvs ∧ limit < len points ∧
    err = ErrLimitExceeded key limit (len points).
Proof.
  induction kvs as [|[key points] kvs IH]; simpl; [done|].
  destruct (decide (limit < len points)) as [Hover|Hin].
  - intros [= <-]. exists key, points. split; [apply list_elem_of_here|done].
  - intros (k & ps & Hel & Hlt)%IH. exists k, ps. split; [|done].
    by apply elem_of_cons; right.
Qed.

(** [ReplaceAllDataSeries], by cases: what it returns and why. *)
Lemma ReplaceAllDataSeries_cases (newData : mapptr) (w w' : LineChartSkn)
  (err : option error) :
  ReplaceAllDataSeries newData w = Ret (w', err) →
  (err ≠ None ∧ w' = w ∧
     (dataPoints w = NilPtr ∨
      ∃ old new, dataPoints w = Ptr old ∧ newData = Ptr new ∧
        (maplen new < maplen old ∨
         ∃ key points, entries new !! key = Some points ∧
           DataPointXLimit w < len points))) ∨
  (err = None ∧ w' = set_dataPoints newData w ∧
     ∃ old new, dataPoints w = Ptr old ∧ newData = Ptr new ∧
       maplen old <= maplen new ∧
       ∀ key points, entries new !! key = Some points →
         len points <= DataPointXLimit w).
Proof.
  unfold ReplaceAllDataSeries.
  destruct (dataPoints w) as [|old] eqn:Hold.
  { intros [= <- <-]. left. split; [done|]. split; [done|]. by left. }
  destruct newData as [|new]; simpl; [done|].
  destruct (decide (maplen old <= maplen new)) as [Hle|Hgt].
  - destruct (firstOverLimit (DataPointXLimit w) (range (entries new)))
      as [e|] eqn:Hloop.
    + intros [= <- <-]. left. split; [done|]. split; [done|]. right.
      exists old, new. split; [done|]. split; [done|]. right.
      apply firstOverLimit_Some in Hloop
        as (key & points & Hel%elem_of_range & Hlt & _).
      by exists key, points.
    + intros [= <- <-]. right. split; [done|]. split; [done|].
      exists old, new. split; [done|]. split; [done|]. split; [done|].
      intros key points Hkey%elem_of_range.
      by eapply firstOverLimit_None in Hloop.
  - intros [= <- <-]. left. split; [done|]. split; [done|]. right.
    exists old, new. split; [done|]. split; [done|]. left. lia.
Qed.

(** C10. Whenever [ReplaceAllDataSeries] returns a non-nil error, be it for
    a series over the limit, for a new map with fewer series or for a
    widget without a data map, the widget's data-series map is the map
    before the call, and so is every other field of the widget. *)
Theorem ReplaceAllDataSeries_atomic (newData : mapptr) (w w' : LineChartSkn)
  (err : error) :
  ReplaceAllDataSeries newData w = Ret (w', Some err) →
  dataPoints w' = dataPoints w ∧ w' = w.
Proof.
  intros [(_ & -> & _)|(Habs & _)]%ReplaceAllDataSeries_cases; done.
Qed.

(** C5, as amended. An error from the constructor means that some series of
    the initial map has more than 120 points. An error from
    [ReplaceAllDataSeries] means that the widget has no data map, or that
    the new map has fewer series than the widget's, or that some series of
    the new map has more points than the widget's limit. An error from
    [ApplyNewDataSeries] means that the receiver is nil or that the new
    series has at least as many points as the widget's limit. *)
Theorem mutation_errors `{Toolkit} :
  (∀ topTitle bottomTitle dataPoints w err,
     NewSknLineChart topTitle bottomTitle dataPoints = Ret (w, Some err) →
     ∃ g key points, dataPoints = Ptr g ∧
       entries g !! key = Some points ∧ 120 < len points) ∧
  (∀ newData w w' err,
     ReplaceAllDataSeries newData w = Ret (w', Some err) →
     dataPoints w = NilPtr ∨
     ∃ old new, dataPoints w = Ptr old ∧ newData = Ptr new ∧
       (maplen new < maplen old ∨
        ∃ key points, entries new !! key = Some points ∧
          DataPointXLimit w < len points)) ∧
  (∀ seriesName newSeries w w' err,
     ApplyNewDataSeries seriesName newSeries w = Ret (w', Some err) →
     w = None ∨ ∃ w0, w = Some w0 ∧ DataPointXLimit w0 <= len newSeries).
Proof.
  split; [|split].
  - intros topTitle bottomTitle [|g] w err; simpl; [done|].
    rewrite NewSknLineChart_returns. intros [= _ Herr].
    destruct (truncate_all_entries g) as [_ [(key & points & Hkey & Hlt) _]];
      [by rewrite Herr|].
    by exists g, key, points.
  - intros newData w w' err [(_ & _ & Hwhy)|(Habs & _)]%ReplaceAllDataSeries_cases;
      done.
  - intros seriesName newSeries [w|] w' err Hcall; [|by left].
    right. exists w. split; [done|].
    destruct (decide (len newSeries < DataPointXLimit w)) as [Hlt|Hge]; [|lia].
    destruct (ApplyNewDataSeries_cases seriesName newSeries w) as [Hin _].
    rewrite Hin in Hcall by done. by destruct (dataPoints w) as [|[|m]].
Qed.

End Mutation.

(** C5 does not hold as stated: the new map is empty and the chart holds
    one series of one point, so no series has more than 120 points, and
    [ReplaceAllDataSeries] returns the error "newData must be larger". *)
Lemma ReplaceAllDataSeries_error_within_limit :
  @ReplaceAllDataSeries listed_runtime (Ptr (Map ∅))
    (sample_chart (Map {["first" := [sample_point]]})) =
  Ret (sample_chart (Map {["first" := [sample_point]]}),
       Some (ErrNewDataSmaller 0 1)) ∧
  ¬ ∃ key points,
      ((∅ : seriesmap) !! key = Some points ∨
       ({["first" := [sample_point]]} : seriesmap) !! key = Some points) ∧
      120 < len points.
Proof.
  split; [reflexivity|].
  intros (key & points & [Hkey|Hkey] & Hlt).
  - by rewrite lookup_empty in Hkey.
  - apply lookup_singleton_Some in Hkey as [_ <-].
    unfold len in Hlt. simpl in Hlt. lia.
Qed.

(** C10, an instance: a new map of 121 points in one series is refused and
    the chart keeps its map. *)
Lemma ReplaceAllDataSeries_atomic_witness :
  @ReplaceAllDataSeries listed_runtime
    (Ptr (Map {["first" := replicate 121 sample_point]}))
    (sample_chart (Map {["first" := [sample_point]]})) =
  Ret (sample_chart (Map {["first" := [sample_point]]}),
       Some (ErrLimitExceeded "first" 120 121)) ∧
  (dataPoints (sample_chart (Map {["first" := [sample_point]]})) =
   dataPoints (sample_chart (Map {["first" := [sample_point]]})) ∧
   sample_chart (Map {["first" := [sample_point]]}) =
   sample_chart (Map {["first" := [sample_point]]})).
Proof.
  split; [vm_compute; reflexivity|].
  apply (@ReplaceAllDataSeries_atomic listed_runtime
           (Ptr (Map {["first" := replicate 121 sample_point]})) _ _
           (ErrLimitExceeded "first" 120 121)).
  vm_compute; reflexivity.
Defined.

(** ** Every series stays bounded *)

Lemma series_bounded_insert (limit : Z) (w : LineChartSkn) (m : seriesmap)
  (key : string) (points : series) :
  series_bounded limit w → dataPoints w = Ptr (Map m) → len points <= limit →
  series_bounded limit (set_dataPoints (Ptr (Map (<[key := points]> m))) w).
Proof.
  intros Hw Hdata Hlen g key' points' [= <-]. simpl.
  destruct (decide (key' = key)) as [->|Hne].
  - rewrite lookup_insert_eq. by intros [= <-].
  - rewrite lookup_insert_ne by done. by apply (Hw (Map m)).
Qed.

Section Bounded.
Context `{GoRuntime}.

(** The chart the constructor returns has the limit 120 and series of at
    most 120 points. *)
Lemma NewSknLineChart_bounded `{Toolkit} (topTitle bottomTitle : string)
  (dataPoints : mapptr) (w : LineChartSkn) (err : option error) :
  NewSknLineChart topTitle bottomTitle dataPoints = Ret (w, err) →
  DataPointXLimit w = 120 ∧ series_bounded 120 w.
Proof.
  destruct dataPoints as [|g]; [done|]. rewrite NewSknLineChart_returns.
  intros [= <- _]. split; [done|]. intros g' key points [= <-].
  rewrite (proj1 (truncate_all_entries g)). destruct g as [|m]; simpl; [done|].
  rewrite lookup_fmap. destruct (m !! key) as [points0|]; simpl; [|done].
  intros [= <-]. destruct (decide (120 < len points0)) as [Hover|Hin].
  - by rewrite truncate_leading_len.
  - rewrite truncate_leading_within; lia.
Qed.

(** One call keeps the limit of the widget and the bound on its series. *)
Lemma call_keeps_bound (c : mutation) (w w' : LineChartSkn) :
  DataPointXLimit w = 120 → series_bounded 120 w → call c w = Ret w' →
  DataPointXLimit w' = 120 ∧ series_bounded 120 w'.
Proof.
  intros Hlimit Hw.
  destruct c as [newData|seriesName newSeries|seriesName p]; unfold call.
  - destruct (ReplaceAllDataSeries newData w) as [[w1 err]|] eqn:Hcall; simpl; [|done].
    intros [= <-].
    apply ReplaceAllDataSeries_cases in Hcall
      as [(_ & -> & _)|(_ & -> & old & new & _ & -> & _ & Hnew)]; [done|].
    split; [done|]. intros g key points [= <-] Hkey. rewrite <- Hlimit. by eapply Hnew.
  - destruct (decide (len newSeries < DataPointXLimit w)) as [Hlt|Hge].
    + rewrite (proj1 (ApplyNewDataSeries_cases seriesName newSeries w)) by done.
      destruct (dataPoints w) as [|[|m]] eqn:Hdata; simpl; [done..|].
      intros [= <-]. split; [done|]. apply series_bounded_insert; [done..|lia].
    + rewrite (proj2 (ApplyNewDataSeries_cases seriesName newSeries w)) by lia.
      simpl. by intros [= <-].
  - rewrite ApplySingleDataPoint_cases.
    destruct (dataPoints w) as [|[|m]] eqn:Hdata; simpl; [done..|].
    intros [= <-]. split; [done|]. apply series_bounded_insert; [done..|].
    assert (len (index (Map m) seriesName) <= 120) as Hold.
    { unfold index. simpl. destruct (m !! seriesName) as [points|] eqn:Hkey; simpl;
        [by apply (Hw (Map m) seriesName)|done]. }
    rewrite Hlimit. destruct (decide _) as [Hlt|Hge].
    + rewrite len_app. unfold len at 2. simpl. lia.
    + rewrite ShiftSlice_len; [done|]. intros Hnil. rewrite Hnil in Hge.
      unfold len in Hge. simpl in Hge. lia.
Qed.

(** C2, as amended. From a chart whose limit is 120 and whose series all
    hold at most 120 points, the chart after any sequence of calls of
    [ReplaceAllDataSeries], [ApplyNewDataSeries] and [ApplySingleDataPoint]
    has series of at most 120 points each. *)
Theorem calls_keep_bound (cs : list mutation) (w w' : LineChartSkn) :
  DataPointXLimit w = 120 → series_bounded 120 w → calls cs w = Ret w' →
  series_bounded 120 w'.
Proof.
  revert w. induction cs as [|c cs IH]; intros w Hlimit Hw; simpl.
  - by intros [= <-].
  - destruct (call c w) as [w1|] eqn:Hcall; simpl; [|done].
    destruct (call_keeps_bound c w w1 Hlimit Hw Hcall) as [Hlimit1 Hw1].
    by apply IH.
Qed.

(** The calls that add to an allocated map never panic: the sequences the
    bound speaks of are there. *)
Lemma calls_return (cs : list mutation) (w : LineChartSkn) (m : seriesmap) :
  dataPoints w = Ptr (Map m) →
  (∀ c, c ∈ cs → ∀ newData, c ≠ CallReplaceAllDataSeries newData) →
  ∃ w', calls cs w = Ret w'.
Proof.
  revert w m. induction cs as [|c cs IH]; intros w m Hdata Hcs; simpl; [by eexists|].
  assert (∃ w1 m1, call c w = Ret w1 ∧ dataPoints w1 = Ptr (Map m1))
    as (w1 & m1 & -> & Hdata1).
  { destruct c as [newData|seriesName newSeries|seriesName p]; simpl.
    - by destruct (Hcs (CallReplaceAllDataSeries newData) (list_elem_of_here _ _) newData).
    - unfold ApplyNewDataSeries. rewrite Hdata.
      destruct (decide _); simpl; by eexists _, _.
    - unfold ApplySingleDataPoint. rewrite Hdata. simpl.
      destruct (decide _); simpl; by eexists _, _. }
  simpl. apply (IH w1 m1 Hdata1). intros c' Hel. apply Hcs. by apply elem_of_cons; right.
Qed.

End Bounded.

Lemma series_bounded_sample : series_bounded 120 (sample_chart (Map ∅)).
Proof. intros g key points [= <-]. simpl. by rewrite lookup_empty. Qed.

(** C2, an instance: a series of 119 points, two more points (the second
    one rolls the window), then a map of one series of 120 points. *)
Lemma calls_keep_bound_witness :
  ∃ w', @calls listed_runtime sample_calls (sample_chart (Map ∅)) = Ret w' ∧
        dataPoints w' = Ptr (Map {["first" := replicate 120 sample_point]}) ∧
        series_bounded 120 w'.
Proof.
  eexists. split; [vm_compute; reflexivity|]. split; [reflexivity|].
  apply (@calls_keep_bound listed_runtime sample_calls (sample_chart (Map ∅)));
    [reflexivity|exact series_bounded_sample|vm_compute; reflexivity].
Defined.

(** C2 does not hold of every chart whose series hold at most 120 points:
    the guards compare with the exported field [DataPointXLimit], not with
    120. On a chart whose limit has been set to 200, and which has no
    series yet, [ApplyNewDataSeries] installs a series of 150 points
    without an error. *)
Lemma calls_beyond_120 :
  series_bounded 120 (set_DataPointXLimit 200 (sample_chart (Map ∅))) ∧
  ∃ w',
    @calls listed_runtime [CallApplyNewDataSeries "many" (replicate 150 sample_point)]
      (set_DataPointXLimit 200 (sample_chart (Map ∅))) = Ret w' ∧
    dataPoints w' = Ptr (Map {["many" := replicate 150 sample_point]}) ∧
    ¬ series_bounded 120 w'.
Proof.
  split.
  { intros g key points [= <-]. simpl. by rewrite lookup_empty. }
  eexists. split; [vm_compute; reflexivity|]. split; [reflexivity|].
  intros Hbound.
  specialize (Hbound (Map {["many" := replicate 150 sample_point]}) "many"
                (replicate 150 sample_point) eq_refl (lookup_singleton_eq _ _)).
  vm_compute in Hbound. by apply Hbound.
Qed.

(** ** The mouse over the chart *)

(** [under_mouse] is the hit test [within_marker]. *)
Lemma under_mouse_within (pos : fyne.Position) (point : SknChartDatapoint) :
  under_mouse pos point = true ↔ within_marker pos point.
Proof.
  unfold under_mouse, within_marker, MarkerPosition, float32.geb. simpl.
  rewrite !andb_true_iff, !negb_true_iff. tauto.
Qed.

Section Mouse.
Context `{Toolkit} `{GoRuntime}.

(** The loop over the points of a series leaves the widget as it was or
    ends on the description of a point under the cursor. *)
Lemma mouse_over_points_cases (key : string) (pos : fyne.Position)
  (points : series) (idx : nat) (w : LineChartSkn) :
  mouse_over_points key pos idx points w = w ∨
  ∃ i point,
    points !! i = Some point ∧ within_marker pos point ∧
    mouseDisplayStr (mouse_over_points key pos idx points w) =
    describe key (idx + i) point.
Proof.
  revert idx w. induction points as [|point points IH]; intros idx w; simpl; [by left|].
  destruct (under_mouse pos point) eqn:Hhit.
  - right. destruct (IH (S idx) (Refresh (enableMouseContainer
             (describe key idx point) (ColorName point) pos w)))
      as [->|(i & point' & Hi & Hin & Hstr)].
    + exists 0%nat, point. rewrite Nat.add_0_r.
      split; [done|]. split; [by apply under_mouse_within|done].
    + exists (S i), point'. rewrite Nat.add_succ_r. done.
  - destruct (IH (S idx) w) as [->|(i & point' & Hi & Hin & Hstr)]; [by left|].
    right. exists (S i), point'. rewrite Nat.add_succ_r. done.
Qed.

(** The same of the loop over the series. *)
Lemma mouse_over_series_cases (pos : fyne.Position) (kvs : list (string * series))
  (w : LineChartSkn) :
  mouse_over_series pos kvs w = w ∨
  ∃ key points i point,
    (key, points) ∈ kvs ∧ points !! i = Some point ∧ within_marker pos point ∧
    mouseDisplayStr (mouse_over_series pos kvs w) = describe key i point.
Proof.
  revert w. induction kvs as [|[key points] kvs IH]; intros w; simpl; [by left|].
  destruct (IH (mouse_over_points key pos 0 points w))
    as [->|(key' & points' & i & point & Hel & Hi & Hin & Hstr)].
  - destruct (mouse_over_points_cases key pos points 0 w)
      as [->|(i & point & Hi & Hin & Hstr)]; [by left|].
    right. exists key, points, i, point. split; [apply list_elem_of_here|done].
  - right. exists key', points', i, point. split; [by apply elem_of_cons; right|done].
Qed.

(** The loops write the three fields of the mouse display only. *)
Lemma mouse_over_points_frame (key : string) (pos : fyne.Position)
  (points : series) (idx : nat) (w : LineChartSkn) (f : field) :
  ¬ mouse_field f → read f (mouse_over_points key pos idx points w) = read f w.
Proof.
  intros Hf. revert idx w. induction points as [|point points IH]; intros idx w; simpl; [done|].
  rewrite IH. destruct (under_mouse pos point); [|done].
  unfold mouse_field in Hf. destruct f; simpl; tauto || done.
Qed.

Lemma mouse_over_series_frame (pos : fyne.Position) (kvs : list (string * series))
  (w : LineChartSkn) (f : field) :
  ¬ mouse_field f → read f (mouse_over_series pos kvs w) = read f w.
Proof.
  intros Hf. revert w. induction kvs as [|[key points] kvs IH]; intros w; simpl; [done|].
  rewrite IH. by apply mouse_over_points_frame.
Qed.

(** C6. When mouse-point display is disabled [MouseMoved] returns the
    widget unchanged. In every case it writes no field but the three of the
    mouse display, and either leaves the widget as it was or leaves as
    tooltip text the description (series name, index, value, timestamp) of a
    point of the chart within whose marker bounds the cursor lies: top.X <=
    pos.X <= bottom.X and top.Y <= pos.Y <= bottom.Y, neither the cursor
    position nor the top corner being the zero position. *)
Theorem MouseMoved_tooltip (me : desktop.MouseEvent) (w : LineChartSkn) :
  (EnableMousePointDisplay w = false → MouseMoved me w = Ret w) ∧
  (∀ w', MouseMoved me w = Ret w' →
     (∀ f, ¬ mouse_field f → read f w' = read f w) ∧
     (w' = w ∨
      ∃ g key points idx point,
        dataPoints w = Ptr g ∧ entries g !! key = Some points ∧
        points !! idx = Some point ∧
        within_marker (desktop.Position me) point ∧
        mouseDisplayStr w' = describe key idx point)).
Proof.
  unfold MouseMoved. split.
  - by intros ->.
  - intros w'. destruct (EnableMousePointDisplay w); simpl.
    + destruct (dataPoints w) as [|g] eqn:Hdata; simpl; [done|].
      intros [= <-]. split; [intros f Hf; by apply mouse_over_series_frame|].
      destruct (mouse_over_series_cases (desktop.Position me) (range (entries g)) w)
        as [->|(key & points & i & point & Hel%elem_of_range & Hi & Hin & Hstr)];
        [by left|].
      right. by exists g, key, points, i, point.
    + intros [= <-]. split; [done|by left].
Qed.

End Mouse.

(** C6, evaluated: the cursor at (100, 50) over the second point of a
    series, whose marker spans (98, 48) to (102, 52). *)
Example MouseMoved_over_marker :
  ∃ w', @MouseMoved plain_toolkit listed_runtime
          {| desktop.Position := fyne.NewPos (float32.of_Z 100) (float32.of_Z 50);
             desktop.Button := desktop.MouseButtonPrimary |}
          (sample_chart (Map {["first" := [sample_point; marked_point]]})) = Ret w' ∧
        mouseDisplayStr w' = " Series: first, Index: 1, Value: 16252928p-18 [ Sat, 31 Oct 2026 10:00:00 UTC ]" ∧
        mouseDisplayFrameColor w' = "yellow".
Proof. eexists. split; [vm_compute; reflexivity|]. split; reflexivity. Qed.

(** ** The data-point step of Layout *)








Section Layout.
Context `{Toolkit}.


End Layout.



(** * Further properties *)

(** ** The rolling window over many points *)

Lemma rolled_len (old : series) (p : SknChartDatapoint) :
  len old <= 120 → len (rolled old p) <= 120.
Proof.
  intros Hle. unfold rolled. destruct (decide _) as [Hlt|Hge].
  - rewrite len_app. unfold len at 2. simpl. lia.
  - rewrite ShiftSlice_len; [done|]. intros ->. unfold len in Hge. simpl in Hge. lia.
Qed.

Lemma rolled_last_points (old : series) (p : SknChartDatapoint) (ps : series) :
  len old <= 120 →
  last_points 120 (rolled old p ++ ps) = last_points 120 (old ++ p :: ps).
Proof.
  intros Hle. unfold rolled. destruct (decide _) as [Hlt|Hge].
  - by rewrite <- app_assoc.
  - unfold commons.ShiftSlice, last_points, len in *.
    destruct old as [|x old]; simpl in *; [lia|]. rewrite drop_0.
    rewrite <- app_assoc. simpl. rewrite !length_app. simpl.
    replace (length old + S (length ps) - 119)%nat
      with (S (length old + S (length ps) - 120)) by lia.
    done.
Qed.

Section Rolling.
Context `{GoRuntime}.

(** X1. On a chart with the default limit of 120 and an allocated map, in
    which the series holds at most 120 points, appending the points [ps]
    one by one with [ApplySingleDataPoint] never panics and leaves the
    series as the last 120 points of the old series followed by [ps]. *)
Theorem rolling_window_keeps_last (w : LineChartSkn) (m : seriesmap)
  (seriesName : string) (ps : series) :
  DataPointXLimit w = 120 →
  dataPoints w = Ptr (Map m) →
  len (index (Map m) seriesName) <= 120 →
  ∃ w' g',
    calls (CallApplySingleDataPoint seriesName <$> ps) w = Ret w' ∧
    dataPoints w' = Ptr g' ∧
    index g' seriesName = last_points 120 (index (Map m) seriesName ++ ps).
Proof.
  revert w m. induction ps as [|p ps IH]; intros w m Hlimit Hdata Hlen.
  - exists w, (Map m). split; [done|]. split; [done|].
    unfold last_points. rewrite app_nil_r. unfold len in Hlen.
    by replace (length (index (Map m) seriesName) - 120)%nat with 0%nat by lia.
  - rewrite fmap_cons. cbn [calls]. unfold call.
    rewrite ApplySingleDataPoint_cases, Hdata, Hlimit. cbn [obind default].
    fold (rolled (index (Map m) seriesName) p).
    set (old := index (Map m) seriesName) in *.
    destruct (IH (set_dataPoints (Ptr (Map (<[seriesName := rolled old p]> m))) w)
                (<[seriesName := rolled old p]> m)) as (w' & g' & Hcalls & Hdata' & Hidx).
    + done.
    + done.
    + unfold index. simpl. rewrite lookup_insert_eq. simpl. by apply rolled_len.
    + exists w', g'. split; [done|]. split; [done|]. rewrite Hidx.
      unfold index at 1. simpl. rewrite lookup_insert_eq. simpl.
      by apply rolled_last_points.
Qed.

End Rolling.

(** X1, evaluated: two points appended to a series of 119. *)
Lemma rolling_window_keeps_last_witness :
  ∃ w' g',
    @calls listed_runtime
      (CallApplySingleDataPoint "many" <$> [marked_point; nan_point])
      (sample_chart (Map {["many" := replicate 119 sample_point]})) = Ret w' ∧
    dataPoints w' = Ptr g' ∧
    index g' "many" =
    last_points 120
      (index (Map {["many" := replicate 119 sample_point]}) "many" ++
       [marked_point; nan_point]).
Proof.
  apply (@rolling_window_keeps_last listed_runtime
           (sample_chart (Map {["many" := replicate 119 sample_point]}))
           {["many" := replicate 119 sample_point]} "many" [marked_point; nan_point]).
  - reflexivity.
  - reflexivity.
  - vm_compute. discriminate.
Defined.

(** ** What the data operations do to the map *)

Section MoreMutation.
Context `{GoRuntime}.

Lemma call_keeps_series (c : mutation) (w w' : LineChartSkn) (g : gomap) :
  call c w = Ret w' → dataPoints w = Ptr g →
  ∃ g', dataPoints w' = Ptr g' ∧ maplen g <= maplen g'.
Proof.
  intros Hcall Hdata. destruct c as [newData|seriesName newSeries|seriesName p];
    unfold call in Hcall.
  - destruct (ReplaceAllDataSeries newData w) as [[w1 err]|] eqn:Hrep; [|done].
    simpl in Hcall. injection Hcall as <-.
    apply ReplaceAllDataSeries_cases in Hrep
      as [(_ & -> & _)|(_ & -> & old & new & Hold & -> & Hle & _)].
    + exists g. split; [done|lia].
    + exists new. split; [done|]. congruence.
  - destruct (decide (len newSeries < DataPointXLimit w)) as [Hlt|Hge].
    + rewrite (proj1 (ApplyNewDataSeries_cases seriesName newSeries w)) in Hcall by done.
      rewrite Hdata in Hcall. destruct g as [|m]; [done|]. simpl in Hcall.
      injection Hcall as <-. eexists. split; [done|]. unfold maplen. simpl.
      destruct (m !! seriesName) eqn:Hkey.
      * rewrite map_size_insert_Some; [lia|done].
      * rewrite map_size_insert_None by done. lia.
    + rewrite (proj2 (ApplyNewDataSeries_cases seriesName newSeries w)) in Hcall by lia.
      simpl in Hcall. injection Hcall as <-. exists g. split; [done|lia].
  - rewrite ApplySingleDataPoint_cases, Hdata in Hcall. destruct g as [|m]; [done|].
    simpl in Hcall. injection Hcall as <-. eexists. split; [done|]. unfold maplen. simpl.
    destruct (m !! seriesName) eqn:Hkey.
    + rewrite map_size_insert_Some; [lia|done].
    + rewrite map_size_insert_None by done. lia.
Qed.

(** X2. No run of [ReplaceAllDataSeries], [ApplyNewDataSeries] and
    [ApplySingleDataPoint] calls that returns leaves the chart with fewer
    series than it had: the number of series never goes down. (Which
    series they are may change: [ReplaceAllDataSeries] compares the
    numbers of series only.) *)
Theorem calls_never_remove_series (cs : list mutation) (w w' : LineChartSkn)
  (g : gomap) :
  calls cs w = Ret w' → dataPoints w = Ptr g →
  ∃ g', dataPoints w' = Ptr g' ∧ maplen g <= maplen g'.
Proof.
  revert w g. induction cs as [|c cs IH]; intros w g; simpl.
  - intros [= <-] Hdata. exists g. split; [done|lia].
  - destruct (call c w) as [w1|] eqn:Hcall; simpl; [|done]. intros Hcalls Hdata.
    destruct (call_keeps_series c w w1 g Hcall Hdata) as (g1 & Hdata1 & Hle1).
    destruct (IH w1 g1 Hcalls Hdata1) as (g' & Hdata' & Hle'). exists g'. split; [done|lia].
Qed.

(** X3. [ReplaceAllDataSeries] returns without an error exactly when the
    widget has a data map, the new pointer is not nil, the new map has at
    least as many series as the old one and none of its series has more
    points than the widget's limit. The chart then holds the caller's
    pointer itself, and every other field, the objects apart, is as
    before. *)
Theorem ReplaceAllDataSeries_replaces (newData : mapptr) (w : LineChartSkn) :
  ((∃ w', ReplaceAllDataSeries newData w = Ret (w', None)) ↔
   (∃ old new, dataPoints w = Ptr old ∧ newData = Ptr new ∧
      maplen old <= maplen new ∧
      ∀ key points, entries new !! key = Some points →
        len points <= DataPointXLimit w)) ∧
  (∀ w', ReplaceAllDataSeries newData w = Ret (w', None) →
     dataPoints w' = newData ∧
     ∀ f, f ≠ F_dataPoints → f ≠ F_objects → read f w' = read f w).
Proof.
  split; [split|].
  - intros (w' & [(Habs & _)|(_ & _ & Hwhy)]%ReplaceAllDataSeries_cases); done.
  - intros (old & new & Hold & -> & Hle & Hall). unfold ReplaceAllDataSeries.
    rewrite Hold. simpl. rewrite decide_True by done.
    assert (firstOverLimit (DataPointXLimit w) (range (entries new)) = None) as ->.
    { apply firstOverLimit_None. intros key points Hel%elem_of_range.
      by apply (Hall key points). }
    by eexists.
  - intros w' [(Habs & _)|(_ & -> & _)]%ReplaceAllDataSeries_cases; [done|].
    split; [done|]. intros f Hf _. by destruct f.
Qed.

(** X4. The error of [ReplaceAllDataSeries] tells what was wrong: without a
    data map it names the method; for a new map with fewer series it
    carries the two counts; otherwise it carries the key of a series that
    is in the new map and has more points than the limit, with the limit
    and the number of points of that series. *)
Theorem ReplaceAllDataSeries_error_tells (newData : mapptr) (w w' : LineChartSkn)
  (err : error) :
  ReplaceAllDataSeries newData w = Ret (w', Some err) →
  (dataPoints w = NilPtr ∧ err = ErrNoActiveWidget "ReplaceAllDataSeries()") ∨
  (∃ old new, dataPoints w = Ptr old ∧ newData = Ptr new ∧
     ((maplen new < maplen old ∧ err = ErrNewDataSmaller (maplen new) (maplen old)) ∨
      (maplen old <= maplen new ∧
       ∃ key points, entries new !! key = Some points ∧
         DataPointXLimit w < len points ∧
         err = ErrLimitExceeded key (DataPointXLimit w) (len points)))).
Proof.
  unfold ReplaceAllDataSeries. destruct (dataPoints w) as [|old] eqn:Hold.
  { intros [= _ <-]. by left. }
  destruct newData as [|new]; simpl; [done|]. intros Hcall.
  right. exists old, new. split; [done|]. split; [done|].
  destruct (decide (maplen old <= maplen new)) as [Hle|Hgt].
  - destruct (firstOverLimit _ _) as [e|] eqn:Hloop; [|done].
    injection Hcall as _ <-. right. split; [done|].
    apply firstOverLimit_Some in Hloop as (key & points & Hel%elem_of_range & Hlt & ->).
    by exists key, points.
  - injection Hcall as _ <-. left. split; [lia|done].
Qed.

End MoreMutation.

(** X2, evaluated: a chart of two series; the two are replaced by two
    others, and a point is added under a third name. *)
Lemma calls_never_remove_series_witness :
  maplen (Map {["first" := [sample_point]; "second" := [sample_point]]}) = 2 ∧
  ∃ g',
    dataPoints
      (set_dataPoints
         (Ptr (Map {["third" := [marked_point]; "fourth" := [marked_point];
                    "fifth" := [nan_point]]}))
         (sample_chart (Map {["first" := [sample_point]; "second" := [sample_point]]})))
    = Ptr g' ∧
    maplen (Map {["first" := [sample_point]; "second" := [sample_point]]}) <= maplen g' ∧
    maplen g' = 3.
Proof.
  split; [vm_compute; reflexivity|].
  destruct (@calls_never_remove_series listed_runtime
              [CallReplaceAllDataSeries
                 (Ptr (Map {["third" := [marked_point]; "fourth" := [marked_point]]}));
               CallApplySingleDataPoint "fifth" nan_point]
              (sample_chart (Map {["first" := [sample_point]; "second" := [sample_point]]}))
              (set_dataPoints
                 (Ptr (Map {["third" := [marked_point]; "fourth" := [marked_point];
                            "fifth" := [nan_point]]}))
                 (sample_chart
                    (Map {["first" := [sample_point]; "second" := [sample_point]]})))
              (Map {["first" := [sample_point]; "second" := [sample_point]]}))
    as (g' & Hdata & Hle).
  - vm_compute. reflexivity.
  - reflexivity.
  - exists g'. split; [exact Hdata|]. split; [exact Hle|].
    injection Hdata as <-. vm_compute. reflexivity.
Defined.

(** X4, evaluated: a new map with a series of 121 points, and one with
    fewer series than the chart has. *)
Lemma ReplaceAllDataSeries_error_tells_witness :
  (dataPoints (sample_chart (Map {["first" := [sample_point]]})) = NilPtr ∧
   ErrLimitExceeded "first" 120 121 = ErrNoActiveWidget "ReplaceAllDataSeries()") ∨
  (∃ old new,
     dataPoints (sample_chart (Map {["first" := [sample_point]]})) = Ptr old ∧
     Ptr (Map {["first" := replicate 121 sample_point]}) = Ptr new ∧
     ((maplen new < maplen old ∧
       ErrLimitExceeded "first" 120 121 = ErrNewDataSmaller (maplen new) (maplen old)) ∨
      (maplen old <= maplen new ∧
       ∃ key points, entries new !! key = Some points ∧
         DataPointXLimit (sample_chart (Map {["first" := [sample_point]]})) < len points ∧
         ErrLimitExceeded "first" 120 121 =
         ErrLimitExceeded key
           (DataPointXLimit (sample_chart (Map {["first" := [sample_point]]})))
           (len points)))).
Proof.
  apply (@ReplaceAllDataSeries_error_tells listed_runtime
           (Ptr (Map {["first" := replicate 121 sample_point]}))
           (sample_chart (Map {["first" := [sample_point]]}))
           (sample_chart (Map {["first" := [sample_point]]}))
           (ErrLimitExceeded "first" 120 121)).
  vm_compute. reflexivity.
Defined.

(** X5. On a chart with an allocated map, [ApplyNewDataSeries] with a
    series shorter than the limit returns no error; afterwards the map
    holds the new series under its name, in place of any series that was
    there, every other series is as before, and so is every other field
    of the chart, the objects apart. *)
Theorem ApplyNewDataSeries_installs (seriesName : string) (newSeries : series)
  (w : LineChartSkn) (m : seriesmap) :
  dataPoints w = Ptr (Map m) →
  len newSeries < DataPointXLimit w →
  ∃ w' m',
    ApplyNewDataSeries seriesName newSeries (Some w) = Ret (Some w', None) ∧
    dataPoints w' = Ptr (Map m') ∧
    m' !! seriesName = Some newSeries ∧
    (∀ other, other ≠ seriesName → m' !! other = m !! other) ∧
    (∀ f, f ≠ F_dataPoints → f ≠ F_objects → read f w' = read f w).
Proof.
  intros Hdata Hlt.
  rewrite (proj1 (ApplyNewDataSeries_cases seriesName newSeries w)) by done.
  rewrite Hdata. eexists _, _. split; [done|]. split; [done|].
  split; [by rewrite lookup_insert_eq|].
  split; [intros other Hne; by rewrite lookup_insert_ne|].
  intros f Hf _. by destruct f.
Qed.

(** X5, evaluated: a series of one point replaces a series of two. *)
Lemma ApplyNewDataSeries_installs_witness :
  ∃ w' m',
    ApplyNewDataSeries "first" [marked_point]
      (Some (sample_chart (Map {["first" := [sample_point; sample_point]]}))) =
    Ret (Some w', None) ∧
    dataPoints w' = Ptr (Map m') ∧
    m' !! "first" = Some [marked_point] ∧
    (∀ other, other ≠ "first" →
       m' !! other =
       ({["first" := [sample_point; sample_point]]} : seriesmap) !! other) ∧
    (∀ f, f ≠ F_dataPoints → f ≠ F_objects →
       read f w' = read f (sample_chart (Map {["first" := [sample_point; sample_point]]}))).
Proof.
  apply (ApplyNewDataSeries_installs "first" [marked_point]
           (sample_chart (Map {["first" := [sample_point; sample_point]]}))
           {["first" := [sample_point; sample_point]]}).
  - reflexivity.
  - vm_compute. reflexivity.
Defined.

(** ** The constructor on its own result *)

Section MoreConstruction.
Context `{Toolkit} `{GoRuntime}.

Lemma truncate_leading_idem (points : series) :
  truncate_leading (truncate_leading points) = truncate_leading points.
Proof.
  apply truncate_leading_within.
  destruct (decide (120 < len points)) as [Hover|Hin].
  - rewrite truncate_leading_len; [lia|done].
  - rewrite truncate_leading_within; lia.
Qed.

(** X6. The data a chart is built with is accepted as it is by the
    constructor: for every initial map, building a second chart from the
    data of the first returns no error and leaves the data unchanged. *)
Theorem NewSknLineChart_again (topTitle bottomTitle topTitle' bottomTitle' : string)
  (g : gomap) :
  ∃ w err w',
    NewSknLineChart topTitle bottomTitle (Ptr g) = Ret (w, err) ∧
    NewSknLineChart topTitle' bottomTitle' (dataPoints w) = Ret (w', None) ∧
    dataPoints w' = dataPoints w.
Proof.
  eexists _, _, _. split; [apply NewSknLineChart_returns|].
  change (dataPoints (new_widget topTitle bottomTitle (truncate_all g).1))
    with (Ptr (truncate_all g).1).
  rewrite NewSknLineChart_returns.
  destruct (truncate_all_entries g) as [Hg _].
  destruct (truncate_all_entries (truncate_all g).1) as [Hg' Herr'].
  assert ((truncate_all (truncate_all g).1).1 = (truncate_all g).1) as Hsame.
  { rewrite Hg', Hg. destruct g as [|m]; [done|]. f_equal.
    rewrite <- map_fmap_compose. apply map_fmap_ext. intros key points _.
    apply truncate_leading_idem. }
  assert ((truncate_all (truncate_all g).1).2 = None) as ->.
  { destruct ((truncate_all (truncate_all g).1).2) as [e|] eqn:Herr; [|done].
    destruct Herr' as [(key & points & Hkey & Hover) _]; [done|].
    rewrite Hg in Hkey.
    destruct g as [|m]; simpl in Hkey; [by rewrite lookup_empty in Hkey|].
    rewrite lookup_fmap in Hkey. destruct (m !! key) as [points0|]; [|done].
    injection Hkey as <-. destruct (decide (120 < len points0)).
    - rewrite truncate_leading_len in Hover; [lia|done].
    - rewrite truncate_leading_within in Hover; lia. }
  split; [done|].
  change (Ptr (truncate_all (truncate_all g).1).1 = Ptr (truncate_all g).1).
  by rewrite Hsame.
Qed.

End MoreConstruction.

(** ** The point under the mouse *)

Section MoreMouse.
Context `{Toolkit} `{GoRuntime}.

(** With no point of the series under the cursor the loop writes nothing. *)
Lemma mouse_over_points_miss (key : string) (pos : fyne.Position)
  (points : series) (idx : nat) (w : LineChartSkn) :
  Forall (λ point, under_mouse pos point = false) points →
  mouse_over_points key pos idx points w = w.
Proof.
  intros Hmiss. revert idx w.
  induction Hmiss as [|point points Hpoint _ IH]; intros idx w; simpl; [done|].
  by rewrite Hpoint, IH.
Qed.

(** With a point of the series under the cursor the loop ends on the
    tooltip of such a point. *)
Lemma mouse_over_points_hit (key : string) (pos : fyne.Position)
  (points : series) (idx : nat) (w : LineChartSkn) :
  Exists (λ point, under_mouse pos point = true) points →
  ∃ i point,
    points !! i = Some point ∧ under_mouse pos point = true ∧
    shows (mouse_over_points key pos idx points w) key (idx + i) point.
Proof.
  revert idx w. induction points as [|point points IH]; intros idx w Hhit.
  { by apply Exists_nil in Hhit. }
  simpl.
  destruct (decide (Exists (λ point, under_mouse pos point = true) points))
    as [Hlater|Hnone].
  - destruct (IH (S idx)
               (if under_mouse pos point
                then Refresh (enableMouseContainer (describe key idx point)
                                (ColorName point) pos w)
                else w) Hlater) as (i & point' & Hi & Hunder & Hshows).
    exists (S i), point'. rewrite Nat.add_succ_r. done.
  - apply Exists_cons in Hhit as [Hhere|Hlater]; [|done].
    rewrite Hhere. rewrite mouse_over_points_miss.
    + exists 0%nat, point. rewrite Nat.add_0_r. done.
    + apply Forall_forall. intros point' Hel.
      destruct (under_mouse pos point') eqn:Hunder; [|done].
      exfalso. apply Hnone, Exists_exists. by exists point'.
Qed.

Lemma mouse_over_series_hit (pos : fyne.Position) (kvs : list (string * series))
  (w : LineChartSkn) :
  Exists (λ kv, Exists (λ point, under_mouse pos point = true) kv.2) kvs →
  ∃ key points i point,
    (key, points) ∈ kvs ∧ points !! i = Some point ∧
    under_mouse pos point = true ∧
    shows (mouse_over_series pos kvs w) key i point.
Proof.
  revert w. induction kvs as [|[key points] kvs IH]; intros w Hhit.
  { by apply Exists_nil in Hhit. }
  simpl.
  destruct (decide (Exists (λ kv : string * series,
                       Exists (λ point, under_mouse pos point = true) kv.2) kvs))
    as [Hlater|Hnone].
  - destruct (IH (mouse_over_points key pos 0 points w) Hlater)
      as (key' & points' & i & point & Hel & Hi & Hunder & Hshows).
    exists key', points', i, point. split; [by apply elem_of_cons; right|done].
  - apply Exists_cons in Hhit as [Hhere|Hlater]; [|done]. simpl in Hhere.
    assert (∀ w0, mouse_over_series pos kvs w0 = w0) as Hsame.
    { clear -Hnone. induction kvs as [|[key' points'] kvs IH]; intros w0; simpl; [done|].
      rewrite mouse_over_points_miss.
      - apply IH. intros Hex. apply Hnone. by apply Exists_cons; right.
      - apply Forall_forall. intros point' Hel.
        destruct (under_mouse pos point') eqn:Hunder; [|done].
        exfalso. apply Hnone, Exists_cons. left. simpl.
        apply Exists_exists. by exists point'. }
    rewrite Hsame.
    destruct (mouse_over_points_hit key pos points 0 w Hhere)
      as (i & point & Hi & Hunder & Hshows).
    exists key, points, i, point. split; [apply list_elem_of_here|done].
Qed.

(** What [MouseMoved] returns with mouse-point display enabled. *)
Lemma MouseMoved_enabled (me : desktop.MouseEvent) (w : LineChartSkn) (g : gomap) :
  EnableMousePointDisplay w = true → dataPoints w = Ptr g →
  MouseMoved me w = Ret (mouse_over_series (desktop.Position me) (range (entries g)) w).
Proof. intros Hon Hdata. unfold MouseMoved. by rewrite Hon, Hdata. Qed.

(** X7. With mouse-point display enabled, whenever the cursor is within the
    marker of some point of the chart, [MouseMoved] leaves the tooltip of a
    point the cursor is within: the text describes that point by series,
    index, value and timestamp, and the frame has that point's colour. *)
Theorem MouseMoved_finds (me : desktop.MouseEvent) (w : LineChartSkn) (g : gomap)
  (key : string) (points : series) (idx : nat) (point : SknChartDatapoint) :
  EnableMousePointDisplay w = true →
  dataPoints w = Ptr g →
  entries g !! key = Some points →
  points !! idx = Some point →
  within_marker (desktop.Position me) point →
  ∃ w' key' points' idx' point',
    MouseMoved me w = Ret w' ∧
    entries g !! key' = Some points' ∧ points' !! idx' = Some point' ∧
    within_marker (desktop.Position me) point' ∧
    shows w' key' idx' point'.
Proof.
  intros Hon Hdata Hkey Hidx Hin. rewrite (MouseMoved_enabled me w g Hon Hdata).
  destruct (mouse_over_series_hit (desktop.Position me) (range (entries g)) w)
    as (key' & points' & i & point' & Hel%elem_of_range & Hi & Hunder & Hshows).
  { apply Exists_exists. exists (key, points). split; [by apply elem_of_range|].
    simpl. apply Exists_exists. exists point.
    split; [by eapply list_elem_of_lookup_2|by apply under_mouse_within]. }
  eexists _, key', points', i, point'. split; [done|]. split; [done|].
  split; [done|]. split; [by apply under_mouse_within|done].
Qed.

End MoreMouse.

(** X7, evaluated: the cursor at (100, 50) within the marker of the second
    point of a series. *)
Lemma MouseMoved_finds_witness :
  ∃ w' key' points' idx' point',
    @MouseMoved plain_toolkit listed_runtime
      {| desktop.Position := fyne.NewPos (float32.of_Z 100) (float32.of_Z 50);
         desktop.Button := desktop.MouseButtonPrimary |}
      (sample_chart (Map {["first" := [sample_point; marked_point]]})) = Ret w' ∧
    entries (Map {["first" := [sample_point; marked_point]]}) !! key' = Some points' ∧
    points' !! idx' = Some point' ∧
    within_marker (fyne.NewPos (float32.of_Z 100) (float32.of_Z 50)) point' ∧
    @shows plain_toolkit w' key' idx' point'.
Proof.
  apply (@MouseMoved_finds plain_toolkit listed_runtime
           {| desktop.Position := fyne.NewPos (float32.of_Z 100) (float32.of_Z 50);
              desktop.Button := desktop.MouseButtonPrimary |}
           (sample_chart (Map {["first" := [sample_point; marked_point]]}))
           (Map {["first" := [sample_point; marked_point]]})
           "first" [sample_point; marked_point] 1 marked_point).
  - reflexivity.
  - reflexivity.
  - vm_compute. reflexivity.
  - reflexivity.
  - repeat split; vm_compute; reflexivity.
Defined.
(** ** The renderer's lines and markers *)

Lemma lines_of_insert (lines : linemap) (key other : string) (l : list canvasLine) :
  lines_of (<[key := l]> lines) other = if decide (key = other) then l else lines_of lines other.
Proof.
  unfold lines_of. destruct (decide (key = other)) as [->|Hne].
  - by rewrite lookup_insert_eq.
  - by rewrite lookup_insert_ne.
Qed.

Lemma markers_of_insert (markers : circlemap) (key other : string)
  (l : list canvasCircle) :
  markers_of (<[key := l]> markers) other =
  if decide (key = other) then l else markers_of markers other.
Proof.
  unfold markers_of. destruct (decide (key = other)) as [->|Hne].
  - by rewrite lookup_insert_eq.
  - by rewrite lookup_insert_ne.
Qed.

(** The loop of [verifyDataPoints] over the points of a series, entered at
    an index within the lines there are: the points beyond the lines get a
    line and a marker each, appended in order. *)
Lemma verify_points_appends (key : string) (points : series) (idx : nat)
  (lm : linemap * circlemap) :
  (idx ≤ length (lines_of lm.1 key))%nat →
  let lm' := verify_points key idx points lm in
  lines_of lm'.1 key =
    lines_of lm.1 key ++
    (point_line <$> drop (length (lines_of lm.1 key) - idx) points) ∧
  markers_of lm'.2 key =
    markers_of lm.2 key ++
    (point_marker <$> drop (length (lines_of lm.1 key) - idx) points) ∧
  (is_Some (lm.1 !! key) → is_Some (lm'.1 !! key)) ∧
  (∀ other, other ≠ key → lm'.1 !! other = lm.1 !! other ∧ lm'.2 !! other = lm.2 !! other).
Proof.
  revert idx lm. induction points as [|point points IH]; intros idx lm Hidx; simpl.
  { rewrite drop_nil. simpl. rewrite !app_nil_r. auto. }
  destruct (decide (Z.of_nat idx > len (lines_of lm.1 key) - 1)) as [Hnew|Hold].
  - assert (idx = length (lines_of lm.1 key)) as Hlen by (unfold len in Hnew; lia).
    destruct (IH (S idx) (append_point key point lm)) as (Hl & Hm & Hs & Ho).
    { simpl. rewrite lines_of_insert, decide_True by done. rewrite length_app. simpl. lia. }
    simpl in Hl, Hm, Hs, Ho.
    rewrite !lines_of_insert, !decide_True in Hl by done.
    rewrite markers_of_insert, lines_of_insert, !decide_True in Hm by done.
    rewrite Hl, Hm. rewrite length_app. simpl.
    replace (length (lines_of lm.1 key) + 1 - S idx)%nat with 0%nat by lia.
    replace (length (lines_of lm.1 key) - idx)%nat with 0%nat by lia.
    rewrite !drop_0. simpl. rewrite <- !app_assoc. simpl.
    split; [done|]. split; [done|]. split.
    + intros _. apply Hs. by rewrite lookup_insert_eq.
    + intros other Hne. destruct (Ho other Hne) as [-> ->].
      by rewrite !lookup_insert_ne.
  - destruct (IH (S idx) lm) as (Hl & Hm & Hs & Ho).
    { unfold len in Hold. lia. }
    rewrite Hl, Hm.
    replace (length (lines_of lm.1 key) - idx)%nat
      with (S (length (lines_of lm.1 key) - S idx)) by (unfold len in Hold; lia).
    done.
Qed.

Lemma verify_entry_appends (lm : linemap * circlemap) (key : string) (points : series) :
  let lm' := verify_entry lm (key, points) in
  lines_of lm'.1 key = verified_lines lm.1 key points ∧
  markers_of lm'.2 key = verified_markers lm.1 lm.2 key points ∧
  is_Some (lm'.1 !! key) ∧
  (∀ other, other ≠ key → lm'.1 !! other = lm.1 !! other ∧ lm'.2 !! other = lm.2 !! other).
Proof.
  unfold verify_entry, verified_lines, verified_markers. simpl.
  destruct (lm.1 !! key) as [l|] eqn:Hkey.
  - destruct (verify_points_appends key points 0 lm) as (Hl & Hm & Hs & Ho); [lia|].
    rewrite Nat.sub_0_r in Hl, Hm. split; [done|]. split; [done|].
    split; [|done]. apply Hs. by rewrite Hkey.
  - destruct (verify_points_appends key points 0
                (<[key := []]> lm.1, <[key := []]> lm.2)) as (Hl & Hm & Hs & Ho).
    { simpl. lia. }
    simpl in Hl, Hm, Hs, Ho.
    rewrite lines_of_insert, decide_True in Hl by done.
    rewrite markers_of_insert, decide_True in Hm by done. simpl in Hl, Hm.
    assert (lines_of lm.1 key = []) as Hnil by (unfold lines_of; by rewrite Hkey).
    rewrite Hnil. simpl. rewrite !lines_of_insert, !decide_True in Hm by done.
    simpl in Hm.
    split; [done|]. split; [done|]. split.
    + apply Hs. by rewrite lookup_insert_eq.
    + intros other Hne. destruct (Ho other Hne) as [-> ->].
      by rewrite !lookup_insert_ne.
Qed.

(** A [range] loop meets every key once. *)
Lemma NoDup_range `{GoRuntime} (m : seriesmap) : NoDup (range m).*1.
Proof. rewrite (range_perm m). apply NoDup_fst_map_to_list. Qed.

Lemma not_elem_of_range `{GoRuntime} (m : seriesmap) (key : string) :
  key ∉ (range m).*1 ↔ m !! key = None.
Proof.
  rewrite list_elem_of_fmap. split.
  - intros Hnot. destruct (m !! key) as [points|] eqn:Hkey; [|done].
    exfalso. apply Hnot. exists (key, points). split; [done|]. by apply elem_of_range.
  - intros Hnone ([k points] & -> & Hel%elem_of_range). simpl in Hnone. congruence.
Qed.

(** The loop of [verifyDataPoints] over entries with distinct keys. *)
Lemma verify_all (kvs : list (string * series)) (lm : linemap * circlemap) :
  NoDup kvs.*1 →
  let lm' := fold_left verify_entry kvs lm in
  (∀ key points, (key, points) ∈ kvs →
     lines_of lm'.1 key = verified_lines lm.1 key points ∧
     markers_of lm'.2 key = verified_markers lm.1 lm.2 key points ∧
     is_Some (lm'.1 !! key)) ∧
  (∀ key, key ∉ kvs.*1 → lm'.1 !! key = lm.1 !! key ∧ lm'.2 !! key = lm.2 !! key).
Proof.
  revert lm. induction kvs as [|[k ps] kvs IH]; intros lm Hnodup; simpl.
  { split; [|done]. intros key points Hel. by apply elem_of_nil in Hel. }
  apply NoDup_cons in Hnodup as [Hk Hnodup]. simpl in Hk.
  destruct (IH (verify_entry lm (k, ps)) Hnodup) as [Hin Hout].
  destruct (verify_entry_appends lm k ps) as (Hl & Hm & Hs & Ho).
  split.
  - intros key points [[= -> ->]|Hel]%elem_of_cons.
    + destruct (Hout k Hk) as [Hl' Hm']. unfold lines_of, markers_of in *.
      by rewrite Hl', Hm'.
    + assert (key ≠ k) as Hne.
      { intros ->. apply Hk, list_elem_of_fmap. by exists (k, points). }
      destruct (Hin key points Hel) as (Hl' & Hm' & Hs'). destruct (Ho key Hne) as [Hl0 Hm0].
      split; [|split; [|done]].
      * rewrite Hl'. unfold verified_lines, lines_of. by rewrite Hl0.
      * rewrite Hm'. unfold verified_markers, markers_of, lines_of. by rewrite Hl0, Hm0.
  - intros key Hnot. apply not_elem_of_cons in Hnot as [Hne Hnot]. simpl in Hne.
    destruct (Hout key Hnot) as [-> ->]. by apply Ho.
Qed.

(** The data-point loop of the constructor for the points of one key. *)
Lemma create_points_appends (key : string) (points : series) (lm : linemap * circlemap) :
  let lm' := fold_left (λ lm point, append_point key point lm) points lm in
  lines_of lm'.1 key = lines_of lm.1 key ++ (point_line <$> points) ∧
  markers_of lm'.2 key = markers_of lm.2 key ++ (point_marker <$> points) ∧
  (∀ other, other ≠ key → lm'.1 !! other = lm.1 !! other ∧ lm'.2 !! other = lm.2 !! other).
Proof.
  revert lm. induction points as [|point points IH]; intros lm; simpl.
  { by rewrite !app_nil_r. }
  destruct (IH (append_point key point lm)) as (Hl & Hm & Ho). simpl in Hl, Hm, Ho.
  rewrite lines_of_insert, decide_True in Hl by done.
  rewrite markers_of_insert, decide_True in Hm by done.
  rewrite Hl, Hm, <- !app_assoc. split; [done|]. split; [done|].
  intros other Hne. destruct (Ho other Hne) as [-> ->]. by rewrite !lookup_insert_ne.
Qed.

Lemma create_entry_appends (lm : linemap * circlemap) (key : string) (points : series) :
  let lm' := create_entry lm (key, points) in
  lines_of lm'.1 key = lines_of lm.1 key ++ (point_line <$> points) ∧
  markers_of lm'.2 key = markers_of lm.2 key ++ (point_marker <$> points) ∧
  (∀ other, other ≠ key → lm'.1 !! other = lm.1 !! other ∧ lm'.2 !! other = lm.2 !! other).
Proof. apply create_points_appends. Qed.

Lemma create_all (kvs : list (string * series)) (lm : linemap * circlemap) :
  NoDup kvs.*1 →
  let lm' := fold_left create_entry kvs lm in
  (∀ key points, (key, points) ∈ kvs →
     lines_of lm'.1 key = lines_of lm.1 key ++ (point_line <$> points) ∧
     markers_of lm'.2 key = markers_of lm.2 key ++ (point_marker <$> points)) ∧
  (∀ key, key ∉ kvs.*1 → lm'.1 !! key = lm.1 !! key ∧ lm'.2 !! key = lm.2 !! key).
Proof.
  revert lm. induction kvs as [|[k ps] kvs IH]; intros lm Hnodup; simpl.
  { split; [|done]. intros key points Hel. by apply elem_of_nil in Hel. }
  apply NoDup_cons in Hnodup as [Hk Hnodup]. simpl in Hk.
  destruct (IH (create_entry lm (k, ps)) Hnodup) as [Hin Hout].
  destruct (create_entry_appends lm k ps) as (Hl & Hm & Ho).
  split.
  - intros key points [[= -> ->]|Hel]%elem_of_cons.
    + destruct (Hout k Hk) as [Hl' Hm']. unfold lines_of, markers_of in *.
      by rewrite Hl', Hm'.
    + assert (key ≠ k) as Hne.
      { intros ->. apply Hk, list_elem_of_fmap. by exists (k, points). }
      destruct (Hin key points Hel) as (Hl' & Hm'). destruct (Ho key Hne) as [Hl0 Hm0].
      rewrite Hl', Hm'. unfold markers_of, lines_of. by rewrite Hl0, Hm0.
  - intros key Hnot. apply not_elem_of_cons in Hnot as [Hne Hnot]. simpl in Hne.
    destruct (Hout key Hnot) as [-> ->]. by apply Ho.
Qed.

(** ** The data lines and markers in Layout *)

Lemma place_lines_nil (lines : list canvasLine) : place_lines [] lines = lines.
Proof. done. Qed.

Lemma place_lines_length (segs : list segment) (lines : list canvasLine) :
  (length segs ≤ length lines)%nat → length (place_lines segs lines) = length lines.
Proof.
  intros Hle. unfold place_lines. rewrite length_app, length_zip_with, length_drop. lia.
Qed.

Lemma place_markers_length `{RendererRuntime} (points : series)
  (markers : list canvasCircle) :
  (length points ≤ length markers)%nat →
  length (place_markers points markers) = length markers.
Proof.
  intros Hle. unfold place_markers.
  rewrite length_app, length_zip_with, length_drop. lia.
Qed.

Lemma layout_series_length (xp yp xScale yScale height : float32) (data : series)
  (idx : nat) (lastPoint : fyne.Position) :
  length (layout_series xp yp xScale yScale height idx lastPoint data) = length data.
Proof.
  revert idx lastPoint. induction data as [|point data IH]; intros idx lastPoint; [done|].
  cbn [layout_series].
  destruct (layout_point xp yp xScale yScale height idx lastPoint point)
    as [[thisPoint line] point'].
  simpl. by rewrite IH.
Qed.

(** The corners [zt] and [zb] that [Layout] gives the marker of a point are
    the marker bounds it records on the point. *)
Lemma layout_point_corners (xp yp xScale yScale height : float32) (idx : nat)
  (lastPoint : fyne.Position) (point : SknChartDatapoint) :
  let laid := layout_point xp yp xScale yScale height idx lastPoint point in
  fyne.NewPos (float32.sub (fyne.X laid.1.1) (float32.of_Z 2))
              (float32.sub (fyne.Y laid.1.1) (float32.of_Z 2)) = markerTop laid.2 ∧
  fyne.NewPos (float32.add (fyne.X laid.1.1) (float32.of_Z 2))
              (float32.add (fyne.Y laid.1.1) (float32.of_Z 2)) = markerBottom laid.2.
Proof. done. Qed.

(** The loop of [Layout] over the points of a series, entered at an index
    within the lines and markers there are: it returns exactly when there
    is a line and a marker for every point left, and then the lines from
    the index on carry the ends of the segments of the series and the
    markers the marker bounds of its points. *)
Lemma layout_lines_cases `{RendererRuntime} (xp yp xScale yScale height : float32)
  (data : series) (idx : nat) (lastPoint : fyne.Position) (lines : list canvasLine)
  (markers : list canvasCircle) :
  (idx ≤ length lines)%nat → (idx ≤ length markers)%nat →
  layout_lines xp yp xScale yScale height idx lastPoint data lines markers =
  if decide ((idx + length data ≤ length lines)%nat ∧
             (idx + length data ≤ length markers)%nat)
  then
    let laid := layout_series xp yp xScale yScale height idx lastPoint data in
    Ret {| laid_lines := take idx lines ++ place_lines (fst <$> laid) (drop idx lines);
           laid_markers :=
             take idx markers ++ place_markers (snd <$> laid) (drop idx markers);
           laid_points := snd <$> laid |}
  else Panic.
Proof.
  revert idx lastPoint lines markers.
  induction data as [|point data IH]; intros idx lastPoint lines markers Hlines Hmarkers.
  { simpl. rewrite decide_True by lia. unfold place_markers. simpl.
    by rewrite place_lines_nil, drop_0, !take_drop. }
  cbn [layout_lines layout_series length].
  pose proof (layout_point_corners xp yp xScale yScale height idx lastPoint point)
    as Hcorners.
  destruct (layout_point xp yp xScale yScale height idx lastPoint point)
    as [[thisPoint line] point'].
  cbv zeta in Hcorners. cbn [fst snd] in Hcorners.
  destruct Hcorners as [Htop Hbottom]. cbv zeta.
  destruct (lines !! idx) as [dpv|] eqn:Hdpv.
  2:{ apply lookup_ge_None in Hdpv. rewrite decide_False by lia. done. }
  destruct (markers !! idx) as [dpm|] eqn:Hdpm.
  2:{ apply lookup_ge_None in Hdpm. rewrite decide_False by lia. done. }
  apply lookup_lt_Some in Hdpv as Hlt. apply lookup_lt_Some in Hdpm as Hlt'.
  rewrite Htop, Hbottom.
  rewrite IH by (rewrite ?length_insert; lia). rewrite !length_insert.
  destruct (decide ((S idx + length data ≤ length lines)%nat ∧
                    (S idx + length data ≤ length markers)%nat)) as [Hfit|Hshort].
  - rewrite decide_True by lia. cbn [obind laid_lines laid_markers laid_points].
    f_equal.
    rewrite (take_S_r _ _ (set_line_Positions (Position1 line) (Position2 line) dpv))
      by (by apply list_lookup_insert_eq).
    rewrite (take_S_r (<[idx := _]> markers) _
               (circle_Resize (fyne.NewSize (float32.of_Z 5) (float32.of_Z 5))
                  (set_circle_Positions (markerTop point') (markerBottom point') dpm)))
      by (by apply list_lookup_insert_eq).
    rewrite !take_insert_ge by lia. rewrite !drop_insert_lt by lia.
    rewrite (drop_S lines dpv idx Hdpv), (drop_S markers dpm idx Hdpm).
    rewrite <- !app_assoc. done.
  - rewrite decide_False by lia. done.
Qed.

Section LayoutLoop.
Context `{Toolkit} `{RendererRuntime}.

(** Once the loop over the series has panicked nothing brings it back. *)
Lemma layout_entries_Panic (s : fyne.Size) (w : LineChartSkn)
  (kvs : list (string * series)) :
  fold_left (layout_entry s w) kvs Panic = Panic.
Proof. induction kvs as [|kv kvs IH]; simpl; done. Qed.

(** One turn of the loop over the series. *)
Lemma layout_entry_cases (s : fyne.Size) (w : LineChartSkn) (a : layout_state)
  (key : string) (data : series) :
  layout_entry s w (Ret a) (key, data) =
  if decide ((length data ≤ length (lines_of (state_lines a) key))%nat ∧
             (length data ≤ length (markers_of (state_markers a) key))%nat)
  then Ret {| state_lines :=
                match data with
                | [] => state_lines a
                | _ :: _ =>
                  <[key := place_lines (fst <$> Layout_series s w data)
                             (lines_of (state_lines a) key)]> (state_lines a)
                end;
              state_markers :=
                match data with
                | [] => state_markers a
                | _ :: _ =>
                  <[key := place_markers (snd <$> Layout_series s w data)
                             (markers_of (state_markers a) key)]> (state_markers a)
                end;
              state_points := <[key := snd <$> Layout_series s w data]> (state_points a) |}
  else Panic.
Proof.
  unfold layout_entry. cbn [obind fst snd]. rewrite layout_lines_cases by lia.
  cbn [Nat.add]. destruct (decide _) as [Hfit|Hshort]; [|done].
  cbn [obind laid_lines laid_markers laid_points]. rewrite !take_0, !drop_0. done.
Qed.

(** The state after the turn for the entry [(key, data)]. *)
Lemma layout_entry_keys (s : fyne.Size) (w : LineChartSkn) (a a' : layout_state)
  (key : string) (data : series) :
  layout_entry s w (Ret a) (key, data) = Ret a' →
  ((length data ≤ length (lines_of (state_lines a) key))%nat ∧
   (length data ≤ length (markers_of (state_markers a) key))%nat) ∧
  lines_of (state_lines a') key =
    place_lines (fst <$> Layout_series s w data) (lines_of (state_lines a) key) ∧
  markers_of (state_markers a') key =
    place_markers (snd <$> Layout_series s w data) (markers_of (state_markers a) key) ∧
  state_points a' !! key = Some (snd <$> Layout_series s w data) ∧
  (∀ other, other ≠ key →
     state_lines a' !! other = state_lines a !! other ∧
     state_markers a' !! other = state_markers a !! other ∧
     state_points a' !! other = state_points a !! other).
Proof.
  rewrite layout_entry_cases. destruct (decide _) as [Hfit|Hshort]; [|done].
  intros [= <-]. cbn [state_lines state_markers state_points].
  split; [done|]. split; [|split; [|split]].
  - destruct data; [done|]. by rewrite lines_of_insert, decide_True.
  - destruct data; [unfold place_markers; simpl; by rewrite drop_0|].
    by rewrite markers_of_insert, decide_True.
  - by rewrite lookup_insert_eq.
  - intros other Hne. rewrite lookup_insert_ne by done.
    destruct data; [done|]. by rewrite !lookup_insert_ne.
Qed.

Lemma layout_all (s : fyne.Size) (w : LineChartSkn) (kvs : list (string * series))
  (a : layout_state) :
  NoDup kvs.*1 →
  (∀ key data, (key, data) ∈ kvs →
     (length data ≤ length (lines_of (state_lines a) key))%nat ∧
     (length data ≤ length (markers_of (state_markers a) key))%nat) →
  ∃ a',
    fold_left (layout_entry s w) kvs (Ret a) = Ret a' ∧
    (∀ key data, (key, data) ∈ kvs →
       lines_of (state_lines a') key =
         place_lines (fst <$> Layout_series s w data) (lines_of (state_lines a) key) ∧
       markers_of (state_markers a') key =
         place_markers (snd <$> Layout_series s w data)
           (markers_of (state_markers a) key) ∧
       state_points a' !! key = Some (snd <$> Layout_series s w data)) ∧
    (∀ key, key ∉ kvs.*1 →
       state_lines a' !! key = state_lines a !! key ∧
       state_markers a' !! key = state_markers a !! key ∧
       state_points a' !! key = state_points a !! key).
Proof.
  revert a. induction kvs as [|[k ps] kvs IH]; intros a Hnodup Hfit.
  { exists a. split; [done|]. split; [|done].
    intros key data Hel. by apply elem_of_nil in Hel. }
  apply NoDup_cons in Hnodup as [Hk Hnodup]. simpl in Hk.
  cbn [fold_left].
  destruct (layout_entry s w (Ret a) (k, ps)) as [a1|] eqn:Hturn.
  2:{ rewrite layout_entry_cases in Hturn.
      rewrite decide_True in Hturn by (apply Hfit, list_elem_of_here). done. }
  apply layout_entry_keys in Hturn as (_ & Hl1 & Hm1 & Hp1 & Hother).
  destruct (IH a1 Hnodup) as (a' & Hfold & Hin & Hout).
  { intros key data Hel.
    assert (key ≠ k) as Hne.
    { intros ->. apply Hk, list_elem_of_fmap. by exists (k, data). }
    destruct (Hother key Hne) as (Hl & Hm & _).
    unfold lines_of, markers_of. rewrite Hl, Hm. apply Hfit. by apply elem_of_cons; right. }
  exists a'. split; [done|]. split.
  - intros key data [[= -> ->]|Hel]%elem_of_cons.
    + destruct (Hout k Hk) as (HL & HM & HP).
      unfold lines_of at 1, markers_of at 1. rewrite HL, HM, HP.
      fold (lines_of (state_lines a1) k). fold (markers_of (state_markers a1) k).
      by rewrite Hl1, Hm1.
    + assert (key ≠ k) as Hne.
      { intros ->. apply Hk, list_elem_of_fmap. by exists (k, data). }
      destruct (Hin key data Hel) as (HL & HM & HP). rewrite HL, HM, HP.
      destruct (Hother key Hne) as (Hl & Hm & _).
      unfold lines_of, markers_of. by rewrite Hl, Hm.
  - intros key Hnot. apply not_elem_of_cons in Hnot as [Hne Hnot]. simpl in Hne.
    destruct (Hout key Hnot) as (-> & -> & ->). by apply Hother.
Qed.

Lemma layout_all_panics (s : fyne.Size) (w : LineChartSkn)
  (kvs : list (string * series)) (a : layout_state) (key : string) (data : series) :
  NoDup kvs.*1 → (key, data) ∈ kvs →
  ¬ ((length data ≤ length (lines_of (state_lines a) key))%nat ∧
     (length data ≤ length (markers_of (state_markers a) key))%nat) →
  fold_left (layout_entry s w) kvs (Ret a) = Panic.
Proof.
  revert a. induction kvs as [|[k ps] kvs IH]; intros a Hnodup Hel Hshort.
  { by apply elem_of_nil in Hel. }
  apply NoDup_cons in Hnodup as [Hk Hnodup]. simpl in Hk.
  cbn [fold_left].
  apply elem_of_cons in Hel as [[= -> ->]|Hel].
  { rewrite layout_entry_cases, decide_False by done. apply layout_entries_Panic. }
  destruct (layout_entry s w (Ret a) (k, ps)) as [a1|] eqn:Hturn;
    [|apply layout_entries_Panic].
  apply layout_entry_keys in Hturn as (_ & _ & _ & _ & Hother).
  apply IH; [done..|].
  assert (key ≠ k) as Hne.
  { intros ->. apply Hk, list_elem_of_fmap. by exists (k, data). }
  destruct (Hother key Hne) as (Hl & Hm & _).
  unfold lines_of, markers_of. by rewrite Hl, Hm.
Qed.

End LayoutLoop.

(** ** The markers in Objects *)

(** The loop of [Objects] over the lines of a key, entered at an index
    within the markers there are: it returns exactly when there is a marker
    for every line left. *)
Lemma show_markers_cases (enable : bool) (lines : list canvasLine) (idx : nat)
  (markers : list canvasCircle) :
  (idx ≤ length markers)%nat →
  show_markers enable idx lines markers =
  if decide (idx + length lines ≤ length markers)%nat
  then Ret (take idx markers ++ shown_markers enable (length lines) (drop idx markers))
  else Panic.
Proof.
  revert idx markers. induction lines as [|line lines IH]; intros idx markers Hidx.
  { simpl. rewrite decide_True by lia. unfold shown_markers. simpl.
    by rewrite drop_0, take_drop. }
  cbn [show_markers length].
  destruct (markers !! idx) as [marker|] eqn:Hmarker.
  2:{ apply lookup_ge_None in Hmarker. rewrite decide_False by lia. done. }
  apply lookup_lt_Some in Hmarker as Hlt.
  rewrite IH by (rewrite length_insert; lia). rewrite length_insert.
  destruct (decide (S idx + length lines ≤ length markers)%nat) as [Hfit|Hshort].
  - rewrite decide_True by lia. f_equal.
    rewrite (take_S_r _ _ (show_circle_if enable marker))
      by (by apply list_lookup_insert_eq).
    rewrite take_insert_ge by lia. rewrite drop_insert_lt by lia.
    rewrite (drop_S markers marker idx Hmarker). rewrite <- app_assoc. done.
  - rewrite decide_False by lia. done.
Qed.

Lemma objects_all (enable : bool) (kvs : list (string * list canvasLine))
  (markers : circlemap) :
  NoDup kvs.*1 →
  (∀ key lines, (key, lines) ∈ kvs →
     (length lines ≤ length (markers_of markers key))%nat) →
  ∃ markers',
    objects_of_lines enable kvs markers =
    Ret (flat_map (λ kv, flat_map (λ _, [fyne.Line; fyne.Circle]) kv.2) kvs, markers') ∧
    (∀ key lines, (key, lines) ∈ kvs →
       markers_of markers' key =
       shown_markers enable (length lines) (markers_of markers key)) ∧
    (∀ key, key ∉ kvs.*1 → markers' !! key = markers !! key).
Proof.
  revert markers. induction kvs as [|[k ls] kvs IH]; intros markers Hnodup Hfit.
  { exists markers. split; [done|]. split; [|done].
    intros key lines Hel. by apply elem_of_nil in Hel. }
  apply NoDup_cons in Hnodup as [Hk Hnodup]. simpl in Hk.
  cbn [objects_of_lines]. rewrite show_markers_cases by lia.
  rewrite decide_True by (simpl; apply Hfit, list_elem_of_here).
  cbn [obind]. rewrite drop_0, take_0. cbn [app].
  set (shown := shown_markers enable (length ls) (markers_of markers k)).
  change (match ls with [] => markers | _ :: _ => <[k := shown]> markers end)
    with (match ls with [] => markers | _ :: _ => <[k := shown]> markers end).
  set (markers1 := match ls with [] => markers | _ :: _ => <[k := shown]> markers end).
  assert (markers_of markers1 k = shown) as Hhere.
  { subst markers1 shown. destruct ls; [done|]. by rewrite markers_of_insert, decide_True. }
  assert (∀ other, other ≠ k → markers1 !! other = markers !! other) as Hother.
  { intros other Hne. subst markers1. destruct ls; [done|]. by rewrite lookup_insert_ne. }
  destruct (IH markers1 Hnodup) as (markers' & Hcall & Hin & Hout).
  { intros key lines Hel.
    assert (key ≠ k) as Hne.
    { intros ->. apply Hk, list_elem_of_fmap. by exists (k, lines). }
    unfold markers_of. rewrite (Hother key Hne). apply Hfit. by apply elem_of_cons; right. }
  exists markers'. fold markers1. rewrite Hcall. split; [done|]. split.
  - intros key lines [[= -> ->]|Hel]%elem_of_cons.
    + unfold markers_of at 1. rewrite (Hout k Hk). by fold (markers_of markers1 k).
    + assert (key ≠ k) as Hne.
      { intros ->. apply Hk, list_elem_of_fmap. by exists (k, lines). }
      rewrite (Hin key lines Hel). unfold markers_of. by rewrite (Hother key Hne).
  - intros key Hnot. apply not_elem_of_cons in Hnot as [Hne Hnot]. simpl in Hne.
    rewrite (Hout key Hnot). by apply Hother.
Qed.

Lemma objects_all_panics (enable : bool) (kvs : list (string * list canvasLine))
  (markers : circlemap) (key : string) (lines : list canvasLine) :
  NoDup kvs.*1 → (key, lines) ∈ kvs →
  (length (markers_of markers key) < length lines)%nat →
  objects_of_lines enable kvs markers = Panic.
Proof.
  revert markers. induction kvs as [|[k ls] kvs IH]; intros markers Hnodup Hel Hshort.
  { by apply elem_of_nil in Hel. }
  apply NoDup_cons in Hnodup as [Hk Hnodup]. simpl in Hk.
  cbn [objects_of_lines]. rewrite show_markers_cases by lia.
  apply elem_of_cons in Hel as [[= -> ->]|Hel].
  { rewrite decide_False by (simpl; lia). done. }
  destruct (decide _) as [Hfit|_]; [|done]. cbn [obind].
  rewrite (IH _ Hnodup Hel); [done|].
  assert (key ≠ k) as Hne.
  { intros ->. apply Hk, list_elem_of_fmap. by exists (k, lines). }
  destruct ls; [done|]. by rewrite markers_of_insert, decide_False.
Qed.

Lemma NoDup_range_lines `{RendererRuntime} (m : linemap) : NoDup (range_lines m).*1.
Proof. rewrite (range_lines_perm m). apply NoDup_fst_map_to_list. Qed.

Lemma elem_of_range_lines `{RendererRuntime} (m : linemap) (key : string)
  (lines : list canvasLine) :
  (key, lines) ∈ range_lines m ↔ m !! key = Some lines.
Proof. rewrite (range_lines_perm m). apply elem_of_map_to_list. Qed.

Lemma not_elem_of_range_lines `{RendererRuntime} (m : linemap) (key : string) :
  key ∉ (range_lines m).*1 ↔ m !! key = None.
Proof.
  rewrite list_elem_of_fmap. split.
  - intros Hnot. destruct (m !! key) as [lines|] eqn:Hkey; [|done].
    exfalso. apply Hnot. exists (key, lines). split; [done|]. by apply elem_of_range_lines.
  - intros Hnone ([k lines] & -> & Hel%elem_of_range_lines). simpl in Hnone. congruence.
Qed.

(** ** The renderer and the widget's data *)

Lemma verified_lines_length (lines : linemap) (key : string) (points : series) :
  length (verified_lines lines key points) =
  (length (lines_of lines key) `max` length points)%nat.
Proof.
  unfold verified_lines. rewrite length_app, length_fmap, length_drop. lia.
Qed.

Lemma verified_markers_length (lines : linemap) (markers : circlemap) (key : string)
  (points : series) :
  length (markers_of markers key) = length (lines_of lines key) →
  length (verified_markers lines markers key points) =
  length (verified_lines lines key points).
Proof.
  intros Hstep. unfold verified_markers, verified_lines.
  rewrite !length_app, !length_fmap. f_equal.
  unfold lines_of in *. destruct (lines !! key); [done|]. done.
Qed.

Lemma Layout_series_length `{Toolkit} (s : fyne.Size) (w : LineChartSkn) (data : series) :
  length (Layout_series s w data) = length data.
Proof. apply layout_series_length. Qed.

Section RendererData.
Context `{Toolkit} `{GoRuntime} `{RendererRuntime}.

(** What [verifyDataPoints] returns on a widget with a data map. *)
Lemma verifyDataPoints_lines (w : LineChartSkn) (r : sknLineChartRenderer) (g : gomap) :
  dataPoints w = Ptr g →
  ∃ lines markers,
    verifyDataPoints w r = Ret (set_r_data lines markers r) ∧
    (∀ key points, entries g !! key = Some points →
       lines_of lines key = verified_lines (r_dataPoints r) key points ∧
       markers_of markers key =
         verified_markers (r_dataPoints r) (r_dataPointMarkers r) key points ∧
       is_Some (lines !! key)) ∧
    (∀ key, entries g !! key = None →
       lines !! key = r_dataPoints r !! key ∧
       markers !! key = r_dataPointMarkers r !! key).
Proof.
  intros Hdata. unfold verifyDataPoints. rewrite Hdata. simpl.
  destruct (verify_all (range (entries g)) (r_dataPoints r, r_dataPointMarkers r)
              (NoDup_range (entries g))) as [Hin Hout].
  eexists _, _. split; [done|]. split.
  - intros key points Hkey%elem_of_range. by apply Hin.
  - intros key Hkey%not_elem_of_range. by apply Hout.
Qed.

(** After [verifyDataPoints] the renderer has a line and a marker for every
    point of the widget, if it had a marker for each of its lines. *)
Lemma verifyDataPoints_ready (w : LineChartSkn) (r r' : sknLineChartRenderer)
  (g : gomap) :
  in_step (r_dataPoints r) (r_dataPointMarkers r) →
  dataPoints w = Ptr g →
  verifyDataPoints w r = Ret r' →
  in_step (r_dataPoints r') (r_dataPointMarkers r') ∧
  covers (r_dataPoints r') (r_dataPointMarkers r') (entries g).
Proof.
  intros Hstep Hdata Hcall.
  destruct (verifyDataPoints_lines w r g Hdata) as (lines & markers & Hret & Hin & Hout).
  rewrite Hret in Hcall. injection Hcall as <-. simpl.
  assert (in_step lines markers) as Hstep'.
  { intros key. destruct (entries g !! key) as [points|] eqn:Hkey.
    - destruct (Hin key points Hkey) as (-> & -> & _).
      by apply verified_markers_length.
    - destruct (Hout key Hkey) as [Hl Hm]. unfold lines_of, markers_of.
      rewrite Hl, Hm. apply Hstep. }
  split; [done|]. intros key points Hkey. rewrite (Hstep' key).
  destruct (Hin key points Hkey) as (-> & _ & _). rewrite verified_lines_length. lia.
Qed.

(** X8. On a widget with a data map [verifyDataPoints] returns, and keeps
    every line and marker the renderer has. For each series of the widget
    it appends one line and one marker, made in the point's colour, for
    each point beyond the lines the renderer has for the series; a series
    new to the renderer starts from no markers. The lines and markers of
    keys that are not in the widget's map are left as they are. *)
Theorem verifyDataPoints_appends (w : LineChartSkn) (r : sknLineChartRenderer)
  (g : gomap) :
  dataPoints w = Ptr g →
  ∃ r',
    verifyDataPoints w r = Ret r' ∧
    (∀ key points, entries g !! key = Some points →
       let old := lines_of (r_dataPoints r) key in
       lines_of (r_dataPoints r') key =
         old ++ (point_line <$> drop (length old) points) ∧
       markers_of (r_dataPointMarkers r') key =
         match r_dataPoints r !! key with
         | Some _ => markers_of (r_dataPointMarkers r) key
         | None => []
         end ++
         (point_marker <$> drop (length old) points)) ∧
    (∀ key, entries g !! key = None →
       r_dataPoints r' !! key = r_dataPoints r !! key ∧
       r_dataPointMarkers r' !! key = r_dataPointMarkers r !! key).
Proof.
  intros Hdata.
  destruct (verifyDataPoints_lines w r g Hdata) as (lines & markers & Hret & Hin & Hout).
  eexists. split; [done|]. simpl. split; [|done].
  intros key points Hkey. destruct (Hin key points Hkey) as (Hl & Hm & _).
  split; [done|]. rewrite Hm. unfold verified_markers.
  by destruct (r_dataPoints r !! key).
Qed.

(** What the constructor of the renderer returns on a widget with a data
    map. *)
Lemma newSknLineChartRenderer_returns (lineChart : LineChartSkn) (g : gomap) :
  dataPoints lineChart = Ptr g →
  ∃ r,
    newSknLineChartRenderer lineChart =
    Ret (r, set_objects (objects lineChart ++ renderer_objects lineChart) lineChart) ∧
    (∀ key, lines_of (r_dataPoints r) key = point_line <$> index g key) ∧
    (∀ key, markers_of (r_dataPointMarkers r) key = point_marker <$> index g key) ∧
    legend_Text (r_mouseDisplayContainer r) = "".
Proof.
  intros Hdata. unfold newSknLineChartRenderer. rewrite Hdata. simpl.
  destruct (create_all (range (entries g)) (∅, ∅) (NoDup_range (entries g)))
    as [Hin Hout].
  eexists. split; [done|]. simpl.
  assert (∀ key,
    lines_of (fold_left create_entry (range (entries g)) (∅, ∅)).1 key =
      point_line <$> index g key ∧
    markers_of (fold_left create_entry (range (entries g)) (∅, ∅)).2 key =
      point_marker <$> index g key) as Hall.
  { intros key. unfold index. destruct (entries g !! key) as [points|] eqn:Hkey.
    - apply elem_of_range in Hkey. destruct (Hin key points Hkey) as [-> ->]. done.
    - apply not_elem_of_range in Hkey. destruct (Hout key Hkey) as [Hl Hm].
      unfold lines_of, markers_of. by rewrite Hl, Hm. }
  split; [apply Hall|]. split; [apply Hall|done].
Qed.

(** X9. On a widget with a data map the constructor of the renderer
    returns a renderer with one line and one marker per data point, made in
    the point's colour and in the order of the series, and none for any
    other key; eleven grid lines each way; and the widget with 56 objects
    appended to its objects and every other field as it was. *)
Theorem newSknLineChartRenderer_lines (lineChart : LineChartSkn) (g : gomap) :
  dataPoints lineChart = Ptr g →
  ∃ r w',
    newSknLineChartRenderer lineChart = Ret (r, w') ∧
    (∀ key, lines_of (r_dataPoints r) key = point_line <$> index g key) ∧
    (∀ key, markers_of (r_dataPointMarkers r) key = point_marker <$> index g key) ∧
    length (r_xLines r) = 11%nat ∧ length (r_yLines r) = 11%nat ∧
    (∃ added, objects w' = objects lineChart ++ added ∧ length added = 56%nat) ∧
    (∀ f, f ≠ F_objects → read f w' = read f lineChart).
Proof.
  intros Hdata.
  destruct (newSknLineChartRenderer_returns lineChart g Hdata) as (r & Hnew & Hl & Hm & _).
  exists r. eexists. split; [done|]. split; [done|]. split; [done|].
  unfold newSknLineChartRenderer in Hnew. rewrite Hdata in Hnew. simpl in Hnew.
  injection Hnew as <-. split; [done|]. split; [done|].
  split; [by eexists|]. intros f Hf. by destruct f.
Qed.


(** The data-point step of [Layout] on a renderer that has a line and a
    marker for every point. *)
Lemma Layout_data_returns (s : fyne.Size) (w : LineChartSkn) (r : sknLineChartRenderer)
  (g : gomap) :
  dataPoints w = Ptr g →
  covers (r_dataPoints r) (r_dataPointMarkers r) (entries g) →
  ∃ lines markers,
    Layout_data s w r =
    Ret (set_dataPoints
           (Ptr match g with
                | NilMap => NilMap
                | Map _ => Map (fmap snd <$> (Layout_series s w <$> entries g))
                end) w,
         set_r_data lines markers r) ∧
    (∀ key data, entries g !! key = Some data →
       lines_of lines key =
         place_lines (fst <$> Layout_series s w data) (lines_of (r_dataPoints r) key) ∧
       markers_of markers key =
         place_markers (snd <$> Layout_series s w data)
           (markers_of (r_dataPointMarkers r) key)) ∧
    (∀ key, entries g !! key = None →
       lines !! key = r_dataPoints r !! key ∧
       markers !! key = r_dataPointMarkers r !! key).
Proof.
  intros Hdata Hcovers. unfold Layout_data. rewrite Hdata. simpl.
  destruct g as [|m].
  - exists (r_dataPoints r), (r_dataPointMarkers r). split; [|done]. f_equal. f_equal.
    + destruct w. simpl in *. by subst.
    + by destruct r.
  - simpl in Hcovers.
    destruct (layout_all s w (range m)
                {| state_lines := r_dataPoints r;
                   state_markers := r_dataPointMarkers r;
                   state_points := m |} (NoDup_range m))
      as (a' & Hfold & Hin & Hout).
    { intros key data Hel%elem_of_range. by apply Hcovers. }
    rewrite Hfold. simpl. exists (state_lines a'), (state_markers a').
    simpl in Hin, Hout. split; [|split].
    + f_equal. f_equal. f_equal. f_equal. f_equal. apply map_eq. intros key.
      rewrite !lookup_fmap. destruct (m !! key) as [data|] eqn:Hkey; simpl.
      * apply elem_of_range in Hkey. by destruct (Hin key data Hkey) as (_ & _ & ->).
      * pose proof Hkey as Hnot. apply not_elem_of_range in Hnot.
        destruct (Hout key Hnot) as (_ & _ & ->). done.
    + intros key data Hkey%elem_of_range. by destruct (Hin key data Hkey) as (? & ? & _).
    + intros key Hkey%not_elem_of_range. by destruct (Hout key Hkey) as (? & ? & _).
Qed.

(** With a series that has more points than the renderer has lines or
    markers for it, the step panics. *)
Lemma Layout_data_panics (s : fyne.Size) (w : LineChartSkn) (r : sknLineChartRenderer)
  (g : gomap) (key : string) (data : series) :
  dataPoints w = Ptr g → entries g !! key = Some data →
  ¬ ((length data ≤ length (lines_of (r_dataPoints r) key))%nat ∧
     (length data ≤ length (markers_of (r_dataPointMarkers r) key))%nat) →
  Layout_data s w r = Panic.
Proof.
  intros Hdata Hkey Hshort. unfold Layout_data. rewrite Hdata. simpl.
  destruct g as [|m]; simpl in Hkey; [by rewrite lookup_empty in Hkey|].
  rewrite (layout_all_panics s w (range m) _ key data (NoDup_range m)); [done| |done].
  by apply elem_of_range.
Qed.

Lemma Layout_data_covers (s : fyne.Size) (w w' : LineChartSkn)
  (r r' : sknLineChartRenderer) (g : gomap) :
  dataPoints w = Ptr g → Layout_data s w r = Ret (w', r') →
  covers (r_dataPoints r) (r_dataPointMarkers r) (entries g).
Proof.
  intros Hdata Hcall key data Hkey.
  destruct (decide ((length data ≤ length (lines_of (r_dataPoints r) key))%nat ∧
                    (length data ≤ length (markers_of (r_dataPointMarkers r) key))%nat))
    as [Hfit|Hshort]; [done|].
  by rewrite (Layout_data_panics s w r g key data Hdata Hkey Hshort) in Hcall.
Qed.

(** X10. On a widget with a data map, the data-point step of [Layout]
    returns exactly when the renderer has a line and a marker for every
    point of every series; with a series that has more points than the
    renderer has lines or markers for it, the step panics on the index out
    of range. *)
Theorem Layout_data_needs_lines (s : fyne.Size) (w : LineChartSkn)
  (r : sknLineChartRenderer) (g : gomap) :
  dataPoints w = Ptr g →
  ((∃ w' r', Layout_data s w r = Ret (w', r')) ↔
   covers (r_dataPoints r) (r_dataPointMarkers r) (entries g)) ∧
  (∀ key data, entries g !! key = Some data →
     (length (lines_of (r_dataPoints r) key) < length data)%nat ∨
     (length (markers_of (r_dataPointMarkers r) key) < length data)%nat →
     Layout_data s w r = Panic).
Proof.
  intros Hdata. split; [split|].
  - intros (w' & r' & Hcall). by eapply Layout_data_covers.
  - intros Hcovers.
    destruct (Layout_data_returns s w r g Hdata Hcovers) as (lines & markers & Hcall & _).
    by eexists _, _.
  - intros key data Hkey Hshort. apply (Layout_data_panics s w r g key data); [done..|].
    lia.
Qed.


End RendererData.

(** ** Drawing after a refresh *)

Lemma shown_markers_length (enable : bool) (n : nat) (markers : list canvasCircle) :
  length (shown_markers enable n markers) = length markers.
Proof.
  unfold shown_markers. rewrite length_app, length_fmap, length_take, length_drop. lia.
Qed.

Lemma shown_markers_lookup (enable : bool) (n : nat) (markers : list canvasCircle)
  (i : nat) :
  shown_markers enable n markers !! i =
  if decide (i < n)%nat then show_circle_if enable <$> markers !! i else markers !! i.
Proof.
  unfold shown_markers. destruct (decide (i < n)%nat) as [Hlt|Hge].
  - destruct (decide (i < length markers)%nat) as [Hin|Hout].
    + rewrite lookup_app_l by (rewrite length_fmap, length_take; lia).
      rewrite list_lookup_fmap. by rewrite lookup_take_lt.
    + rewrite (lookup_ge_None_2 markers i) by lia. simpl.
      apply lookup_ge_None_2.
      rewrite length_app, length_fmap, length_take, length_drop. lia.
  - destruct (decide (n ≤ length markers)%nat) as [Hin|Hout].
    + rewrite lookup_app_r by (rewrite length_fmap, length_take; lia).
      rewrite length_fmap, length_take, lookup_drop. f_equal. lia.
    + rewrite take_ge, drop_ge by lia. rewrite app_nil_r.
      rewrite (lookup_ge_None_2 markers i) by lia.
      apply lookup_ge_None_2. rewrite length_fmap. lia.
Qed.

Section Drawing.
Context `{Toolkit} `{GoRuntime} `{RendererRuntime}.

(** [Refresh] is [verifyDataPoints] followed by writes to the tooltip, the
    descriptions and the side boxes. *)
Lemma r_Refresh_returns (w : LineChartSkn) (r r0 : sknLineChartRenderer) :
  verifyDataPoints w r = Ret r0 →
  ∃ r1,
    r_Refresh w r = Ret r1 ∧
    r_dataPoints r1 = r_dataPoints r0 ∧
    r_dataPointMarkers r1 = r_dataPointMarkers r0 ∧
    r_xLines r1 = r_xLines r ∧ r_yLines r1 = r_yLines r ∧
    legend_Text (r_mouseDisplayContainer r1) = mouseDisplayStr w ∧
    border_StrokeColor (r_mouseDisplayContainer r1) = mouseDisplayFrameColor w ∧
    (∀ l, label_texts l r1 =
          match l with
          | MiddleLeft | MiddleRight => upper_runes (get_label l w)
          | _ => [get_label l w]
          end).
Proof.
  intros Hverify. unfold r_Refresh. rewrite Hverify. simpl.
  eexists. split; [done|]. simpl.
  assert (r_xLines r0 = r_xLines r ∧ r_yLines r0 = r_yLines r) as [-> ->].
  { unfold verifyDataPoints in Hverify. destruct (dataPoints w); [done|].
    simpl in Hverify. by injection Hverify as <-. }
  do 6 (split; [done|]).
  intros l. destruct l; simpl; try done.
  - unfold box_texts. rewrite <- list_fmap_compose. simpl.
    by rewrite list_fmap_id.
  - unfold box_texts. rewrite <- list_fmap_compose. simpl.
    by rewrite list_fmap_id.
Qed.

(** [Objects] on a renderer with a marker for each of its lines. *)
Lemma r_Objects_returns (w : LineChartSkn) (r : sknLineChartRenderer) :
  (∀ key, (length (lines_of (r_dataPoints r) key) ≤
           length (markers_of (r_dataPointMarkers r) key))%nat) →
  ∃ objs r',
    r_Objects w r = Ret (objs, r') ∧
    objs = objects w ++
           flat_map (λ kv, flat_map (λ _, [fyne.Line; fyne.Circle]) kv.2)
             (range_lines (r_dataPoints r)) ++ [fyne.Container] ∧
    r_dataPoints r' = r_dataPoints r ∧
    (∀ key, markers_of (r_dataPointMarkers r') key =
            shown_markers (EnableDataPointMarkers w)
              (length (lines_of (r_dataPoints r) key))
              (markers_of (r_dataPointMarkers r) key)) ∧
    r_xLines r' = (show_line_if (EnableHorizGridLines w) <$> r_xLines r) ∧
    r_yLines r' = (show_line_if (EnableVertGridLines w) <$> r_yLines r) ∧
    legend_Text (r_mouseDisplayContainer r') = legend_Text (r_mouseDisplayContainer r) ∧
    border_StrokeColor (r_mouseDisplayContainer r') =
      border_StrokeColor (r_mouseDisplayContainer r) ∧
    display_Position (r_mouseDisplayContainer r') =
      display_Position (r_mouseDisplayContainer r) ∧
    display_Hidden (r_mouseDisplayContainer r') =
      negb (EnableMousePointDisplay w &&
            nonempty (legend_Text (r_mouseDisplayContainer r))) ∧
    (∀ l, label_texts l r' = label_texts l r) ∧
    (∀ l, label_hidden l r' =
          match l with
          | MiddleLeft | MiddleRight => negb (nonempty (get_label l w))
          | _ => negb (match label_texts l r with
                       | [text] => nonempty text
                       | _ => false
                       end)
          end).
Proof.
  intros Hfit. unfold r_Objects.
  destruct (objects_all (EnableDataPointMarkers w) (range_lines (r_dataPoints r))
              (r_dataPointMarkers r) (NoDup_range_lines _))
    as (markers' & Hcall & Hin & Hout).
  { intros key lines Hkey%elem_of_range_lines. specialize (Hfit key).
    unfold lines_of in Hfit. by rewrite Hkey in Hfit. }
  rewrite Hcall. simpl. eexists _, _. split; [done|]. simpl.
  split; [done|]. split; [done|]. split.
  { intros key. destruct (r_dataPoints r !! key) as [lines|] eqn:Hkey.
    - unfold lines_of at 1. rewrite Hkey. simpl. by apply Hin, elem_of_range_lines.
    - unfold lines_of. rewrite Hkey. simpl. unfold shown_markers. simpl.
      rewrite drop_0. unfold markers_of. f_equal. by apply Hout, not_elem_of_range_lines. }
  do 6 (split; [done|]). split.
  - intros l. by destruct l.
  - intros l. by destruct l.
Qed.

(** With a key that has more lines than markers [Objects] panics. *)
Lemma r_Objects_panics (w : LineChartSkn) (r : sknLineChartRenderer) (key : string) :
  (length (markers_of (r_dataPointMarkers r) key) <
   length (lines_of (r_dataPoints r) key))%nat →
  r_Objects w r = Panic.
Proof.
  intros Hshort. unfold r_Objects.
  destruct (r_dataPoints r !! key) as [lines|] eqn:Hkey.
  - rewrite (objects_all_panics (EnableDataPointMarkers w) (range_lines (r_dataPoints r))
               (r_dataPointMarkers r) key lines (NoDup_range_lines _)); [done| |].
    + by apply elem_of_range_lines.
    + unfold lines_of in Hshort. by rewrite Hkey in Hshort.
  - unfold lines_of in Hshort. rewrite Hkey in Hshort. simpl in Hshort. lia.
Qed.

Lemma r_Objects_fits (w : LineChartSkn) (r r' : sknLineChartRenderer)
  (objs : list fyne.CanvasObject) :
  r_Objects w r = Ret (objs, r') →
  ∀ key, (length (lines_of (r_dataPoints r) key) ≤
          length (markers_of (r_dataPointMarkers r) key))%nat.
Proof.
  intros Hcall key.
  destruct (decide (length (lines_of (r_dataPoints r) key) ≤
                    length (markers_of (r_dataPointMarkers r) key))%nat) as [Hfit|Hshort];
    [done|].
  rewrite (r_Objects_panics w r key) in Hcall; [done|lia].
Qed.

(** The whole of [Layout] returns when its data-point step does. *)
Lemma r_Layout_returns (s : fyne.Size) (w : LineChartSkn) (r : sknLineChartRenderer)
  (g : gomap) :
  dataPoints w = Ptr g →
  covers (r_dataPoints r) (r_dataPointMarkers r) (entries g) →
  ∃ w' r',
    r_Layout s w r = Ret (w', r') ∧
    (∀ key, length (markers_of (r_dataPointMarkers r') key) =
            length (markers_of (r_dataPointMarkers r) key)) ∧
    (∀ key, length (lines_of (r_dataPoints r') key) =
            length (lines_of (r_dataPoints r) key)) ∧
    r_xLines r' = Layout_xLines s (r_xLines r) ∧
    r_yLines r' = Layout_yLines s (r_yLines r) ∧
    (∀ f, f ≠ F_dataPoints → f ≠ F_mouseDisplayPosition → read f w' = read f w).
Proof.
  intros Hdata Hcovers. unfold r_Layout.
  destruct (Layout_data_returns s w
              (set_r_grid (Layout_xLines s (r_xLines r)) (Layout_yLines s (r_yLines r)) r)
              g Hdata Hcovers) as (lines & markers & Hret & Hin & Hout).
  rewrite Hret. simpl. eexists _, _. split; [done|]. simpl.
  split; [|split; [|split; [done|split; [done|]]]].
  - intros key. destruct (entries g !! key) as [data|] eqn:Hkey.
    + destruct (Hin key data Hkey) as [_ ->]. apply place_markers_length.
      rewrite length_fmap, Layout_series_length. by apply Hcovers.
    + unfold markers_of. by destruct (Hout key Hkey) as [_ ->].
  - intros key. destruct (entries g !! key) as [data|] eqn:Hkey.
    + destruct (Hin key data Hkey) as [-> _]. apply place_lines_length.
      rewrite length_fmap, Layout_series_length. by apply Hcovers.
    + unfold lines_of. by destruct (Hout key Hkey) as [-> _].
  - intros f Hf Hf'. by destruct f.
Qed.

(** X12. A renderer with as many markers as lines for every key is ready to
    draw after [Refresh]: on a widget with a data map [Refresh] returns,
    and then both [Objects] and [Layout], for every size, return without
    a panic; the renderer still has as many markers as lines afterwards. *)
Theorem Refresh_then_draw (w : LineChartSkn) (r : sknLineChartRenderer) (g : gomap) :
  in_step (r_dataPoints r) (r_dataPointMarkers r) →
  dataPoints w = Ptr g →
  ∃ r1,
    r_Refresh w r = Ret r1 ∧
    in_step (r_dataPoints r1) (r_dataPointMarkers r1) ∧
    covers (r_dataPoints r1) (r_dataPointMarkers r1) (entries g) ∧
    (∃ objs r2, r_Objects w r1 = Ret (objs, r2) ∧
                in_step (r_dataPoints r2) (r_dataPointMarkers r2)) ∧
    (∀ s, ∃ w2 r2, r_Layout s w r1 = Ret (w2, r2) ∧
                   in_step (r_dataPoints r2) (r_dataPointMarkers r2)).
Proof.
  intros Hstep Hdata.
  destruct (verifyDataPoints_lines w r g Hdata) as (lines & markers & Hverify & _).
  destruct (verifyDataPoints_ready w r _ g Hstep Hdata Hverify) as [Hstep0 Hcovers0].
  destruct (r_Refresh_returns w r _ Hverify) as (r1 & Hrefresh & Hl & Hm & _).
  simpl in Hl, Hm, Hstep0, Hcovers0.
  exists r1. split; [done|]. rewrite Hl, Hm. split; [done|]. split; [done|]. split.
  - destruct (r_Objects_returns w r1) as (objs & r2 & Hobjs & _ & Hl2 & Hm2 & _).
    { intros key. rewrite Hl, Hm, (Hstep0 key). lia. }
    exists objs, r2. split; [done|]. intros key.
    rewrite (Hm2 key), shown_markers_length, Hl2, Hl, Hm. apply Hstep0.
  - intros s. destruct (r_Layout_returns s w r1 g Hdata) as (w2 & r2 & Hlayout & Hm2 & Hl2 & _).
    { by rewrite Hl, Hm. }
    exists w2, r2. split; [done|]. intros key.
    rewrite (Hm2 key), (Hl2 key), Hl, Hm. apply Hstep0.
Qed.

(** X13. The renderer that the constructor returns for a widget with a data
    map draws at once: on the widget the constructor leaves, [Objects] and
    [Layout], for every size, return without a panic. *)
Theorem new_renderer_draws (lineChart : LineChartSkn) (g : gomap) :
  dataPoints lineChart = Ptr g →
  ∃ r w',
    newSknLineChartRenderer lineChart = Ret (r, w') ∧
    (∃ objs r2, r_Objects w' r = Ret (objs, r2)) ∧
    (∀ s, ∃ w2 r2, r_Layout s w' r = Ret (w2, r2)).
Proof.
  intros Hdata.
  destruct (newSknLineChartRenderer_returns lineChart g Hdata) as (r & Hnew & Hl & Hm & _).
  exists r. eexists. split; [done|]. split.
  - destruct (r_Objects_returns
                (set_objects (objects lineChart ++ renderer_objects lineChart) lineChart) r)
      as (objs & r2 & Hobjs & _).
    { intros key. by rewrite Hl, Hm, !length_fmap. }
    by exists objs, r2.
  - intros s.
    destruct (r_Layout_returns s
                (set_objects (objects lineChart ++ renderer_objects lineChart) lineChart)
                r g) as (w2 & r2 & Hlayout & _).
    + done.
    + intros key data Hkey. rewrite Hl, Hm, !length_fmap. unfold index. by rewrite Hkey.
    + by exists w2, r2.
Qed.

End Drawing.

(** ** What is shown *)

(** No value is less than itself. *)
Lemma ltb_irrefl (x : float32) : float32.ltb x x = false.
Proof.
  unfold float32.ltb, SFltb.
  destruct x as [[]|[]| |[] m e]; simpl; try done.
  all: rewrite Z.compare_refl; by rewrite ?Pos.compare_cont_refl, ?Pos.compare_refl.
Qed.

(** The description of a point is not the empty text. *)
Lemma describe_nonempty `{Toolkit} (key : string) (idx : nat) (point : SknChartDatapoint) :
  nonempty (describe key idx point) = true.
Proof. done. Qed.

Section Display.
Context `{Toolkit} `{GoRuntime} `{RendererRuntime}.

(** X14. [Objects] returns when every key of the renderer has a marker for
    each of its lines, and panics when some key has fewer markers than
    lines. When it returns, the marker of every data line is shown if data
    point markers are enabled and hidden if not, the markers beyond the
    lines and the lines themselves are as they were, and the objects
    returned are the widget's objects, then lines and circles only, then
    the tooltip's container. *)
Theorem r_Objects_markers (w : LineChartSkn) (r : sknLineChartRenderer) :
  ((∀ key, (length (lines_of (r_dataPoints r) key) ≤
            length (markers_of (r_dataPointMarkers r) key))%nat) →
   ∃ objs r' data,
     r_Objects w r = Ret (objs, r') ∧
     r_dataPoints r' = r_dataPoints r ∧
     (∀ key i, (i < length (lines_of (r_dataPoints r) key))%nat →
        ∃ marker,
          markers_of (r_dataPointMarkers r) key !! i = Some marker ∧
          markers_of (r_dataPointMarkers r') key !! i =
          Some (set_circle_Hidden (negb (EnableDataPointMarkers w)) marker)) ∧
     (∀ key i, (length (lines_of (r_dataPoints r) key) ≤ i)%nat →
        markers_of (r_dataPointMarkers r') key !! i =
        markers_of (r_dataPointMarkers r) key !! i) ∧
     objs = objects w ++ data ++ [fyne.Container] ∧
     Forall (λ o, o = fyne.Line ∨ o = fyne.Circle) data) ∧
  (∀ key, (length (markers_of (r_dataPointMarkers r) key) <
           length (lines_of (r_dataPoints r) key))%nat →
     r_Objects w r = Panic).
Proof.
  split; [|intros key; apply r_Objects_panics].
  intros Hfit.
  destruct (r_Objects_returns w r Hfit) as (objs & r' & Hcall & Hobjs & Hl & Hm & _).
  eexists objs, r', _. split; [done|]. split; [done|]. split; [|split; [|split]].
  - intros key i Hi. specialize (Hfit key).
    destruct (lookup_lt_is_Some_2 (markers_of (r_dataPointMarkers r) key) i)
      as [marker Hmarker]; [lia|].
    exists marker. split; [done|].
    rewrite (Hm key), shown_markers_lookup, decide_True by done. by rewrite Hmarker.
  - intros key i Hi. rewrite (Hm key), shown_markers_lookup, decide_False by lia. done.
  - exact Hobjs.
  - apply Forall_forall. intros o Ho%list_elem_of_In.
    apply in_flat_map in Ho as ([key lines] & _ & Ho).
    apply in_flat_map in Ho as (_ & _ & Ho). simpl in Ho.
    destruct Ho as [<-|[<-|[]]]; auto.
Qed.

(** X15. After [Layout] and [Objects], each line of [xLines] runs from top
    to bottom, both ends at the same X, and is shown exactly when
    horizontal grid lines are enabled; each line of [yLines] runs from left
    to right, both ends at the same Y, and is shown exactly when vertical
    grid lines are enabled. There are as many grid lines as before. *)
Theorem grid_lines_drawn (s : fyne.Size) (w : LineChartSkn) (r : sknLineChartRenderer)
  (g : gomap) :
  dataPoints w = Ptr g →
  in_step (r_dataPoints r) (r_dataPointMarkers r) →
  covers (r_dataPoints r) (r_dataPointMarkers r) (entries g) →
  ∃ w1 r1 objs r2,
    r_Layout s w r = Ret (w1, r1) ∧
    r_Objects w1 r1 = Ret (objs, r2) ∧
    length (r_xLines r2) = length (r_xLines r) ∧
    length (r_yLines r2) = length (r_yLines r) ∧
    (∀ line, line ∈ r_xLines r2 →
       fyne.X (line_Position1 line) = fyne.X (line_Position2 line) ∧
       line_Hidden line = negb (EnableHorizGridLines w)) ∧
    (∀ line, line ∈ r_yLines r2 →
       fyne.Y (line_Position1 line) = fyne.Y (line_Position2 line) ∧
       line_Hidden line = negb (EnableVertGridLines w)).
Proof.
  intros Hdata Hstep Hcovers.
  destruct (r_Layout_returns s w r g Hdata Hcovers)
    as (w1 & r1 & Hlayout & Hm1 & Hl1 & Hx1 & Hy1 & Hframe).
  destruct (r_Objects_returns w1 r1) as (objs & r2 & Hobjs & _ & _ & _ & Hx2 & Hy2 & _).
  { intros key. rewrite (Hl1 key), (Hm1 key), (Hstep key). lia. }
  exists w1, r1, objs, r2. split; [done|]. split; [done|].
  rewrite Hx2, Hy2, Hx1, Hy1.
  pose proof (Hframe F_EnableHorizGridLines ltac:(done) ltac:(done)) as Hh.
  pose proof (Hframe F_EnableVertGridLines ltac:(done) ltac:(done)) as Hv.
  simpl in Hh, Hv. injection Hh as ->. injection Hv as ->.
  unfold Layout_xLines, Layout_yLines.
  split; [by rewrite length_fmap, length_imap|].
  split; [by rewrite length_fmap, length_imap|]. split.
  - intros line (line0 & -> & (i & line1 & -> & _)%elem_of_lookup_imap)%list_elem_of_fmap.
    done.
  - intros line (line0 & -> & (i & line1 & -> & _)%elem_of_lookup_imap)%list_elem_of_fmap.
    done.
Qed.

(** X16. After [Refresh] and [Objects] on a widget with a data map, every
    one of the eight labels is hidden exactly when its text in the widget
    is empty; the six descriptions show the widget's texts, and a side
    box whose label is made of ASCII characters holds one text per
    character of the label, in upper case and in order. *)
Theorem labels_shown (w : LineChartSkn) (r : sknLineChartRenderer) (g : gomap) :
  in_step (r_dataPoints r) (r_dataPointMarkers r) →
  dataPoints w = Ptr g →
  ∃ r1 objs r2,
    r_Refresh w r = Ret r1 ∧
    r_Objects w r1 = Ret (objs, r2) ∧
    ∀ l,
      label_hidden l r2 = negb (nonempty (get_label l w)) ∧
      match l with
      | MiddleLeft | MiddleRight =>
        is_ascii (get_label l w) = true →
        label_texts l r2 = upper_chars (get_label l w)
      | _ => label_texts l r2 = [get_label l w]
      end.
Proof.
  intros Hstep Hdata.
  destruct (verifyDataPoints_lines w r g Hdata) as (lines & markers & Hverify & _).
  destruct (verifyDataPoints_ready w r _ g Hstep Hdata Hverify) as [Hstep0 _].
  destruct (r_Refresh_returns w r _ Hverify)
    as (r1 & Hrefresh & Hl & Hm & _ & _ & _ & _ & Htexts).
  destruct (r_Objects_returns w r1)
    as (objs & r2 & Hobjs & _ & _ & _ & _ & _ & _ & _ & _ & _ & Htexts2 & Hhidden).
  { intros key. rewrite Hl, Hm, (Hstep0 key). lia. }
  exists r1, objs, r2. split; [done|]. split; [done|]. intros l.
  rewrite (Hhidden l), (Htexts2 l), (Htexts l).
  destruct l; (split; [done|]); try done; intros Hascii; by apply upper_runes_ascii.
Qed.

(** X17. After [MouseOut], [Refresh] and [Objects] the tooltip is hidden
    and its text is empty. *)
Theorem tooltip_hidden_after_MouseOut (w : LineChartSkn) (r : sknLineChartRenderer)
  (g : gomap) :
  in_step (r_dataPoints r) (r_dataPointMarkers r) →
  dataPoints w = Ptr g →
  ∃ r1 objs r2,
    r_Refresh (MouseOut w) r = Ret r1 ∧
    r_Objects (MouseOut w) r1 = Ret (objs, r2) ∧
    display_Hidden (r_mouseDisplayContainer r2) = true ∧
    legend_Text (r_mouseDisplayContainer r2) = "".
Proof.
  intros Hstep Hdata.
  assert (dataPoints (MouseOut w) = Ptr g) as Hdata' by done.
  destruct (verifyDataPoints_lines (MouseOut w) r g Hdata')
    as (lines & markers & Hverify & _).
  destruct (verifyDataPoints_ready (MouseOut w) r _ g Hstep Hdata' Hverify) as [Hstep0 _].
  destruct (r_Refresh_returns (MouseOut w) r _ Hverify)
    as (r1 & Hrefresh & Hl & Hm & _ & _ & Htext & _).
  destruct (r_Objects_returns (MouseOut w) r1)
    as (objs & r2 & Hobjs & _ & _ & _ & _ & _ & Htext2 & _ & _ & Hhidden & _).
  { intros key. rewrite Hl, Hm, (Hstep0 key). lia. }
  exists r1, objs, r2. split; [done|]. split; [done|].
  rewrite Hhidden, Htext2, Htext. simpl. split; [|done].
  by rewrite andb_false_r.
Qed.

(** X18. With mouse-point display enabled and the cursor within the marker
    of some point of the chart, after [MouseMoved], [Refresh] and
    [Objects] the tooltip is shown, its text describes a point the cursor
    is within, and its border has the colour of that point. *)
Theorem tooltip_shown_after_MouseMoved (me : desktop.MouseEvent) (w : LineChartSkn)
  (r : sknLineChartRenderer) (g : gomap) (key : string) (points : series)
  (idx : nat) (point : SknChartDatapoint) :
  in_step (r_dataPoints r) (r_dataPointMarkers r) →
  EnableMousePointDisplay w = true →
  dataPoints w = Ptr g →
  entries g !! key = Some points →
  points !! idx = Some point →
  within_marker (desktop.Position me) point →
  ∃ w' r1 objs r2 key' points' idx' point',
    MouseMoved me w = Ret w' ∧
    r_Refresh w' r = Ret r1 ∧
    r_Objects w' r1 = Ret (objs, r2) ∧
    entries g !! key' = Some points' ∧ points' !! idx' = Some point' ∧
    within_marker (desktop.Position me) point' ∧
    display_Hidden (r_mouseDisplayContainer r2) = false ∧
    legend_Text (r_mouseDisplayContainer r2) = describe key' idx' point' ∧
    border_StrokeColor (r_mouseDisplayContainer r2) = ColorName point'.
Proof.
  intros Hstep Hon Hdata Hkey Hidx Hin.
  rewrite (MouseMoved_enabled me w g Hon Hdata).
  set (w' := mouse_over_series (desktop.Position me) (range (entries g)) w).
  destruct (mouse_over_series_hit (desktop.Position me) (range (entries g)) w)
    as (key' & points' & i & point' & Hel%elem_of_range & Hi & Hunder & Hstr & Hcolor).
  { apply Exists_exists. exists (key, points). split; [by apply elem_of_range|].
    simpl. apply Exists_exists. exists point.
    split; [by eapply list_elem_of_lookup_2|by apply under_mouse_within]. }
  fold w' in Hstr, Hcolor.
  assert (dataPoints w' = Ptr g) as Hdata'.
  { pose proof (mouse_over_series_frame (desktop.Position me) (range (entries g)) w
                  F_dataPoints) as Hf.
    fold w' in Hf. simpl in Hf. rewrite Hdata in Hf.
    assert (¬ mouse_field F_dataPoints) as Hno
      by (unfold mouse_field; intros [|[|]]; done).
    specialize (Hf Hno). by injection Hf. }
  assert (EnableMousePointDisplay w' = true) as Hon'.
  { pose proof (mouse_over_series_frame (desktop.Position me) (range (entries g)) w
                  F_EnableMousePointDisplay) as Hf.
    fold w' in Hf. simpl in Hf. rewrite Hon in Hf.
    assert (¬ mouse_field F_EnableMousePointDisplay) as Hno
      by (unfold mouse_field; intros [|[|]]; done).
    specialize (Hf Hno). by injection Hf. }
  destruct (verifyDataPoints_lines w' r g Hdata') as (lines & markers & Hverify & _).
  destruct (verifyDataPoints_ready w' r _ g Hstep Hdata' Hverify) as [Hstep0 _].
  destruct (r_Refresh_returns w' r _ Hverify)
    as (r1 & Hrefresh & Hl & Hm & _ & _ & Htext & Hborder & _).
  destruct (r_Objects_returns w' r1)
    as (objs & r2 & Hobjs & _ & _ & _ & _ & _ & Htext2 & Hborder2 & _ & Hhidden & _).
  { intros k. rewrite Hl, Hm, (Hstep0 k). lia. }
  exists w', r1, objs, r2, key', points', i, point'.
  split; [done|]. split; [done|]. split; [done|]. split; [done|]. split; [done|].
  split; [by apply under_mouse_within|].
  rewrite Hhidden, Htext2, Hborder2, Htext, Hborder, Hon', Hstr, Hcolor.
  by rewrite describe_nonempty.
Qed.

(** X19. [Layout] moves the tooltip to the widget's tooltip position after
    keeping it off the edges: its Y is never less than a sixth of the
    padding, and its X is not less than an eighth of the padding unless the
    right-edge rule has set it to the canvas width less the width of the
    text before its bracket, the padding and a quarter of the padding. No
    other field of the widget changes, and the tooltip's text, colour and
    visibility stay. *)
Theorem Layout_mouseDisplay_edges (s : fyne.Size) (w : LineChartSkn)
  (r : sknLineChartRenderer) :
  let w' := (Layout_mouseDisplay s w r).1 in
  let display := r_mouseDisplayContainer (Layout_mouseDisplay s w r).2 in
  let ts := MeasureText (split_head_on " [ " (legend_Text (r_mouseDisplayContainer r)))
              (float32.of_Z 14) (text_style true true) in
  display_Position display = mouseDisplayPosition w' ∧
  float32.ltb (fyne.Y (mouseDisplayPosition w'))
    (float32.div theme_Padding (float32.of_Z 6)) = false ∧
  (float32.ltb (fyne.X (mouseDisplayPosition w'))
     (float32.div theme_Padding (float32.of_Z 8)) = false ∨
   fyne.X (mouseDisplayPosition w') =
   float32.sub
     (float32.sub (float32.sub (fyne.Width s) (fyne.Width ts)) theme_Padding)
     (float32.div theme_Padding (float32.of_Z 4))) ∧
  (∀ f, f ≠ F_mouseDisplayPosition → read f w' = read f w) ∧
  legend_Text display = legend_Text (r_mouseDisplayContainer r) ∧
  border_StrokeColor display = border_StrokeColor (r_mouseDisplayContainer r) ∧
  display_Hidden display = display_Hidden (r_mouseDisplayContainer r).
Proof.
  unfold Layout_mouseDisplay. simpl. split; [done|]. split; [|split].
  - destruct (float32.ltb (fyne.Y (mouseDisplayPosition w)) _) eqn:Hy; [|done].
    apply ltb_irrefl.
  - destruct (float32.gtb _ _); [by right|]. left.
    destruct (float32.ltb (fyne.X (mouseDisplayPosition w)) _) eqn:Hx; [|done].
    apply ltb_irrefl.
  - split; [|done]. intros f Hf. by destruct f.
Qed.

(** X21. [SetMinSize] overrides the minimum size the renderer reports:
    after it the renderer's [MinSize] is the size given, and no other field
    of the widget has changed. *)
Theorem SetMinSize_MinSize (s : fyne.Size) (w : LineChartSkn) :
  r_MinSize (SetMinSize s w) = s ∧
  ∀ f, f ≠ F_minSize → read f (SetMinSize s w) = read f w.
Proof.
  split; [by destruct s|]. intros f Hf. by destruct f.
Qed.

(** One call changes no field of the chart but the data map, the objects
    left aside. *)
Lemma call_frame (c : mutation) (w w' : LineChartSkn) (f : field) :
  call c w = Ret w' → f ≠ F_dataPoints → f ≠ F_objects → read f w' = read f w.
Proof.
  intros Hcall Hf _. destruct c as [newData|seriesName newSeries|seriesName p];
    unfold call in Hcall.
  - destruct (ReplaceAllDataSeries newData w) as [[w1 err]|] eqn:Hrep; [|done].
    simpl in Hcall. injection Hcall as <-.
    apply ReplaceAllDataSeries_cases in Hrep as [(_ & -> & _)|(_ & -> & _)]; [done|].
    by destruct f.
  - destruct (decide (len newSeries < DataPointXLimit w)) as [Hlt|Hge].
    + rewrite (proj1 (ApplyNewDataSeries_cases seriesName newSeries w)) in Hcall by done.
      destruct (dataPoints w) as [|[|m]]; try done. simpl in Hcall.
      injection Hcall as <-. by destruct f.
    + rewrite (proj2 (ApplyNewDataSeries_cases seriesName newSeries w)) in Hcall by lia.
      simpl in Hcall. by injection Hcall as <-.
  - rewrite ApplySingleDataPoint_cases in Hcall.
    destruct (dataPoints w) as [|[|m]]; try done. simpl in Hcall.
    injection Hcall as <-. by destruct f.
Qed.

(** X20. No run of [ReplaceAllDataSeries], [ApplyNewDataSeries] and
    [ApplySingleDataPoint] calls changes the limit, a toggle, a label, the
    tooltip, the scale or the minimum size of the chart: every field other
    than the data map and the objects is as before the run. *)
Theorem calls_change_only_data (cs : list mutation) (w w' : LineChartSkn) :
  calls cs w = Ret w' →
  ∀ f, f ≠ F_dataPoints → f ≠ F_objects → read f w' = read f w.
Proof.
  revert w. induction cs as [|c cs IH]; intros w; simpl.
  - by intros [= <-].
  - destruct (call c w) as [w1|] eqn:Hcall; simpl; [|done]. intros Hcalls f Hf Hobjects.
    rewrite (IH w1 Hcalls f Hf Hobjects). by apply (call_frame c).
Qed.

End Display.

(** ** The lines of a rolling series *)

Section RollingLines.
Context `{GoRuntime}.

(** X22. When a point is appended to a series that is at the limit, and the
    renderer has a line and a marker for every point of it, the series
    rolls but the renderer's lines do not: after [ApplySingleDataPoint]
    and [Refresh] the series is the old one without its first point and
    with the new point last, while the lines and markers of the series are
    the ones the renderer had, each still in the colour it was made
    with. *)
Theorem rolling_keeps_lines (w : LineChartSkn) (r : sknLineChartRenderer)
  (m : seriesmap) (seriesName : string) (old : series) (p : SknChartDatapoint) :
  dataPoints w = Ptr (Map m) →
  m !! seriesName = Some old →
  old ≠ [] →
  DataPointXLimit w <= len old →
  (length old ≤ length (lines_of (r_dataPoints r) seriesName))%nat →
  ∃ w' r',
    ApplySingleDataPoint seriesName p (Some w) = Ret (Some w') ∧
    verifyDataPoints w' r = Ret r' ∧
    dataPoints w' = Ptr (Map (<[seriesName := drop 1 old ++ [p]]> m)) ∧
    lines_of (r_dataPoints r') seriesName = lines_of (r_dataPoints r) seriesName ∧
    markers_of (r_dataPointMarkers r') seriesName =
    markers_of (r_dataPointMarkers r) seriesName.
Proof.
  intros Hdata Hkey Hne Hfull Hfit.
  rewrite ApplySingleDataPoint_cases, Hdata. unfold index. simpl. rewrite Hkey. simpl.
  rewrite decide_False by lia.
  set (w' := set_dataPoints _ w).
  destruct (verifyDataPoints_lines w' r (Map (<[seriesName := drop 1 old ++ [p]]> m)))
    as (lines & markers & Hverify & Hin & _); [done|].
  exists w', (set_r_data lines markers r). split; [done|]. split; [done|].
  split; [done|]. simpl.
  destruct (Hin seriesName (drop 1 old ++ [p])) as (Hl & Hm & _).
  { simpl. by rewrite lookup_insert_eq. }
  assert (drop (length (lines_of (r_dataPoints r) seriesName)) (drop 1 old ++ [p]) = [])
    as Hnone.
  { apply drop_ge. rewrite length_app, length_drop. simpl.
    destruct old; [done|]. simpl in *. lia. }
  rewrite Hl, Hm. unfold verified_lines, verified_markers. rewrite Hnone. simpl.
  rewrite !app_nil_r. split; [done|].
  unfold lines_of in Hfit. destruct (r_dataPoints r !! seriesName); [done|].
  destruct old; [done|]. simpl in Hfit. lia.
Qed.

End RollingLines.

(** ** Evaluated on the samples *)

Lemma sample_in_step : in_step sample_lines sample_markers.
Proof.
  intros key. unfold markers_of, lines_of, sample_lines, sample_markers.
  destruct (decide (key = "first")) as [->|Hne]; [done|].
  by rewrite !lookup_singleton_ne.
Qed.

Lemma sample_covers : covers sample_lines sample_markers sample_series.
Proof.
  intros key data Hkey. unfold sample_series in Hkey.
  apply lookup_singleton_Some in Hkey as [<- <-]. split; vm_compute; lia.
Qed.

(** X8, evaluated: a renderer with one line for a series of two points. *)
Lemma verifyDataPoints_appends_witness :
  ∃ r',
    @verifyDataPoints listed_runtime (sample_chart (Map sample_series))
      (sample_renderer {["first" := [point_line sample_point]]}
                       {["first" := [point_marker sample_point]]}) = Ret r' ∧
    lines_of (r_dataPoints r') "first" =
    [point_line sample_point; point_line marked_point].
Proof.
  destruct (@verifyDataPoints_appends listed_runtime (sample_chart (Map sample_series))
              (sample_renderer {["first" := [point_line sample_point]]}
                               {["first" := [point_marker sample_point]]})
              (Map sample_series) eq_refl) as (r' & Hcall & Hin & _).
  exists r'. split; [exact Hcall|].
  destruct (Hin "first" [sample_point; marked_point] eq_refl) as [Hl _].
  exact Hl.
Defined.

(** X9, evaluated. *)
Lemma newSknLineChartRenderer_lines_witness :
  ∃ r w',
    @newSknLineChartRenderer plain_toolkit listed_runtime listed_renderer_runtime
      (sample_chart (Map sample_series)) = Ret (r, w') ∧
    lines_of (r_dataPoints r) "first" =
    [point_line sample_point; point_line marked_point].
Proof.
  destruct (@newSknLineChartRenderer_lines plain_toolkit listed_runtime
              listed_renderer_runtime (sample_chart (Map sample_series))
              (Map sample_series) eq_refl) as (r & w' & Hcall & Hl & _).
  exists r, w'. split; [exact Hcall|]. exact (Hl "first").
Defined.

(** X10, evaluated: one line for two points. *)
Lemma Layout_data_needs_lines_witness :
  @Layout_data plain_toolkit listed_runtime listed_renderer_runtime sample_size
    (sample_chart (Map sample_series))
    (sample_renderer {["first" := [point_line sample_point]]}
                     {["first" := [point_marker sample_point]]}) = Panic.
Proof.
  destruct (@Layout_data_needs_lines plain_toolkit listed_runtime listed_renderer_runtime
              sample_size
              (sample_chart (Map sample_series))
              (sample_renderer {["first" := [point_line sample_point]]}
                               {["first" := [point_marker sample_point]]})
              (Map sample_series) eq_refl) as [_ Hpanics].
  apply (Hpanics "first" [sample_point; marked_point] eq_refl).
  left. vm_compute. lia.
Defined.


(** X12, evaluated. *)
Lemma Refresh_then_draw_witness :
  ∃ r1,
    @r_Refresh listed_runtime listed_renderer_runtime
      (sample_chart (Map sample_series))
      (sample_renderer sample_lines sample_markers) = Ret r1 ∧
    ∃ objs r2,
      @r_Objects listed_renderer_runtime (sample_chart (Map sample_series)) r1 =
      Ret (objs, r2).
Proof.
  destruct (@Refresh_then_draw plain_toolkit listed_runtime listed_renderer_runtime
              (sample_chart (Map sample_series))
              (sample_renderer sample_lines sample_markers)
              (Map sample_series) sample_in_step eq_refl)
    as (r1 & Hrefresh & _ & _ & (objs & r2 & Hobjs & _) & _).
  exists r1. split; [exact Hrefresh|]. exists objs, r2. exact Hobjs.
Defined.

(** X13, evaluated. *)
Lemma new_renderer_draws_witness :
  ∃ r w',
    @newSknLineChartRenderer plain_toolkit listed_runtime listed_renderer_runtime
      (sample_chart (Map sample_series)) = Ret (r, w') ∧
    ∃ w2 r2,
      @r_Layout plain_toolkit listed_runtime listed_renderer_runtime sample_size w' r = Ret (w2, r2).
Proof.
  destruct (@new_renderer_draws plain_toolkit listed_runtime listed_renderer_runtime
              (sample_chart (Map sample_series)) (Map sample_series) eq_refl)
    as (r & w' & Hnew & _ & Hlayout).
  exists r, w'. split; [exact Hnew|]. exact (Hlayout sample_size).
Defined.

(** X15, evaluated. *)
Lemma grid_lines_drawn_witness :
  ∃ w1 r1 objs r2,
    @r_Layout plain_toolkit listed_runtime listed_renderer_runtime sample_size
      (sample_chart (Map sample_series))
      (sample_renderer sample_lines sample_markers) = Ret (w1, r1) ∧
    @r_Objects listed_renderer_runtime w1 r1 = Ret (objs, r2) ∧
    length (r_xLines r2) = 11%nat.
Proof.
  destruct (@grid_lines_drawn plain_toolkit listed_runtime listed_renderer_runtime
              sample_size (sample_chart (Map sample_series))
              (sample_renderer sample_lines sample_markers)
              (Map sample_series) eq_refl sample_in_step sample_covers)
    as (w1 & r1 & objs & r2 & Hlayout & Hobjs & Hx & _).
  exists w1, r1, objs, r2. split; [exact Hlayout|]. split; [exact Hobjs|exact Hx].
Defined.

(** X16, evaluated: the top right label of the sample chart is empty, and
    its left side label is [left middle desc]. *)
Lemma labels_shown_witness :
  ∃ r1 objs r2,
    @r_Refresh listed_runtime listed_renderer_runtime
      (sample_chart (Map sample_series))
      (sample_renderer sample_lines sample_markers) = Ret r1 ∧
    @r_Objects listed_renderer_runtime (sample_chart (Map sample_series)) r1 =
    Ret (objs, r2) ∧
    label_hidden TopRight r2 = true ∧ label_hidden Title r2 = false ∧
    label_texts MiddleLeft r2 =
    ["L"; "E"; "F"; "T"; " "; "M"; "I"; "D"; "D"; "L"; "E"; " "; "D"; "E"; "S"; "C"].
Proof.
  destruct (@labels_shown listed_runtime listed_renderer_runtime
              (sample_chart (Map sample_series))
              (sample_renderer sample_lines sample_markers)
              (Map sample_series) sample_in_step eq_refl)
    as (r1 & objs & r2 & Hrefresh & Hobjs & Hlabels).
  exists r1, objs, r2. split; [exact Hrefresh|]. split; [exact Hobjs|].
  split; [exact (proj1 (Hlabels TopRight))|].
  split; [exact (proj1 (Hlabels Title))|].
  exact (proj2 (Hlabels MiddleLeft) eq_refl).
Defined.

(** X17, evaluated. *)
Lemma tooltip_hidden_after_MouseOut_witness :
  ∃ r1 objs r2,
    @r_Refresh listed_runtime listed_renderer_runtime
      (MouseOut (sample_chart (Map sample_series)))
      (sample_renderer sample_lines sample_markers) = Ret r1 ∧
    @r_Objects listed_renderer_runtime
      (MouseOut (sample_chart (Map sample_series))) r1 = Ret (objs, r2) ∧
    display_Hidden (r_mouseDisplayContainer r2) = true.
Proof.
  destruct (@tooltip_hidden_after_MouseOut listed_runtime listed_renderer_runtime
              (sample_chart (Map sample_series))
              (sample_renderer sample_lines sample_markers)
              (Map sample_series) sample_in_step eq_refl)
    as (r1 & objs & r2 & Hrefresh & Hobjs & Hhidden & _).
  exists r1, objs, r2. split; [exact Hrefresh|]. split; [exact Hobjs|exact Hhidden].
Defined.

(** X18, evaluated: the cursor at (100, 50) within the marker of the second
    point. *)
Lemma tooltip_shown_after_MouseMoved_witness :
  ∃ w' r1 objs r2,
    @MouseMoved plain_toolkit listed_runtime
      {| desktop.Position := fyne.NewPos (float32.of_Z 100) (float32.of_Z 50);
         desktop.Button := desktop.MouseButtonPrimary |}
      (sample_chart (Map sample_series)) = Ret w' ∧
    @r_Refresh listed_runtime listed_renderer_runtime w'
      (sample_renderer sample_lines sample_markers) = Ret r1 ∧
    @r_Objects listed_renderer_runtime w' r1 = Ret (objs, r2) ∧
    display_Hidden (r_mouseDisplayContainer r2) = false.
Proof.
  destruct (@tooltip_shown_after_MouseMoved plain_toolkit listed_runtime
              listed_renderer_runtime
              {| desktop.Position := fyne.NewPos (float32.of_Z 100) (float32.of_Z 50);
                 desktop.Button := desktop.MouseButtonPrimary |}
              (sample_chart (Map sample_series))
              (sample_renderer sample_lines sample_markers)
              (Map sample_series) "first" [sample_point; marked_point] 1 marked_point
              sample_in_step eq_refl eq_refl eq_refl eq_refl)
    as (w' & r1 & objs & r2 & key' & points' & idx' & point' & Hmoved & Hrefresh &
        Hobjs & _ & _ & _ & Hshown & _).
  { repeat split; vm_compute; reflexivity. }
  exists w', r1, objs, r2. split; [exact Hmoved|]. split; [exact Hrefresh|].
  split; [exact Hobjs|exact Hshown].
Defined.

(** X20, evaluated on the sample run: the limit, the title, the marker
    toggle and the minimum size are as before. *)
Lemma calls_change_only_data_witness :
  read F_DataPointXLimit
    (set_dataPoints (Ptr (Map {["first" := replicate 120 sample_point]}))
       (sample_chart (Map ∅))) = read F_DataPointXLimit (sample_chart (Map ∅)) ∧
  read F_TopCenteredLabel
    (set_dataPoints (Ptr (Map {["first" := replicate 120 sample_point]}))
       (sample_chart (Map ∅))) = read F_TopCenteredLabel (sample_chart (Map ∅)) ∧
  read F_EnableDataPointMarkers
    (set_dataPoints (Ptr (Map {["first" := replicate 120 sample_point]}))
       (sample_chart (Map ∅))) = read F_EnableDataPointMarkers (sample_chart (Map ∅)) ∧
  read F_minSize
    (set_dataPoints (Ptr (Map {["first" := replicate 120 sample_point]}))
       (sample_chart (Map ∅))) = read F_minSize (sample_chart (Map ∅)).
Proof.
  pose proof (@calls_change_only_data listed_runtime sample_calls (sample_chart (Map ∅))
                (set_dataPoints (Ptr (Map {["first" := replicate 120 sample_point]}))
                   (sample_chart (Map ∅)))) as Hframe.
  assert (@calls listed_runtime sample_calls (sample_chart (Map ∅)) =
          Ret (set_dataPoints (Ptr (Map {["first" := replicate 120 sample_point]}))
                 (sample_chart (Map ∅)))) as Hcalls by (vm_compute; reflexivity).
  specialize (Hframe Hcalls).
  split; [apply Hframe; discriminate|].
  split; [apply Hframe; discriminate|].
  split; apply Hframe; discriminate.
Defined.

(** X22, evaluated: a series of 120 points with a line for each. *)
Lemma rolling_keeps_lines_witness :
  ∃ w' r',
    ApplySingleDataPoint "many" marked_point
      (Some (sample_chart (Map {["many" := replicate 120 sample_point]}))) =
    Ret (Some w') ∧
    @verifyDataPoints listed_runtime w'
      (sample_renderer {["many" := replicate 120 (point_line sample_point)]}
                       {["many" := replicate 120 (point_marker sample_point)]}) =
    Ret r' ∧
    lines_of (r_dataPoints r') "many" = replicate 120 (point_line sample_point).
Proof.
  destruct (@rolling_keeps_lines listed_runtime
              (sample_chart (Map {["many" := replicate 120 sample_point]}))
              (sample_renderer {["many" := replicate 120 (point_line sample_point)]}
                               {["many" := replicate 120 (point_marker sample_point)]})
              {["many" := replicate 120 sample_point]} "many"
              (replicate 120 sample_point) marked_point eq_refl)
    as (w' & r' & Hcall & Hverify & _ & Hl & _).
  - vm_compute. reflexivity.
  - discriminate.
  - vm_compute. discriminate.
  - vm_compute. lia.
  - exists w', r'. split; [exact Hcall|]. split; [exact Hverify|].
    rewrite Hl. vm_compute. reflexivity.
Defined.
